(** * ExecuTorch Flutter C wrapper: tensor marshaling, error channel, forward

    A shallow embedding of the C/C++ wrapper under [src/c_wrapper]:
    - [error_mapping.c]: the fixed-size error record and its two writers;
    - [executorch_flutter_wrapper.c]: dtype and shape utilities;
    - [tensor_utils.c]: validation, byte-size computation, copy;
    - [executorch_flutter_wrapper.cpp]: the two converters, the forward
      call and the release of an output set.

    Machine integers are [Z] with the wrap-around written out, [char]
    buffers are [list ascii], raw tensor bytes are [Byte.byte], pointers
    are addresses ([N], 0 is NULL) into a heap of blocks, and code that
    allocates or frees runs in a state monad whose failure value stands
    for undefined behaviour of the C program. *)

From Stdlib Require Import ZArith Ascii String Lia.
From Stdlib.Strings Require Import Byte.
From stdpp Require Import gmap strings list fin_maps pretty.

Local Open Scope Z_scope.

(** ** Integer types of the ABI *)

(** [static_cast<size_t>]: unsigned 64 bits. *)
Definition to_size_t (z : Z) : Z := z mod 2 ^ 64.

(** [static_cast<int32_t>]: signed 32 bits, two's complement. *)
Definition to_int32 (z : Z) : Z := (z + 2 ^ 31) mod 2 ^ 32 - 2 ^ 31.

(** [static_cast<int64_t>]: signed 64 bits, two's complement. *)
Definition to_int64 (z : Z) : Z := (z + 2 ^ 63) mod 2 ^ 64 - 2 ^ 63.

(** ** Constants of [executorch_flutter_wrapper.h] *)

Definition ET_FLUTTER_MAX_TENSOR_DIMS : Z := 8.
Definition ET_FLUTTER_MAX_INPUTS : Z := 16.
Definition ET_FLUTTER_MAX_OUTPUTS : Z := 16.
Definition ET_FLUTTER_ERROR_MESSAGE_MAX_LEN : Z := 256.
Definition ET_FLUTTER_TENSOR_NAME_MAX_LEN : Z := 64.
Definition ET_FLUTTER_FILE_PATH_MAX_LEN : Z := 512.

(** The enumerators of [ETFlutterDataType].  A value of the enum type
    travels as a C [int], so the field is a [Z] and values outside the four
    enumerators exist. *)
Definition ET_FLUTTER_DTYPE_FLOAT32 : Z := 0.
Definition ET_FLUTTER_DTYPE_INT32 : Z := 1.
Definition ET_FLUTTER_DTYPE_INT8 : Z := 2.
Definition ET_FLUTTER_DTYPE_UINT8 : Z := 3.

(** ** [error_codes.h] *)

Inductive ETFlutterErrorCode : Set :=
  | ET_FLUTTER_SUCCESS
  | ET_FLUTTER_ERROR_MODEL_LOAD
  | ET_FLUTTER_ERROR_INFERENCE
  | ET_FLUTTER_ERROR_VALIDATION
  | ET_FLUTTER_ERROR_MEMORY
  | ET_FLUTTER_ERROR_IO
  | ET_FLUTTER_ERROR_PLATFORM
  | ET_FLUTTER_ERROR_INVALID_HANDLE
  | ET_FLUTTER_ERROR_INVALID_ARGUMENT.

#[global] Instance ETFlutterErrorCode_eq_dec : EqDecision ETFlutterErrorCode.
Proof. solve_decision. Defined.

(** ** C strings in fixed [char] arrays *)

(** The text a [char] array holds when read as a C string: everything in
    front of the first NUL. *)
Fixpoint cstr (buf : list ascii) : list ascii :=
  match buf with
  | [] => []
  | c :: rest => if decide (c = zero) then [] else c :: cstr rest
  end.

(** [vsnprintf(buf, size, ...)] where [text] is the fully formatted output:
    at most [size - 1] characters are stored, then a NUL; the bytes of
    [buf] behind that NUL keep their old value; [size = 0] stores nothing. *)
Definition vsnprintf (buf : list ascii) (size : nat) (text : list ascii)
  : list ascii :=
  match size with
  | O => buf
  | S room =>
      let written := take room text ++ [zero] in
      written ++ drop (length written) buf
  end.

(** [strncpy(dst, src, n)]: the characters of [src] up to its NUL or up to
    [n] of them, NUL padding up to [n], the rest of [dst] untouched. *)
Definition strncpy (dst src : list ascii) (n : nat) : list ascii :=
  let copied := take n (cstr src) in
  copied ++ replicate (n - length copied) zero ++ drop n dst.

(** ** [error_mapping.c] *)

Record ETFlutterError : Type := mkError {
  code : ETFlutterErrorCode;
  message : list ascii        (* char message[256] *)
}.

(** The body of [et_flutter_set_error] behind the NULL check.  The variadic
    format and its arguments enter as the text they format to. *)
Definition write_error (e : ETFlutterError) (c : ETFlutterErrorCode)
    (formatted : string) : ETFlutterError :=
  let buf := vsnprintf (message e)
               (Z.to_nat ET_FLUTTER_ERROR_MESSAGE_MAX_LEN)
               (list_ascii_of_string formatted) in
  {| code := c;
     message := <[Z.to_nat (ET_FLUTTER_ERROR_MESSAGE_MAX_LEN - 1) := zero]> buf |}.

(** A NULL [error] pointer is [None]; the record is returned updated. *)
Definition et_flutter_set_error (error : option ETFlutterError)
    (c : ETFlutterErrorCode) (formatted : string) : option ETFlutterError :=
  match error with
  | None => None
  | Some e => Some (write_error e c formatted)
  end.

Definition et_flutter_set_error_v (error : option ETFlutterError)
    (c : ETFlutterErrorCode) (formatted : string) : option ETFlutterError :=
  match error with
  | None => None
  | Some e => Some (write_error e c formatted)
  end.

(** The body of [et_flutter_clear_error] behind the NULL check. *)
Definition reset_error (e : ETFlutterError) : ETFlutterError :=
  {| code := ET_FLUTTER_SUCCESS; message := <[O := zero]> (message e) |}.

Definition et_flutter_clear_error (error : option ETFlutterError)
  : option ETFlutterError :=
  match error with
  | None => None
  | Some e => Some (reset_error e)
  end.

(** The record invariant of the error channel: the code is SUCCESS exactly
    when the message, read as a C string, is empty. *)
Definition error_invariant (e : ETFlutterError) : Prop :=
  code e = ET_FLUTTER_SUCCESS ↔ cstr (message e) = [].

(** ** Tensor descriptors *)

Record ETFlutterTensorShape : Type := mkShape {
  num_dims : Z;               (* int32_t *)
  dims : list Z               (* int64_t dims[8] *)
}.

Record ETFlutterTensorData : Type := mkTensor {
  shape : ETFlutterTensorShape;
  dtype : Z;                  (* ETFlutterDataType *)
  data : N;                   (* void*, 0 is NULL *)
  data_size : Z;              (* size_t *)
  name : list ascii           (* char name[64] *)
}.

(** ** [executorch_flutter_wrapper.c] *)

Definition et_flutter_dtype_size (dt : Z) : Z :=
  match dt with
  | 0 => 4
  | 1 => 4
  | 2 => 1
  | 3 => 1
  | _ => 0
  end.

Definition et_flutter_dtype_name (dt : Z) : string :=
  match dt with
  | 0 => "float32"
  | 1 => "int32"
  | 2 => "int8"
  | 3 => "uint8"
  | _ => "unknown"
  end.

(** The loop [for (i = 0; i < num_dims; i++) acc *= (size_t)dims[i]] shared
    by the two size functions, followed index by index: [n] iterations
    are left, [i] is the index, [acc] the product so far.  The array has
    eight entries; the loop reads [dims[i]] for every [i] below
    [num_dims], and a read outside the array is undefined ([None]). *)
Fixpoint dims_product_from (n i : nat) (ds : list Z) (acc : Z) : option Z :=
  match n with
  | O => Some acc
  | S n' =>
      match ds !! i with
      | None => None
      | Some d => dims_product_from n' (S i) ds (to_size_t (acc * to_size_t d))
      end
  end.

Definition dims_product_loop (s : ETFlutterTensorShape) : option Z :=
  dims_product_from (Z.to_nat (num_dims s)) O (dims s) 1.

(** The value of that loop when it stays inside the array, as a fold
    over [dims[0 .. num_dims)] (see [dims_loop_in_bounds] below).  For
    [num_dims > 8] the C loop reads past the array, which this fold does
    not follow: every use of the size functions in this development sits
    behind the rank check of [et_flutter_tensor_validate], behind the
    rank guard of [convert_from_executorch_tensor], or under the
    hypothesis [dims_read_in_bounds]. *)
Definition dims_product (s : ETFlutterTensorShape) : Z :=
  fold_left (λ acc d, to_size_t (acc * to_size_t d))
            (take (Z.to_nat (num_dims s)) (dims s)) 1.

Definition et_flutter_shape_element_count
    (s : option ETFlutterTensorShape) : Z :=
  match s with
  | None => 0
  | Some s => if decide (num_dims s ≤ 0) then 0 else dims_product s
  end.

Definition et_flutter_version : string := "0.0.2-ffi".

(** ** [tensor_utils.c] *)

Definition et_flutter_tensor_data_size
    (tensor : option ETFlutterTensorData) : Z :=
  match tensor with
  | None => 0
  | Some t =>
      let total_elements := dims_product (shape t) in
      let element_size := et_flutter_dtype_size (dtype t) in
      to_size_t (total_elements * element_size)
  end.

(** The diagnostics of validation, as [printf] renders them. *)
Definition msg_num_dims (n : Z) : string :=
  "Invalid number of dimensions: " +:+ pretty n +:+ " (must be 1-"
    +:+ pretty ET_FLUTTER_MAX_TENSOR_DIMS +:+ ")".

Definition msg_dim_size (i : nat) (d : Z) : string :=
  "Invalid dimension size at index " +:+ pretty i +:+ ": " +:+ pretty d
    +:+ " (must be > 0)".

Definition msg_size_mismatch (got expected : Z) : string :=
  "Tensor data size mismatch: got " +:+ pretty got +:+ " bytes, expected "
    +:+ pretty expected +:+ " bytes".

(** The scan [for (i = 0; i < num_dims; i++) if (dims[i] <= 0) return ...]:
    the first offending index and its value. *)
Definition first_bad_dim (s : ETFlutterTensorShape) : option (nat * Z) :=
  list_find (λ d, d ≤ 0) (take (Z.to_nat (num_dims s)) (dims s)).

Definition et_flutter_tensor_validate
    (tensor : option ETFlutterTensorData) (error : option ETFlutterError)
  : ETFlutterErrorCode * option ETFlutterError :=
  match tensor with
  | None =>
      (ET_FLUTTER_ERROR_INVALID_ARGUMENT,
       et_flutter_set_error error ET_FLUTTER_ERROR_INVALID_ARGUMENT
         "Tensor pointer is NULL")
  | Some t =>
      if decide (num_dims (shape t) < 1
                 ∨ num_dims (shape t) > ET_FLUTTER_MAX_TENSOR_DIMS) then
        (ET_FLUTTER_ERROR_VALIDATION,
         et_flutter_set_error error ET_FLUTTER_ERROR_VALIDATION
           (msg_num_dims (num_dims (shape t))))
      else
        match first_bad_dim (shape t) with
        | Some (i, d) =>
            (ET_FLUTTER_ERROR_VALIDATION,
             et_flutter_set_error error ET_FLUTTER_ERROR_VALIDATION
               (msg_dim_size i d))
        | None =>
            if decide (data t = 0%N) then
              (ET_FLUTTER_ERROR_INVALID_ARGUMENT,
               et_flutter_set_error error ET_FLUTTER_ERROR_INVALID_ARGUMENT
                 "Tensor data pointer is NULL")
            else
              let expected_size := et_flutter_tensor_data_size tensor in
              if decide (data_size t ≠ expected_size) then
                (ET_FLUTTER_ERROR_VALIDATION,
                 et_flutter_set_error error ET_FLUTTER_ERROR_VALIDATION
                   (msg_size_mismatch (data_size t) expected_size))
              else
                (ET_FLUTTER_SUCCESS, et_flutter_clear_error error)
        end
  end.

(** [et_flutter_validate_tensor] of the public header forwards. *)
Definition et_flutter_validate_tensor := et_flutter_tensor_validate.

(** ** Memory

    A pointer is the address of a block.  A block is either raw bytes (a
    buffer of a given length, read by offset) or a tensor struct that was
    written into an allocation.  [malloc] hands out fresh addresses and may
    fail: the list [malloc_oracle] fixes, call by call, whether the
    allocator returns NULL ([false]); once the list is used up every call
    succeeds.  [engine_calls] counts invocations of the native engine. *)

Record buffer : Type := mkBuffer {
  buf_len : Z;
  buf_at : Z → byte
}.

Inductive block : Type :=
  | BStruct (t : ETFlutterTensorData)
  | BData (b : buffer).

Record state : Type := mkState {
  blocks : gmap N block;
  next_addr : N;
  malloc_oracle : list bool;
  engine_calls : nat
}.

(** Computations over the state; [None] is undefined behaviour (a read or
    write outside an array, a [free] of something not allocated, a copy
    from or to a block that is too short). *)
Definition M (A : Type) : Type := state → option (A * state).

#[global] Instance M_ret : MRet M := λ A a s, Some (a, s).

#[global] Instance M_bind : MBind M := λ A B f m s,
  match m s with
  | Some (a, s') => f a s'
  | None => None
  end.

Definition undefined {A : Type} : M A := λ _, None.

Definition set_blocks (s : state) (m : gmap N block) : state :=
  mkState m (next_addr s) (malloc_oracle s) (engine_calls s).

Definition malloc (size : Z) : M N := λ s,
  match malloc_oracle s with
  | false :: rest =>
      Some (0%N, mkState (blocks s) (next_addr s) rest (engine_calls s))
  | _ =>
      let p := next_addr s in
      Some (p, mkState (<[p := BData (mkBuffer size (λ _, x00))]> (blocks s))
                       (N.succ p) (tail (malloc_oracle s)) (engine_calls s))
  end.

Definition free (p : N) : M unit := λ s,
  if decide (p = 0%N) then Some (tt, s)
  else match blocks s !! p with
       | Some _ => Some (tt, set_blocks s (delete p (blocks s)))
       | None => None
       end.

(** Reading and writing a tensor struct through a pointer to it. *)
Definition load_struct (p : N) : M ETFlutterTensorData := λ s,
  match blocks s !! p with
  | Some (BStruct t) => Some (t, s)
  | _ => None
  end.

Definition store_struct (p : N) (t : ETFlutterTensorData) : M unit := λ s,
  match blocks s !! p with
  | Some _ => Some (tt, set_blocks s (<[p := BStruct t]> (blocks s)))
  | None => None
  end.

Definition memcpy (dst src : N) (n : Z) : M unit := λ s,
  match blocks s !! src, blocks s !! dst with
  | Some (BData from), Some (BData to) =>
      if decide (n ≤ buf_len from ∧ n ≤ buf_len to) then
        let copied :=
          mkBuffer (buf_len to)
                   (λ i, if decide (0 ≤ i < n) then buf_at from i
                         else buf_at to i) in
        Some (tt, set_blocks s (<[dst := BData copied]> (blocks s)))
      else None
  | _, _ => None
  end.

(** ** [et_flutter_tensor_copy] of [tensor_utils.c]

    [src] and [dst] are pointers to structs of the caller ([None] is NULL);
    the updated [*dst] and [*error] are returned next to the code. *)
Definition et_flutter_tensor_copy
    (src dst : option ETFlutterTensorData) (error : option ETFlutterError)
  : M (ETFlutterErrorCode * option ETFlutterTensorData * option ETFlutterError) :=
  match src, dst with
  | Some s, Some d =>
      let '(result, error') := et_flutter_tensor_validate src error in
      if decide (result ≠ ET_FLUTTER_SUCCESS) then
        mret (result, dst, error')
      else
        (if decide (data d ≠ 0%N ∧ data s ≠ 0%N)
         then memcpy (data d) (data s) (data_size s)
         else mret tt) ;;
        let name' :=
          if decide (hd zero (name s) ≠ zero) then
            <[Z.to_nat (ET_FLUTTER_TENSOR_NAME_MAX_LEN - 1) := zero]>
              (strncpy (name d) (name s)
                       (Z.to_nat (ET_FLUTTER_TENSOR_NAME_MAX_LEN - 1)))
          else <[O := zero]> (name d) in
        mret (ET_FLUTTER_SUCCESS,
              Some (mkTensor (shape s) (dtype s) (data d) (data_size s) name'),
              et_flutter_clear_error error')
  | _, _ =>
      mret (ET_FLUTTER_ERROR_INVALID_ARGUMENT, dst,
            et_flutter_set_error error ET_FLUTTER_ERROR_INVALID_ARGUMENT
              "Source or destination tensor is NULL")
  end.

(** ** The native engine, at its interface

    A C++ [Tensor] is a handle: a pointer to a [TensorImpl].  The record
    [Tensor] is a handle on a [TensorImpl] that exists, by what the
    wrapper reads through it: the scalar type, the sizes, the data
    pointer.  A [DanglingTensor] is a handle on a [TensorImpl] whose
    lifetime has ended; [impl_held] records what that object held while it
    existed, and nothing can be read through the handle any more.  The
    engine itself is a function from the input values to what
    [Module::forward] does with them; the buffers its output tensors
    point to are blocks of the same heap, and it does not go through the
    wrapper's allocator. *)

Module ScalarType.
Inductive t : Set :=
  | Byte | Char | Short | Int | Long | Half | Float | Double | Bool.
End ScalarType.

Record Tensor : Type := mkNative {
  scalar_type : ScalarType.t;
  sizes : list Z;
  const_data_ptr : N
}.

Definition dim (t : Tensor) : Z := Z.of_nat (length (sizes t)).

Record DanglingTensor : Type := mkDangling {
  impl_held : Tensor
}.

(** An [EValue] stores its tag next to its payload, so [isTensor] can be
    asked of a value whose tensor handle dangles. *)
Inductive EValue : Type :=
  | EV_None
  | EV_Int (i : Z)
  | EV_Bool (b : bool)
  | EV_Tensor (t : Tensor)
  | EV_DanglingTensor (t : DanglingTensor).

Definition isTensor (v : EValue) : bool :=
  match v with
  | EV_Tensor _ => true
  | EV_DanglingTensor _ => true
  | _ => false
  end.

(** [Result<T>]: a value or the engine's error code. *)
Inductive Result (A : Type) : Type :=
  | Ok (a : A)
  | Err (e : Z).
Arguments Ok {A} a.
Arguments Err {A} e.

Definition Error_InvalidArgument : Z := 18.

(** What a call of [Module::forward] can do: return a [Result], throw a
    [std::exception] with its [what()] text, or throw anything else. *)
Inductive forward_outcome : Type :=
  | Returned (r : Result (list EValue))
  | ThrewStd (what : string)
  | ThrewOther.

Record ETFlutterModelData : Type := mkModel {
  module_forward : list EValue → forward_outcome;
  file_path : string
}.

Definition call_forward (m : ETFlutterModelData) (inputs : list EValue)
  : M forward_outcome := λ s,
  Some (module_forward m inputs,
        mkState (blocks s) (next_addr s) (malloc_oracle s)
                (S (engine_calls s))).

(** ** Envelopes of the forward call *)

Record ETFlutterForwardInput : Type := mkInput {
  num_inputs : Z;                             (* int32_t *)
  inputs : list (option ETFlutterTensorData)  (* ETFlutterTensorData* [16] *)
}.

Record ETFlutterForwardOutput : Type := mkOutput {
  error : ETFlutterError;
  num_outputs : Z;            (* int32_t *)
  outputs : list N            (* ETFlutterTensorData* [16] *)
}.

Definition with_error (o : ETFlutterForwardOutput) (c : ETFlutterErrorCode)
    (formatted : string) : ETFlutterForwardOutput :=
  mkOutput (write_error (error o) c formatted) (num_outputs o) (outputs o).

Definition with_num_outputs (o : ETFlutterForwardOutput) (n : Z)
  : ETFlutterForwardOutput :=
  mkOutput (error o) n (outputs o).

Definition with_slot (o : ETFlutterForwardOutput) (i : nat) (p : N)
  : ETFlutterForwardOutput :=
  mkOutput (error o) (num_outputs o) (<[i := p]> (outputs o)).

(** [memset(&output, 0, sizeof(output))] followed by
    [et_flutter_clear_error(&output.error)]. *)
Definition fresh_output : ETFlutterForwardOutput :=
  mkOutput
    (reset_error
       (mkError ET_FLUTTER_SUCCESS
                (replicate (Z.to_nat ET_FLUTTER_ERROR_MESSAGE_MAX_LEN) zero)))
    0
    (replicate (Z.to_nat ET_FLUTTER_MAX_OUTPUTS) 0%N).

(** [memset(result, 0, sizeof(ETFlutterTensorData))]. *)
Definition zeroed_tensor : ETFlutterTensorData :=
  mkTensor (mkShape 0 (replicate (Z.to_nat ET_FLUTTER_MAX_TENSOR_DIMS) 0))
           0 0%N 0
           (replicate (Z.to_nat ET_FLUTTER_TENSOR_NAME_MAX_LEN) zero).

(** [sizeof(ETFlutterTensorData)] on an LP64 target. *)
Definition sizeof_ETFlutterTensorData : Z := 160.

(** ** [executorch_flutter_wrapper.cpp]: the converters *)

(** The switch of [convert_to_executorch_tensor]; [None] is its default. *)
Definition scalar_type_of_dtype (dt : Z) : option ScalarType.t :=
  match dt with
  | 0 => Some ScalarType.Float
  | 1 => Some ScalarType.Int
  | 2 => Some ScalarType.Char
  | 3 => Some ScalarType.Byte
  | _ => None
  end.

(** The switch of [convert_from_executorch_tensor]; [None] is its default. *)
Definition dtype_of_scalar_type (st : ScalarType.t) : option Z :=
  match st with
  | ScalarType.Float => Some ET_FLUTTER_DTYPE_FLOAT32
  | ScalarType.Int => Some ET_FLUTTER_DTYPE_INT32
  | ScalarType.Char => Some ET_FLUTTER_DTYPE_INT8
  | ScalarType.Byte => Some ET_FLUTTER_DTYPE_UINT8
  | _ => None
  end.

(** The shape [convert_from_executorch_tensor] writes into the zeroed
    struct: [num_dims] is the native rank cast to [int32_t]; the loop
    [for (i = 0; i < dim && i < 8; i++) dims[i] = (int64_t)size(i)] fills
    the front of the array and leaves the rest zero. *)
Definition copied_shape (tensor : Tensor) : ETFlutterTensorShape :=
  let copied :=
    to_int64 <$> take (Z.to_nat ET_FLUTTER_MAX_TENSOR_DIMS) (sizes tensor) in
  mkShape (to_int32 (dim tensor))
          (copied ++ drop (length copied) (dims (shape zeroed_tensor))).

Section Wrapper.

(** [static_cast<exec_aten::SizesType>]: the engine's sizing type is
    declared by the engine's headers, not by this repository, so the cast
    is a parameter here.  (The portable tensor of ExecuTorch, whose header
    the wrapper includes, declares it as [int32_t]: the cast is then
    [to_int32].) *)
Variable SizesType_cast : Z → Z.

(** Host to native, zero-copy: the [TensorImpl] keeps the host's data
    pointer.  The loop over [dims[0 .. num_dims)] leaves the array when
    [num_dims] exceeds its length.  The function builds [tensor_impl] and
    the vector [sizes] as automatic objects and returns
    [Tensor(&tensor_impl)]: once it has returned, both objects are gone
    and the handle dangles. *)
Definition convert_to_executorch_tensor (tensor : option ETFlutterTensorData)
  : M (Result DanglingTensor) :=
  match tensor with
  | None => mret (Err Error_InvalidArgument)
  | Some t =>
      if decide (data t = 0%N) then mret (Err Error_InvalidArgument)
      else
        match scalar_type_of_dtype (dtype t) with
        | None => mret (Err Error_InvalidArgument)
        | Some st =>
            if decide (num_dims (shape t)
                       ≤ Z.of_nat (length (dims (shape t)))) then
              mret (Ok (mkDangling
                          (mkNative st
                             (SizesType_cast
                                <$> take (Z.to_nat (num_dims (shape t)))
                                         (dims (shape t)))
                             (data t))))
            else undefined
        end
  end.

(** Native to host, owning copy.  Returns the address of the new struct,
    or NULL.  [et_flutter_tensor_data_size(result)] walks
    [dims[0 .. num_dims)] of the new struct, whose [num_dims] is the
    native rank, not clamped: a rank above eight leaves the array. *)
Definition convert_from_executorch_tensor (tensor : Tensor) : M N :=
  result ← malloc sizeof_ETFlutterTensorData;
  if decide (result = 0%N) then mret 0%N
  else
    store_struct result zeroed_tensor ;;
    match dtype_of_scalar_type (scalar_type tensor) with
    | None => free result ;; mret 0%N
    | Some dt =>
        let shape' := copied_shape tensor in
        if decide (num_dims shape' ≤ ET_FLUTTER_MAX_TENSOR_DIMS) then
          let size :=
            et_flutter_tensor_data_size
              (Some (mkTensor shape' dt 0%N 0 (name zeroed_tensor))) in
          d ← malloc size;
          store_struct result
            (mkTensor shape' dt d size (name zeroed_tensor)) ;;
          if decide (d = 0%N) then free result ;; mret 0%N
          else
            memcpy d (const_data_ptr tensor) size ;;
            store_struct result
              (mkTensor shape' dt d size
                        (<[O := zero]> (name zeroed_tensor))) ;;
            mret result
        else undefined
    end.

(** The same function called with a handle that dangles: the struct is
    allocated first, and a NULL from [malloc] returns before the tensor
    is looked at; after that the first thing read is
    [tensor.scalar_type()], through the dead [TensorImpl]. *)
Definition convert_from_dangling_tensor : M N :=
  result ← malloc sizeof_ETFlutterTensorData;
  if decide (result = 0%N) then mret 0%N
  else store_struct result zeroed_tensor ;; undefined.

(** [convert_from_executorch_tensor(outputs[i].toTensor())] for a value
    whose tag is Tensor; [None] when [isTensor()] is false. *)
Definition convert_output_tensor (v : EValue) : option (M N) :=
  match v with
  | EV_Tensor t => Some (convert_from_executorch_tensor t)
  | EV_DanglingTensor _ => Some convert_from_dangling_tensor
  | _ => None
  end.

(** ** [et_flutter_forward] *)

(** The input loop: [n] iterations are left, [i] is the index, [acc] the
    vector built so far.  [inl i] reports the index whose conversion
    failed. *)
Fixpoint convert_inputs (n i : nat) (input : ETFlutterForwardInput)
    (acc : list EValue) : M (nat + list EValue) :=
  match n with
  | O => mret (inr acc)
  | S n' =>
      match inputs input !! i with
      | None => undefined
      | Some p =>
          r ← convert_to_executorch_tensor p;
          match r with
          | Err _ => mret (inl i)
          | Ok t =>
              convert_inputs n' (S i) input (acc ++ [EV_DanglingTensor t])
          end
      end
  end.

(** The cleanup loop [for (j = 0; j < i; j++)] over the slots in front of
    the failing one. *)
Fixpoint free_allocated (slots : list N) : M unit :=
  match slots with
  | [] => mret tt
  | p :: rest =>
      (if decide (p ≠ 0%N)
       then t ← load_struct p; free (data t) ;; free p
       else mret tt) ;;
      free_allocated rest
  end.

(** The output loop [for (i = 0; i < outputs.size() && i < 16; i++)]:
    [outs] are the native outputs from index [i] on. *)
Fixpoint convert_outputs (outs : list EValue) (i : nat)
    (output : ETFlutterForwardOutput) : M ETFlutterForwardOutput :=
  match outs with
  | [] => mret output
  | v :: rest =>
      if decide (Z.of_nat i < ET_FLUTTER_MAX_OUTPUTS) then
        match convert_output_tensor v with
        | Some converted =>
            p ← converted;
            let output := with_slot output i p in
            if decide (p = 0%N) then
              let output :=
                with_error output ET_FLUTTER_ERROR_MEMORY
                  ("Failed to allocate output tensor " +:+ pretty i) in
              free_allocated (take i (outputs output)) ;;
              mret (with_num_outputs output 0)
            else convert_outputs rest (S i) output
        | None => convert_outputs rest (S i) output
        end
      else mret output
  end.

Definition et_flutter_forward (model_handle : option ETFlutterModelData)
    (input : option ETFlutterForwardInput) : M ETFlutterForwardOutput :=
  let output := fresh_output in
  match model_handle with
  | None =>
      mret (with_error output ET_FLUTTER_ERROR_INVALID_HANDLE
              "model_handle is NULL")
  | Some model_data =>
      match input with
      | None =>
          mret (with_error output ET_FLUTTER_ERROR_INVALID_ARGUMENT
                  "input is NULL or has no tensors")
      | Some inp =>
          if decide (num_inputs inp ≤ 0) then
            mret (with_error output ET_FLUTTER_ERROR_INVALID_ARGUMENT
                    "input is NULL or has no tensors")
          else
            converted ← convert_inputs (Z.to_nat (num_inputs inp)) O inp [];
            match converted with
            | inl i =>
                mret (with_error output ET_FLUTTER_ERROR_VALIDATION
                        ("Failed to convert input tensor " +:+ pretty i))
            | inr ins =>
                forward_result ← call_forward model_data ins;
                match forward_result with
                | Returned (Err e) =>
                    mret (with_error output ET_FLUTTER_ERROR_INFERENCE
                            ("Forward pass failed: error code " +:+ pretty e))
                | Returned (Ok outs) =>
                    convert_outputs outs O
                      (with_num_outputs output
                         (to_int32 (Z.of_nat (length outs))))
                | ThrewStd what =>
                    mret (with_num_outputs
                            (with_error output ET_FLUTTER_ERROR_INFERENCE
                               ("Exception during forward pass: " +:+ what))
                            0)
                | ThrewOther =>
                    mret (with_num_outputs
                            (with_error output ET_FLUTTER_ERROR_INFERENCE
                               "Unknown exception during forward pass")
                            0)
                end
            end
      end
  end.

End Wrapper.

(** ** [et_flutter_free_forward_output] *)

(** The loop [for (i = 0; i < output->num_outputs; i++)]: [n] iterations
    are left; slot [i] is read from the sixteen-entry array. *)
Fixpoint free_outputs (n i : nat) (slots : list N) : M unit :=
  match n with
  | O => mret tt
  | S n' =>
      match slots !! i with
      | None => undefined
      | Some p =>
          (if decide (p ≠ 0%N) then
             t ← load_struct p;
             (if decide (data t ≠ 0%N) then free (data t) else mret tt) ;;
             free p
           else mret tt) ;;
          free_outputs n' (S i) slots
      end
  end.

Definition et_flutter_free_forward_output
    (output : option ETFlutterForwardOutput)
  : M (option ETFlutterForwardOutput) :=
  match output with
  | None => mret None
  | Some o =>
      free_outputs (Z.to_nat (num_outputs o)) O (outputs o) ;;
      mret (Some (with_num_outputs o 0))
  end.

(** ** Notions used to state the properties *)

(** The dimensions a shape uses: [dims[0 .. num_dims)]. *)
Definition dims_in_use (s : ETFlutterTensorShape) : list Z :=
  take (Z.to_nat (num_dims s)) (dims s).

(** The loops over [dims[0 .. num_dims)] stay inside the array. *)
Definition dims_read_in_bounds (s : ETFlutterTensorShape) : Prop :=
  num_dims s ≤ Z.of_nat (length (dims s)).

(** The exact, unbounded product of the dimensions in use. *)
Definition shape_volume (s : ETFlutterTensorShape) : Z :=
  fold_left Z.mul (dims_in_use s) 1.

(** The dtypes of the enumeration. *)
Definition supported_dtype (dt : Z) : Prop := 0 ≤ dt ≤ 3.

(** A freshly zeroed error record, as [memset] leaves it. *)
Definition blank_error : ETFlutterError :=
  mkError ET_FLUTTER_SUCCESS
          (replicate (Z.to_nat ET_FLUTTER_ERROR_MESSAGE_MAX_LEN) zero).

(** Every address in use lies below the next one handed out, and NULL is
    never handed out. *)
Definition heap_wf (s : state) : Prop :=
  (0 < next_addr s)%N
  ∧ ∀ a, is_Some (blocks s !! a) → (a < next_addr s)%N.

(** The effect of [free_allocated] on the blocks alone. *)
Fixpoint release (slots : list N) (m : gmap N block)
  : option (gmap N block) :=
  match slots with
  | [] => Some m
  | p :: rest =>
      if decide (p ≠ 0%N) then
        match m !! p with
        | Some (BStruct t) =>
            if decide (data t = 0%N) then
              release rest (delete p m)
            else
              match m !! data t, delete (data t) m !! p with
              | Some _, Some _ => release rest (delete p (delete (data t) m))
              | _, _ => None
              end
        | _ => None
        end
      else release rest m
  end.

(** The name the copy leaves in the destination. *)
Definition copied_name (src dst : ETFlutterTensorData) : list ascii :=
  if decide (hd zero (name src) ≠ zero) then
    <[Z.to_nat (ET_FLUTTER_TENSOR_NAME_MAX_LEN - 1) := zero]>
      (strncpy (name dst) (name src)
               (Z.to_nat (ET_FLUTTER_TENSOR_NAME_MAX_LEN - 1)))
  else <[O := zero]> (name dst).

(** The invariant of the output loop at index [i]: the slots in front of
    [i] own their blocks, in that releasing them leaves exactly the blocks
    [m0] the call started with; the slots from [i] on are still NULL. *)
Definition slots_owned (m0 : gmap N block) (i : nat)
    (o : ETFlutterForwardOutput) (s : state) : Prop :=
  heap_wf s
  ∧ length (outputs o) = 16%nat
  ∧ release (take i (outputs o)) (blocks s) = Some m0
  ∧ ∀ j, (i ≤ j < 16)%nat → outputs o !! j = Some 0%N.

(** The state right after the engine has been invoked once. *)
Definition after_call (s : state) : state :=
  mkState (blocks s) (next_addr s) (malloc_oracle s) (S (engine_calls s)).

(** The output record the output loop starts from. *)
Definition counted_output (outs : list EValue) : ETFlutterForwardOutput :=
  with_num_outputs fresh_output (to_int32 (Z.of_nat (length outs))).

(** The next [n] calls of the allocator do not return NULL. *)
Definition allocations_succeed (n : nat) (oracle : list bool) : Prop :=
  Forall (λ b, b = true) (take n oracle).

(** ** Sample values for the concrete scenarios

    A four-byte host buffer at address 1, a UInt8 tensor of shape [4] over
    it, a tensor of the engine over the same bytes, a one-tensor input
    set, and an engine that returns a fixed list of values. *)

Definition sample_buffer : buffer :=
  mkBuffer 4 (λ i, match i with 0 => x01 | 1 => x02 | 2 => x03 | _ => x04 end).

Definition sample_state (oracle : list bool) : state :=
  mkState {[ 1%N := BData sample_buffer ]} 2%N oracle O.

Definition sample_tensor : ETFlutterTensorData :=
  mkTensor (mkShape 1 [4; 0; 0; 0; 0; 0; 0; 0]) ET_FLUTTER_DTYPE_UINT8 1%N 4
           (replicate 64 zero).

Definition sample_native : Tensor := mkNative ScalarType.Byte [4] 1%N.

Definition sample_input : ETFlutterForwardInput :=
  mkInput 1 (Some sample_tensor :: replicate 15 None).

Definition sample_engine (outs : list EValue) : ETFlutterModelData :=
  mkModel (λ _, Returned (Ok outs)) "model.pte".

(** ** [error_codes.c]

    The numeric value of each enumerator, and the name table, which takes
    the code as the C [int] it travels as, so that values outside the
    enumeration reach its default. *)

Definition error_code_value (c : ETFlutterErrorCode) : Z :=
  match c with
  | ET_FLUTTER_SUCCESS => 0
  | ET_FLUTTER_ERROR_MODEL_LOAD => 1
  | ET_FLUTTER_ERROR_INFERENCE => 2
  | ET_FLUTTER_ERROR_VALIDATION => 3
  | ET_FLUTTER_ERROR_MEMORY => 4
  | ET_FLUTTER_ERROR_IO => 5
  | ET_FLUTTER_ERROR_PLATFORM => 6
  | ET_FLUTTER_ERROR_INVALID_HANDLE => 7
  | ET_FLUTTER_ERROR_INVALID_ARGUMENT => 8
  end.

Definition et_flutter_error_code_name (c : Z) : string :=
  match c with
  | 0 => "ET_FLUTTER_SUCCESS"
  | 1 => "ET_FLUTTER_ERROR_MODEL_LOAD"
  | 2 => "ET_FLUTTER_ERROR_INFERENCE"
  | 3 => "ET_FLUTTER_ERROR_VALIDATION"
  | 4 => "ET_FLUTTER_ERROR_MEMORY"
  | 5 => "ET_FLUTTER_ERROR_IO"
  | 6 => "ET_FLUTTER_ERROR_PLATFORM"
  | 7 => "ET_FLUTTER_ERROR_INVALID_HANDLE"
  | 8 => "ET_FLUTTER_ERROR_INVALID_ARGUMENT"
  | _ => "UNKNOWN_ERROR_CODE"
  end.

(** ** [platform/platform_android.c], [platform/platform_macos.c]

    The three file probes are the same on both platforms.  The operating
    system enters as what [stat] and [access] answer for a path: the size
    of the file when [stat] succeeds, and whether [access(path, R_OK)]
    succeeds.  A NULL path is [None]. *)

Record filesystem : Type := mkFilesystem {
  stat_size : string → option Z;      (* st_size when stat() returns 0 *)
  access_read : string → bool         (* access(path, R_OK) == 0 *)
}.

Definition et_flutter_platform_file_exists (fs : filesystem)
    (path : option string) : Z :=
  match path with
  | None => 0
  | Some p =>
      match stat_size fs p with
      | Some _ => 1
      | None => 0
      end
  end.

Definition et_flutter_platform_file_readable (fs : filesystem)
    (path : option string) : Z :=
  match path with
  | None => 0
  | Some p => if access_read fs p then 1 else 0
  end.

Definition et_flutter_platform_file_size (fs : filesystem)
    (path : option string) : Z :=
  match path with
  | None => 0
  | Some p =>
      match stat_size fs p with
      | None => 0
      | Some size => to_size_t size
      end
  end.

(** ** [et_flutter_load_model], [et_flutter_dispose_model]

    The engine's module, at its interface: constructing it from a path,
    loading the program and loading the forward method can each return
    an error code (0 is [Error::Ok]) or throw. *)

Inductive step_outcome : Type :=
  | StepReturned (e : Z)
  | StepThrewStd (what : string)
  | StepThrewOther.

Record NativeModule : Type := mkModule {
  native_load : step_outcome;
  native_load_forward : step_outcome;
  native_forward : list EValue → forward_outcome
}.

Inductive open_outcome : Type :=
  | Opened (m : NativeModule)
  | OpenThrewStd (what : string)
  | OpenThrewOther.

Record ETFlutterLoadResult : Type := mkLoadResult {
  lr_error : ETFlutterError;
  lr_model_handle : option ETFlutterModelData;   (* NULL is None *)
  lr_file_path : list ascii                      (* char file_path[512] *)
}.

(** [memset(&result, 0, sizeof(result))] followed by
    [et_flutter_clear_error(&result.error)]. *)
Definition fresh_load_result : ETFlutterLoadResult :=
  mkLoadResult
    (reset_error
       (mkError ET_FLUTTER_SUCCESS
                (replicate (Z.to_nat ET_FLUTTER_ERROR_MESSAGE_MAX_LEN) zero)))
    None
    (replicate (Z.to_nat ET_FLUTTER_FILE_PATH_MAX_LEN) zero).

Definition load_failed (c : ETFlutterErrorCode) (formatted : string)
  : ETFlutterLoadResult :=
  mkLoadResult (write_error (lr_error fresh_load_result) c formatted)
               None (lr_file_path fresh_load_result).

(** The [catch] clauses of the loader. *)
Definition load_threw_std (what : string) : ETFlutterLoadResult :=
  load_failed ET_FLUTTER_ERROR_MODEL_LOAD
    ("Exception during model load: " +:+ what).

Definition load_threw_other : ETFlutterLoadResult :=
  load_failed ET_FLUTTER_ERROR_MODEL_LOAD
    "Unknown exception during model load".

(** The loader.  [live] counts the [ETFlutterModelData] objects that
    exist: [new] adds one, [delete] removes one.  The object is created
    first thing inside the [try]; the error returns delete it, the
    [catch] clauses do not. *)
Definition et_flutter_load_model (fs : filesystem)
    (open_module : string → open_outcome) (file_path : option string)
    (live : nat) : ETFlutterLoadResult * nat :=
  match file_path with
  | None =>
      (load_failed ET_FLUTTER_ERROR_INVALID_ARGUMENT "file_path is NULL", live)
  | Some path =>
      if decide (et_flutter_platform_file_exists fs file_path = 0) then
        (load_failed ET_FLUTTER_ERROR_IO
           ("Model file not found: " +:+ path), live)
      else if decide (et_flutter_platform_file_readable fs file_path = 0) then
        (load_failed ET_FLUTTER_ERROR_IO
           ("Model file not readable: " +:+ path), live)
      else
        match open_module path with
        | OpenThrewStd what => (load_threw_std what, S live)
        | OpenThrewOther => (load_threw_other, S live)
        | Opened m =>
            match native_load m with
            | StepThrewStd what => (load_threw_std what, S live)
            | StepThrewOther => (load_threw_other, S live)
            | StepReturned load_error =>
                if decide (load_error ≠ 0) then
                  (load_failed ET_FLUTTER_ERROR_MODEL_LOAD
                     ("Failed to load ExecuTorch module: error code "
                        +:+ pretty load_error), live)
                else
                  match native_load_forward m with
                  | StepThrewStd what => (load_threw_std what, S live)
                  | StepThrewOther => (load_threw_other, S live)
                  | StepReturned method_error =>
                      if decide (method_error ≠ 0) then
                        (load_failed ET_FLUTTER_ERROR_MODEL_LOAD
                           ("Failed to load forward method: error code "
                              +:+ pretty method_error), live)
                      else
                        (mkLoadResult
                           (lr_error fresh_load_result)
                           (Some (mkModel (native_forward m) path))
                           (<[Z.to_nat (ET_FLUTTER_FILE_PATH_MAX_LEN - 1)
                              := zero]>
                              (strncpy (lr_file_path fresh_load_result)
                                 (list_ascii_of_string path)
                                 (Z.to_nat
                                    (ET_FLUTTER_FILE_PATH_MAX_LEN - 1)))),
                         S live)
                  end
            end
        end
  end.

(** NULL is a no-op; otherwise the object is deleted. *)
Definition et_flutter_dispose_model (model_handle : option ETFlutterModelData)
    (live : nat) : nat :=
  match model_handle with
  | None => live
  | Some _ => Nat.pred live
  end.

(** ** Further notions *)

(** What the [TensorImpl] that [convert_to_executorch_tensor] builds
    holds, for a host descriptor whose dtype maps to [st]. *)
Definition native_view (cast : Z → Z) (t : ETFlutterTensorData)
    (st : ScalarType.t) : Tensor :=
  mkNative st (cast <$> dims_in_use (shape t)) (data t).

(** An input pointer that converts: not NULL, data not NULL, a dtype of
    the enumeration, and a dimension count within the array; [v] is the
    value handed to the engine for it: a tensor value whose handle
    dangles, over a [TensorImpl] that held the native view. *)
Definition views_as (cast : Z → Z) (p : option ETFlutterTensorData)
    (v : EValue) : Prop :=
  ∃ t st,
    p = Some t ∧ data t ≠ 0%N ∧ scalar_type_of_dtype (dtype t) = Some st
    ∧ num_dims (shape t) ≤ Z.of_nat (length (dims (shape t)))
    ∧ v = EV_DanglingTensor (mkDangling (native_view cast t st)).

(** A native output the owning copy can take: a tensor over a
    [TensorImpl] that exists, of a scalar type that maps, of rank at most
    eight, over a buffer of the heap [m] that holds the bytes to copy.
    A value that is not a tensor qualifies as it is. *)
Definition copyable (m : gmap N block) (v : EValue) : Prop :=
  match v with
  | EV_Tensor t =>
      ∃ dt from,
        dtype_of_scalar_type (scalar_type t) = Some dt
        ∧ (length (sizes t) ≤ 8)%nat
        ∧ m !! const_data_ptr t = Some (BData from)
        ∧ et_flutter_tensor_data_size
            (Some (mkTensor (copied_shape t) dt 0%N 0 (name zeroed_tensor)))
          ≤ buf_len from
  | EV_DanglingTensor _ => False
  | _ => True
  end.


(** The engine throws somewhere on the way of loading [path]: in the
    constructor, in [load], or, [load] having returned [Error::Ok], in
    [load_forward]. *)
Definition engine_throws (open_module : string → open_outcome)
    (path : string) : Prop :=
  match open_module path with
  | Opened m =>
      match native_load m with
      | StepReturned e =>
          e = 0
          ∧ match native_load_forward m with
            | StepReturned _ => False
            | _ => True
            end
      | _ => True
      end
  | _ => True
  end.

(** The file probes let the loader through to the engine. *)
Definition file_is_loadable (fs : filesystem) (path : string) : Prop :=
  is_Some (stat_size fs path) ∧ access_read fs path = true.

(** Sample values: a file system with one readable model file, a module
    that loads, and an input whose stated size is wrong. *)

Definition sample_fs : filesystem :=
  mkFilesystem (λ p, if decide (p = "model.pte") then Some 1024 else None)
               (λ p, bool_decide (p = "model.pte")).

Definition sample_module : NativeModule :=
  mkModule (StepReturned 0) (StepReturned 0) (λ _, Returned (Ok [])).

(** A descriptor with a negative dimension: two dimensions in use,
    -1 and 3, of four-byte elements. *)
Definition negative_tensor : ETFlutterTensorData :=
  mkTensor (mkShape 2 [-1; 3; 0; 0; 0; 0; 0; 0]) ET_FLUTTER_DTYPE_INT32 1%N 0
           (replicate 64 zero).

Definition missized_tensor : ETFlutterTensorData :=
  mkTensor (mkShape 1 [4; 0; 0; 0; 0; 0; 0; 0]) ET_FLUTTER_DTYPE_UINT8 1%N 999
           (replicate 64 zero).

(** An engine that is the identity: it returns the values it was
    handed. *)
Definition pass_through_engine : ETFlutterModelData :=
  mkModel (λ ins, Returned (Ok ins)) "model.pte".

(** What the engine is handed for a host descriptor of dtype UInt8. *)
Definition handed_over (t : ETFlutterTensorData) : EValue :=
  EV_DanglingTensor (mkDangling (native_view to_int32 t ScalarType.Byte)).

(** * The error channel *)

Lemma insert_zero_behind (l r : list ascii) (i : nat) :
  (length l ≤ i)%nat → ∃ r', <[i := zero]> (l ++ zero :: r) = l ++ zero :: r'.
Proof.
  intros Hi. rewrite insert_app_r_alt by done.
  destruct (i - length l)%nat; simpl; eauto.
Qed.

Lemma not_elem_of_take {A} (x : A) (n : nat) (l : list A) :
  x ∉ l → x ∉ take n l.
Proof. intros Hx Hin. apply Hx. eapply subseteq_take, Hin. Qed.

Lemma write_error_length (e : ETFlutterError) (c : ETFlutterErrorCode)
    (formatted : string) :
  length (message e) = 256%nat →
  length (message (write_error e c formatted)) = 256%nat.
Proof.
  intros Hlen. unfold write_error, vsnprintf; simpl.
  change (Z.to_nat ET_FLUTTER_ERROR_MESSAGE_MAX_LEN) with 256%nat.
  cbv zeta. rewrite length_insert, !length_app, length_drop, length_take.
  rewrite Hlen. change (length [zero]) with 1%nat. lia.
Qed.

Lemma write_error_last (e : ETFlutterError) (c : ETFlutterErrorCode)
    (formatted : string) :
  length (message e) = 256%nat →
  message (write_error e c formatted) !! 255%nat = Some zero.
Proof.
  intros Hlen. pose proof (write_error_length e c formatted Hlen) as Hl.
  unfold write_error in *; simpl in *.
  change (Z.to_nat (ET_FLUTTER_ERROR_MESSAGE_MAX_LEN - 1)) with 255%nat in *.
  rewrite length_insert in Hl.
  apply list_lookup_insert_eq. lia.
Qed.

Lemma reset_error_cstr (e : ETFlutterError) :
  cstr (message (reset_error e)) = [].
Proof.
  unfold reset_error; simpl. by destruct (message e) as [|c l].
Qed.

(** What a record holds after a write, read back as a C string: the
    formatted text up to its first NUL, cut to 255 characters. *)
Lemma cstr_take_zero (text : list ascii) :
  ∀ (n : nat) (r : list ascii),
    cstr (take n text ++ zero :: r) = take n (cstr text).
Proof.
  induction text as [|c text IH]; intros n r.
  { rewrite take_nil. by destruct n. }
  destruct n as [|n]; simpl.
  { by destruct (decide (c = zero)). }
  destruct (decide (c = zero)); [done|]. simpl. f_equal. apply IH.
Qed.

Lemma write_error_reads (e : ETFlutterError) (c : ETFlutterErrorCode)
    (formatted : string) :
  cstr (message (write_error e c formatted))
  = take 255 (cstr (list_ascii_of_string formatted)).
Proof.
  unfold write_error, vsnprintf; simpl.
  change (Z.to_nat ET_FLUTTER_ERROR_MESSAGE_MAX_LEN) with 256%nat.
  change (Z.to_nat (ET_FLUTTER_ERROR_MESSAGE_MAX_LEN - 1)) with 255%nat.
  cbv zeta. rewrite <- app_assoc. simpl.
  destruct (insert_zero_behind (take 255 (list_ascii_of_string formatted))
              (drop (length (take 255 (list_ascii_of_string formatted) ++ [zero]))
                    (message e)) 255) as [r' ->].
  - rewrite length_take. lia.
  - apply cstr_take_zero.
Qed.

Lemma take_255_nil (l : list ascii) : take 255 l = [] ↔ l = [].
Proof. by destruct l. Qed.

(** C8, the part that fails as stated: [et_flutter_set_error] stores any
    code next to any text, so SUCCESS with a text and a failure code with
    an empty text are both reachable through it; and so is a failure code
    with a text that is not empty but starts with a NUL character (as
    ["%c"] formats a zero), which reads back as the empty string. *)
Lemma set_error_breaks_invariant :
  (∃ e, et_flutter_set_error (Some blank_error) ET_FLUTTER_SUCCESS "done"
        = Some e ∧ ¬ error_invariant e)
  ∧ (∃ e, et_flutter_set_error (Some blank_error) ET_FLUTTER_ERROR_IO ""
          = Some e ∧ ¬ error_invariant e)
  ∧ (∃ e, et_flutter_set_error (Some blank_error) ET_FLUTTER_ERROR_IO
            (String zero "x")
          = Some e ∧ ¬ error_invariant e).
Proof.
  split; [|split]; (eexists; split; [reflexivity|]); unfold error_invariant.
  - intros [Hto _]. specialize (Hto eq_refl). vm_compute in Hto. discriminate.
  - intros [_ Hfrom]. simpl in Hfrom. discriminate (Hfrom eq_refl).
  - intros [_ Hfrom]. simpl in Hfrom. discriminate (Hfrom eq_refl).
Qed.

(** C8, amended: clearing always yields SUCCESS with an empty message;
    setting stores the given code and, in the 256-byte buffer, the
    formatted text cut to 255 characters and NUL-terminated, so that the
    message reads back as the text up to its first NUL, cut to 255
    characters.  The record invariant (SUCCESS exactly when the message
    is empty) holds after every clear; after a set it holds exactly when
    the code given is SUCCESS exactly when the formatted text, read as a
    C string, is empty: in particular after every set whose code is a
    failure code and whose formatted text, read as a C string, is not
    empty. *)
Theorem error_record_invariant (e : ETFlutterError) (c : ETFlutterErrorCode)
    (formatted : string) :
  (∃ cleared, et_flutter_clear_error (Some e) = Some cleared
      ∧ code cleared = ET_FLUTTER_SUCCESS
      ∧ cstr (message cleared) = []
      ∧ error_invariant cleared)
  ∧ (∃ written, et_flutter_set_error (Some e) c formatted = Some written
      ∧ et_flutter_set_error_v (Some e) c formatted = Some written
      ∧ code written = c
      ∧ cstr (message written)
        = take 255 (cstr (list_ascii_of_string formatted))
      ∧ (length (message e) = 256%nat →
         length (message written) = 256%nat
         ∧ message written !! 255%nat = Some zero)
      ∧ (error_invariant written
         ↔ (c = ET_FLUTTER_SUCCESS
            ↔ cstr (list_ascii_of_string formatted) = []))
      ∧ (c ≠ ET_FLUTTER_SUCCESS →
         cstr (list_ascii_of_string formatted) ≠ [] →
         error_invariant written)).
Proof.
  split.
  - exists (reset_error e). repeat split; auto using reset_error_cstr.
  - exists (write_error e c formatted).
    pose proof (write_error_reads e c formatted) as Hc.
    assert (Hinv : error_invariant (write_error e c formatted)
                   ↔ (c = ET_FLUTTER_SUCCESS
                      ↔ cstr (list_ascii_of_string formatted) = [])).
    { unfold error_invariant. rewrite Hc, take_255_nil. done. }
    split; [done|]. split; [done|]. split; [done|]. split; [done|].
    split; [auto using write_error_length, write_error_last|].
    split; [done|].
    intros Hcode Htext. apply Hinv. split; [done|]. intros Hnil. done.
Qed.

Lemma error_record_invariant_witness :
  ∃ written,
    et_flutter_set_error (Some blank_error)
      ET_FLUTTER_ERROR_INVALID_ARGUMENT "Tensor pointer is NULL"
    = Some written
    ∧ error_invariant written.
Proof.
  destruct (error_record_invariant blank_error
              ET_FLUTTER_ERROR_INVALID_ARGUMENT "Tensor pointer is NULL")
    as [_ (written & Hset & _ & _ & _ & _ & _ & Hinv)].
  exists written. split; [exact Hset|]. by apply Hinv.
Defined.

(** * Validation *)

Lemma first_bad_dim_None (s : ETFlutterTensorShape) :
  first_bad_dim s = None ↔ Forall (λ d, 0 < d) (dims_in_use s).
Proof.
  unfold first_bad_dim, dims_in_use. rewrite list_find_None.
  apply Forall_iff. intros d. lia.
Qed.

Lemma first_bad_dim_Some (s : ETFlutterTensorShape) (i : nat) (d : Z) :
  first_bad_dim s = Some (i, d)
  ↔ dims_in_use s !! i = Some d ∧ d ≤ 0
    ∧ ∀ j y, dims_in_use s !! j = Some y → (j < i)%nat → 0 < y.
Proof.
  unfold first_bad_dim, dims_in_use. rewrite list_find_Some.
  split; intros (Hi & Hd & Hmin); repeat split; try done;
    intros j y Hj Hlt; specialize (Hmin j y Hj Hlt); lia.
Qed.

Lemma first_bad_dim_Exists (s : ETFlutterTensorShape) :
  Exists (λ d, d ≤ 0) (dims_in_use s) → is_Some (first_bad_dim s).
Proof.
  intros Hex. destruct (first_bad_dim s) eqn:Hf; [eauto|].
  apply first_bad_dim_None in Hf. apply Exists_exists in Hex as (d & Hin & Hd).
  rewrite Forall_forall in Hf. specialize (Hf d Hin). lia.
Qed.

(** What validation answers once the dimension count is in range and
    every dimension in use is positive. *)
Lemma validate_structurally_sound (t : ETFlutterTensorData)
    (error : option ETFlutterError) :
  1 ≤ num_dims (shape t) ≤ ET_FLUTTER_MAX_TENSOR_DIMS →
  Forall (λ d, 0 < d) (dims_in_use (shape t)) →
  et_flutter_tensor_validate (Some t) error
  = if decide (data t = 0%N) then
      (ET_FLUTTER_ERROR_INVALID_ARGUMENT,
       et_flutter_set_error error ET_FLUTTER_ERROR_INVALID_ARGUMENT
         "Tensor data pointer is NULL")
    else if decide (data_size t ≠ et_flutter_tensor_data_size (Some t)) then
      (ET_FLUTTER_ERROR_VALIDATION,
       et_flutter_set_error error ET_FLUTTER_ERROR_VALIDATION
         (msg_size_mismatch (data_size t)
            (et_flutter_tensor_data_size (Some t))))
    else (ET_FLUTTER_SUCCESS, et_flutter_clear_error error).
Proof.
  intros Hnd Hpos. unfold et_flutter_tensor_validate.
  rewrite decide_False by lia.
  apply first_bad_dim_None in Hpos. by rewrite Hpos.
Qed.

(** Acceptance, read backwards: every check passed. *)
Lemma validate_success_inv (t : ETFlutterTensorData)
    (error : option ETFlutterError) :
  (et_flutter_tensor_validate (Some t) error).1 = ET_FLUTTER_SUCCESS →
  1 ≤ num_dims (shape t) ≤ ET_FLUTTER_MAX_TENSOR_DIMS
  ∧ Forall (λ d, 0 < d) (dims_in_use (shape t))
  ∧ data t ≠ 0%N
  ∧ data_size t = et_flutter_tensor_data_size (Some t).
Proof.
  unfold et_flutter_tensor_validate.
  case_decide as Hnd; [discriminate|].
  destruct (first_bad_dim (shape t)) as [[i d]|] eqn:Hbad; [discriminate|].
  case_decide as Hdata; [discriminate|].
  case_decide as Hsize; [discriminate|].
  intros _. apply first_bad_dim_None in Hbad.
  repeat split; try done; try lia.
Qed.

(** C3: the checks of [et_flutter_tensor_validate] in their order.  A NULL
    tensor gives INVALID_ARGUMENT; otherwise a dimension count outside
    [1,8] gives VALIDATION; otherwise the first non-positive dimension
    gives VALIDATION and is named by index and value; otherwise a NULL data
    pointer gives INVALID_ARGUMENT; otherwise a stated size that differs
    from the recomputed one gives VALIDATION; otherwise SUCCESS.  Each
    answer is fixed by the earliest failing check alone, whatever the later
    fields hold. *)
Theorem validate_check_order (t : ETFlutterTensorData)
    (error : option ETFlutterError) :
  let nd := num_dims (shape t) in
  let used := dims_in_use (shape t) in
  let expected := et_flutter_tensor_data_size (Some t) in
  et_flutter_tensor_validate None error
  = (ET_FLUTTER_ERROR_INVALID_ARGUMENT,
     et_flutter_set_error error ET_FLUTTER_ERROR_INVALID_ARGUMENT
       "Tensor pointer is NULL")
  ∧ (nd < 1 ∨ 8 < nd →
     et_flutter_tensor_validate (Some t) error
     = (ET_FLUTTER_ERROR_VALIDATION,
        et_flutter_set_error error ET_FLUTTER_ERROR_VALIDATION
          (msg_num_dims nd)))
  ∧ (1 ≤ nd ≤ 8 →
     ∀ i d, used !! i = Some d → d ≤ 0 →
       (∀ j y, used !! j = Some y → (j < i)%nat → 0 < y) →
       et_flutter_tensor_validate (Some t) error
       = (ET_FLUTTER_ERROR_VALIDATION,
          et_flutter_set_error error ET_FLUTTER_ERROR_VALIDATION
            (msg_dim_size i d)))
  ∧ (1 ≤ nd ≤ 8 → Exists (λ d, d ≤ 0) used →
     (et_flutter_tensor_validate (Some t) error).1
     = ET_FLUTTER_ERROR_VALIDATION)
  ∧ (1 ≤ nd ≤ 8 → Forall (λ d, 0 < d) used → data t = 0%N →
     et_flutter_tensor_validate (Some t) error
     = (ET_FLUTTER_ERROR_INVALID_ARGUMENT,
        et_flutter_set_error error ET_FLUTTER_ERROR_INVALID_ARGUMENT
          "Tensor data pointer is NULL"))
  ∧ (1 ≤ nd ≤ 8 → Forall (λ d, 0 < d) used → data t ≠ 0%N →
     data_size t ≠ expected →
     et_flutter_tensor_validate (Some t) error
     = (ET_FLUTTER_ERROR_VALIDATION,
        et_flutter_set_error error ET_FLUTTER_ERROR_VALIDATION
          (msg_size_mismatch (data_size t) expected)))
  ∧ (1 ≤ nd ≤ 8 → Forall (λ d, 0 < d) used → data t ≠ 0%N →
     data_size t = expected →
     et_flutter_tensor_validate (Some t) error
     = (ET_FLUTTER_SUCCESS, et_flutter_clear_error error)).
Proof.
  intros nd used expected. subst nd used expected.
  split; [reflexivity|].
  split.
  { intros Hnd. unfold et_flutter_tensor_validate.
    rewrite decide_True; [done|]. unfold ET_FLUTTER_MAX_TENSOR_DIMS. lia. }
  split.
  { intros Hnd i d Hi Hd Hmin. unfold et_flutter_tensor_validate.
    rewrite decide_False by (unfold ET_FLUTTER_MAX_TENSOR_DIMS; lia).
    assert (first_bad_dim (shape t) = Some (i, d)) as ->; [|done].
    by apply first_bad_dim_Some. }
  split.
  { intros Hnd Hex. unfold et_flutter_tensor_validate.
    rewrite decide_False by (unfold ET_FLUTTER_MAX_TENSOR_DIMS; lia).
    by destruct (first_bad_dim_Exists _ Hex) as [[i d] ->]. }
  split; [|split].
  - intros Hnd Hpos Hdata. rewrite validate_structurally_sound; [|done..].
    by rewrite decide_True.
  - intros Hnd Hpos Hdata Hsize.
    rewrite validate_structurally_sound; [|done..].
    by rewrite decide_False, decide_True.
  - intros Hnd Hpos Hdata Hsize.
    rewrite validate_structurally_sound; [|done..].
    rewrite decide_False by done. rewrite decide_False; [done|]. by intros ?.
Qed.

Lemma validate_check_order_witness :
  (et_flutter_tensor_validate
     (Some (mkTensor (mkShape 0 [1; 3; 224; 224; 0; 0; 0; 0]) 0 1%N 602112 []))
     None).1 = ET_FLUTTER_ERROR_VALIDATION
  ∧ (et_flutter_tensor_validate
       (Some (mkTensor (mkShape 9 [1; 3; 224; 224; 1; 1; 1; 1]) 0 1%N 602112 []))
       None).1 = ET_FLUTTER_ERROR_VALIDATION
  ∧ (et_flutter_tensor_validate
       (Some (mkTensor (mkShape 4 [1; 3; 0; 224; 0; 0; 0; 0]) 0 0%N 7 []))
       None).1 = ET_FLUTTER_ERROR_VALIDATION
  ∧ (et_flutter_tensor_validate
       (Some (mkTensor (mkShape 4 [1; 3; 224; 224; 0; 0; 0; 0]) 0 0%N 7 []))
       None).1 = ET_FLUTTER_ERROR_INVALID_ARGUMENT
  ∧ (et_flutter_tensor_validate
       (Some (mkTensor (mkShape 4 [1; 3; 224; 224; 0; 0; 0; 0]) 0 1%N 602113 []))
       None).1 = ET_FLUTTER_ERROR_VALIDATION
  ∧ (et_flutter_tensor_validate
       (Some (mkTensor (mkShape 4 [1; 3; 224; 224; 0; 0; 0; 0]) 0 1%N 602112 []))
       None).1 = ET_FLUTTER_SUCCESS.
Proof.
  split_and!.
  - pose proof (validate_check_order
      (mkTensor (mkShape 0 [1; 3; 224; 224; 0; 0; 0; 0]) 0 1%N 602112 [])
      None) as H.
    cbv zeta in H. destruct H as (_ & H & _). rewrite H; [done|]. simpl. lia.
  - pose proof (validate_check_order
      (mkTensor (mkShape 9 [1; 3; 224; 224; 1; 1; 1; 1]) 0 1%N 602112 [])
      None) as H.
    cbv zeta in H. destruct H as (_ & H & _). rewrite H; [done|]. simpl. lia.
  - pose proof (validate_check_order
      (mkTensor (mkShape 4 [1; 3; 0; 224; 0; 0; 0; 0]) 0 0%N 7 [])
      None) as H.
    cbv zeta in H. destruct H as (_ & _ & _ & H & _). apply H.
    + simpl. lia.
    + vm_compute. do 2 right. left. done.
  - pose proof (validate_check_order
      (mkTensor (mkShape 4 [1; 3; 224; 224; 0; 0; 0; 0]) 0 0%N 7 [])
      None) as H.
    cbv zeta in H. destruct H as (_ & _ & _ & _ & H & _). rewrite H; [done|..].
    + simpl. lia.
    + vm_compute. repeat constructor.
    + done.
  - pose proof (validate_check_order
      (mkTensor (mkShape 4 [1; 3; 224; 224; 0; 0; 0; 0]) 0 1%N 602113 [])
      None) as H.
    cbv zeta in H. destruct H as (_ & _ & _ & _ & _ & H & _).
    rewrite H; [done|..].
    + simpl. lia.
    + vm_compute. repeat constructor.
    + done.
    + vm_compute. discriminate.
  - pose proof (validate_check_order
      (mkTensor (mkShape 4 [1; 3; 224; 224; 0; 0; 0; 0]) 0 1%N 602112 [])
      None) as H.
    cbv zeta in H. destruct H as (_ & _ & _ & _ & _ & _ & H).
    rewrite H; [done|..].
    + simpl. lia.
    + vm_compute. repeat constructor.
    + done.
    + vm_compute. reflexivity.
Defined.

(** C4, evaluated on the code: a tensor whose dtype is 4, outside the
    enumeration, with shape [2], a non-NULL data pointer and a stated size
    of zero bytes passes validation, because [et_flutter_dtype_size] sizes
    the unknown dtype as zero and no check looks at the dtype itself. *)
Theorem validate_accepts_unknown_dtype :
  et_flutter_dtype_size 4 = 0
  ∧ et_flutter_tensor_validate
      (Some (mkTensor (mkShape 1 [2; 0; 0; 0; 0; 0; 0; 0]) 4 1%N 0
                      (replicate 64 zero)))
      (Some blank_error)
    = (ET_FLUTTER_SUCCESS, Some (reset_error blank_error)).
Proof. split; reflexivity. Qed.

(** * Sizes *)

Lemma fold_mul_ge (l : list Z) (a : Z) :
  0 < a → Forall (λ d, 0 < d) l → a ≤ fold_left Z.mul l a.
Proof.
  revert a. induction l as [|d l IH]; simpl; intros a Ha Hl; [lia|].
  inversion Hl as [|? ? Hd Hl']; subst.
  etransitivity; [|apply IH; [nia|done]]. nia.
Qed.

Lemma dims_fold_exact (l : list Z) (a : Z) :
  0 < a → Forall (λ d, 0 < d) l → fold_left Z.mul l a < 2 ^ 64 →
  fold_left (λ acc d, to_size_t (acc * to_size_t d)) l a
  = fold_left Z.mul l a.
Proof.
  revert a. induction l as [|d l IH]; simpl; intros a Ha Hl Hlt; [done|].
  inversion Hl as [|? ? Hd Hl']; subst.
  assert (a * d ≤ fold_left Z.mul l (a * d)) by (apply fold_mul_ge; [nia|done]).
  assert (to_size_t d = d) as -> by (apply Z.mod_small; nia).
  assert (to_size_t (a * d) = a * d) as -> by (apply Z.mod_small; nia).
  apply IH; [nia|done|done].
Qed.

Lemma dims_product_exact (s : ETFlutterTensorShape) :
  Forall (λ d, 0 < d) (dims_in_use s) → shape_volume s < 2 ^ 64 →
  dims_product s = shape_volume s.
Proof. intros Hpos Hlt. by apply dims_fold_exact. Qed.

Lemma shape_volume_pos (s : ETFlutterTensorShape) :
  Forall (λ d, 0 < d) (dims_in_use s) → 1 ≤ shape_volume s.
Proof. intros Hpos. by apply fold_mul_ge. Qed.

Lemma dtype_size_supported (dt : Z) :
  supported_dtype dt → 1 ≤ et_flutter_dtype_size dt ≤ 4.
Proof.
  unfold supported_dtype. intros Hdt.
  assert (dt = 0 ∨ dt = 1 ∨ dt = 2 ∨ dt = 3) as [-> | [-> | [-> | ->]]] by lia;
    simpl; lia.
Qed.

(** C7: for shape [1,3,224,224] and Float32 the element count is 150528,
    the element width 4 and the byte size 602112; and for every tensor that
    validation accepts, the stated size is the element count of the shape
    times the width of the dtype (a [size_t] product), which is the exact
    product of the dimensions times the width whenever that fits 64 bits.
    Conversely a structurally sound tensor with that size is accepted. *)
Theorem accepted_size_is_count_times_width :
  et_flutter_shape_element_count
    (Some (mkShape 4 [1; 3; 224; 224; 0; 0; 0; 0])) = 150528
  ∧ et_flutter_dtype_size ET_FLUTTER_DTYPE_FLOAT32 = 4
  ∧ (∀ p sz nm,
       et_flutter_tensor_data_size
         (Some (mkTensor (mkShape 4 [1; 3; 224; 224; 0; 0; 0; 0])
                         ET_FLUTTER_DTYPE_FLOAT32 p sz nm)) = 602112)
  ∧ (∀ t error,
       (et_flutter_tensor_validate (Some t) error).1 = ET_FLUTTER_SUCCESS →
       data_size t
       = to_size_t (et_flutter_shape_element_count (Some (shape t))
                    * et_flutter_dtype_size (dtype t))
       ∧ (supported_dtype (dtype t) →
          shape_volume (shape t) * et_flutter_dtype_size (dtype t) < 2 ^ 64 →
          et_flutter_shape_element_count (Some (shape t))
          = shape_volume (shape t)
          ∧ data_size t
            = shape_volume (shape t) * et_flutter_dtype_size (dtype t)))
  ∧ (∀ t error,
       1 ≤ num_dims (shape t) ≤ 8 →
       Forall (λ d, 0 < d) (dims_in_use (shape t)) →
       data t ≠ 0%N →
       data_size t
       = to_size_t (et_flutter_shape_element_count (Some (shape t))
                    * et_flutter_dtype_size (dtype t)) →
       (et_flutter_tensor_validate (Some t) error).1 = ET_FLUTTER_SUCCESS).
Proof.
  split; [reflexivity|]. split; [reflexivity|]. split; [reflexivity|].
  split.
  - intros t error Hok.
    apply validate_success_inv in Hok as (Hnd & Hpos & _ & Hsize).
    assert (Hcount : et_flutter_shape_element_count (Some (shape t))
                     = dims_product (shape t)).
    { unfold et_flutter_shape_element_count. rewrite decide_False; [done|lia]. }
    rewrite Hcount. split; [exact Hsize|].
    intros Hdt Hfit. apply dtype_size_supported in Hdt.
    pose proof (shape_volume_pos _ Hpos) as Hvol.
    rewrite Hsize. simpl. rewrite dims_product_exact; [|done|nia].
    split; [done|]. apply Z.mod_small. nia.
  - intros t error Hnd Hpos Hdata Hsize.
    rewrite validate_structurally_sound;
      [|unfold ET_FLUTTER_MAX_TENSOR_DIMS; lia|done].
    rewrite decide_False by done. rewrite decide_False; [done|].
    intros Hne. apply Hne. rewrite Hsize. simpl.
    unfold et_flutter_shape_element_count. rewrite decide_False; [done|lia].
Qed.

Lemma accepted_size_is_count_times_width_witness :
  (et_flutter_tensor_validate
     (Some (mkTensor (mkShape 4 [1; 3; 224; 224; 0; 0; 0; 0])
                     ET_FLUTTER_DTYPE_FLOAT32 1%N 602112 []))
     None).1 = ET_FLUTTER_SUCCESS
  ∧ 602112
    = to_size_t (et_flutter_shape_element_count
                   (Some (mkShape 4 [1; 3; 224; 224; 0; 0; 0; 0]))
                 * et_flutter_dtype_size ET_FLUTTER_DTYPE_FLOAT32).
Proof.
  split; [reflexivity|].
  destruct accepted_size_is_count_times_width as (_ & _ & _ & H & _).
  destruct (H (mkTensor (mkShape 4 [1; 3; 224; 224; 0; 0; 0; 0])
                        ET_FLUTTER_DTYPE_FLOAT32 1%N 602112 []) None
              eq_refl) as [Hsize _].
  exact Hsize.
Defined.

(** * Copying a tensor *)

Lemma cstr_no_zero (buf : list ascii) : zero ∉ cstr buf.
Proof.
  induction buf as [|c buf IH]; simpl; [apply not_elem_of_nil|].
  case_decide; [apply not_elem_of_nil|].
  intros Hin. apply elem_of_cons in Hin as [Heq|Hin]; [congruence|done].
Qed.

Lemma cstr_app_clean (l r : list ascii) :
  zero ∉ l → cstr (l ++ r) = l ++ cstr r.
Proof.
  induction l as [|c l IH]; simpl; intros Hl; [done|].
  rewrite decide_False by (intros ->; apply Hl; left).
  f_equal. apply IH. intros Hin. apply Hl. by right.
Qed.

Lemma cstr_head_zero (buf : list ascii) :
  hd zero buf = zero → cstr buf = [].
Proof. destruct buf as [|c buf]; simpl; [done|]. intros ->. done. Qed.

Lemma cstr_insert_head (buf : list ascii) : cstr (<[O := zero]> buf) = [].
Proof. by destruct buf. Qed.

(** [strncpy] followed by the terminating store, read back as a string. *)
Lemma cstr_strncpy (dst src : list ascii) (n : nat) :
  cstr (<[n := zero]> (strncpy dst src n)) = take n (cstr src).
Proof.
  unfold strncpy.
  assert (Hclean : zero ∉ take n (cstr src))
    by apply not_elem_of_take, cstr_no_zero.
  assert (Hlen : (length (take n (cstr src)) ≤ n)%nat)
    by (rewrite length_take; lia).
  rewrite insert_app_r_alt by done.
  rewrite cstr_app_clean by done.
  match goal with
  | |- _ ++ ?tail = _ => enough (tail = []) as -> by apply app_nil_r
  end.
  destruct (n - length (take n (cstr src)))%nat as [|k] eqn:Hk.
  - simpl. apply cstr_insert_head.
  - done.
Qed.

Lemma reset_error_idemp (e : ETFlutterError) :
  reset_error (reset_error e) = reset_error e.
Proof. unfold reset_error; simpl. by rewrite list_insert_insert_eq. Qed.

Lemma clear_error_idemp (error : option ETFlutterError) :
  et_flutter_clear_error (et_flutter_clear_error error)
  = et_flutter_clear_error error.
Proof. destruct error; simpl; [|done]. by rewrite reset_error_idemp. Qed.

Lemma validate_success_error (t : ETFlutterTensorData)
    (error : option ETFlutterError) :
  (et_flutter_tensor_validate (Some t) error).1 = ET_FLUTTER_SUCCESS →
  et_flutter_tensor_validate (Some t) error
  = (ET_FLUTTER_SUCCESS, et_flutter_clear_error error).
Proof.
  intros Hok. apply validate_success_inv in Hok as (Hnd & Hpos & Hdata & Hsize).
  rewrite validate_structurally_sound by done.
  rewrite decide_False by done. rewrite decide_False; [done|]. by intros ?.
Qed.

Lemma copied_name_cstr (src dst : ETFlutterTensorData) :
  cstr (copied_name src dst) = take 63 (cstr (name src)).
Proof.
  unfold copied_name. case_decide as Hhd.
  - apply cstr_strncpy.
  - rewrite cstr_insert_head, cstr_head_zero; [done|].
    by destruct (decide (hd zero (name src) = zero)).
Qed.

(** C10: [et_flutter_tensor_copy] validates the source only.  For a source
    that validation accepts and any destination struct whatsoever, it
    answers SUCCESS and the destination takes the source's shape, dtype,
    stated size and name (as a C string, at most 63 characters), keeping
    its own data pointer.  With a NULL destination pointer the memory is
    left exactly as it was: no byte is copied, and the answer is SUCCESS
    all the same.  With a destination buffer (and buffers long enough for
    the copy to be defined) the first [data_size] bytes are the
    source's. *)
Theorem tensor_copy_ignores_destination (src dst : ETFlutterTensorData)
    (error : option ETFlutterError) (s : state) :
  (et_flutter_tensor_validate (Some src) error).1 = ET_FLUTTER_SUCCESS →
  let dst' :=
    mkTensor (shape src) (dtype src) (data dst) (data_size src)
             (copied_name src dst) in
  cstr (name dst') = take 63 (cstr (name src))
  ∧ ((length (cstr (name src)) ≤ 63)%nat → cstr (name dst') = cstr (name src))
  ∧ (data dst = 0%N →
     et_flutter_tensor_copy (Some src) (Some dst) error s
     = Some ((ET_FLUTTER_SUCCESS, Some dst', et_flutter_clear_error error), s))
  ∧ (∀ from to,
       data dst ≠ 0%N →
       blocks s !! data src = Some (BData from) →
       blocks s !! data dst = Some (BData to) →
       data_size src ≤ buf_len from → data_size src ≤ buf_len to →
       ∃ copied,
         et_flutter_tensor_copy (Some src) (Some dst) error s
         = Some ((ET_FLUTTER_SUCCESS, Some dst', et_flutter_clear_error error),
                 set_blocks s (<[data dst := BData copied]> (blocks s)))
         ∧ buf_len copied = buf_len to
         ∧ (∀ i, 0 ≤ i < data_size src → buf_at copied i = buf_at from i)
         ∧ (∀ i, ¬ 0 ≤ i < data_size src → buf_at copied i = buf_at to i)).
Proof.
  intros Hok dst'. subst dst'.
  pose proof (validate_success_inv _ _ Hok) as (_ & _ & Hsrc & _).
  apply validate_success_error in Hok.
  split; [apply copied_name_cstr|].
  split.
  { intros Hlen. etransitivity; [apply copied_name_cstr|by apply take_ge]. }
  split.
  - intros Hnull. cbv delta [et_flutter_tensor_copy]. cbv beta iota. rewrite Hok.
    cbv beta iota zeta.
    rewrite (decide_False (P := ET_FLUTTER_SUCCESS ≠ ET_FLUTTER_SUCCESS))
      by (intros H; by apply H).
    rewrite (decide_False (P := data dst ≠ 0%N ∧ data src ≠ 0%N))
      by (intros [H _]; by apply H).
    unfold mbind, M_bind, mret, M_ret. fold (copied_name src dst).
    by rewrite clear_error_idemp.
  - intros from to Hdst Hfrom Hto Hlf Hlt.
    eexists. split; [|split; [|split]].
    + cbv delta [et_flutter_tensor_copy]. cbv beta iota. rewrite Hok.
    cbv beta iota zeta.
      rewrite (decide_False (P := ET_FLUTTER_SUCCESS ≠ ET_FLUTTER_SUCCESS))
        by (intros H; by apply H).
      rewrite (decide_True (P := data dst ≠ 0%N ∧ data src ≠ 0%N)) by done.
      unfold mbind, M_bind, mret, M_ret, memcpy. rewrite Hfrom, Hto.
      rewrite decide_True by done. fold (copied_name src dst).
      rewrite clear_error_idemp. reflexivity.
    + done.
    + intros i Hi. simpl. by rewrite decide_True.
    + intros i Hi. simpl. by rewrite decide_False.
Qed.

Lemma tensor_copy_ignores_destination_witness :
  (et_flutter_tensor_validate (Some sample_tensor) None).1 = ET_FLUTTER_SUCCESS
  ∧ et_flutter_tensor_copy (Some sample_tensor)
      (Some (mkTensor (mkShape 0 []) 9 0%N 77 [])) None (sample_state [])
    = Some ((ET_FLUTTER_SUCCESS,
             Some (mkTensor (shape sample_tensor) ET_FLUTTER_DTYPE_UINT8
                            0%N 4 []),
             None),
            sample_state []).
Proof.
  split; [reflexivity|].
  destruct (tensor_copy_ignores_destination sample_tensor
              (mkTensor (mkShape 0 []) 9 0%N 77 []) None (sample_state [])
              eq_refl)
    as (_ & _ & Hnull & _).
  exact (Hnull eq_refl).
Defined.


(** * Memory *)

Lemma heap_wf_fresh (s : state) :
  heap_wf s →
  next_addr s ≠ 0%N
  ∧ blocks s !! next_addr s = None
  ∧ blocks s !! N.succ (next_addr s) = None.
Proof.
  intros [Hpos Hbound]. split; [lia|].
  split; apply eq_None_not_Some; intros Hsome; apply Hbound in Hsome; lia.
Qed.

Lemma bind_eq {A B : Type} (m : M A) (f : A → M B) (s s1 : state) (a : A) :
  m s = Some (a, s1) → (m ≫= f) s = f a s1.
Proof. intros H. unfold mbind, M_bind. by rewrite H. Qed.

Lemma bind_inv {A B : Type} (m : M A) (f : A → M B) (s s2 : state) (b : B) :
  (m ≫= f) s = Some (b, s2) →
  ∃ a s1, m s = Some (a, s1) ∧ f a s1 = Some (b, s2).
Proof.
  unfold mbind, M_bind. destruct (m s) as [[a s1]|]; [eauto|discriminate].
Qed.

Lemma malloc_cases (size : Z) (s : state) :
  malloc size s
  = Some (0%N, mkState (blocks s) (next_addr s) (tail (malloc_oracle s))
                       (engine_calls s))
  ∨ malloc size s
    = Some (next_addr s,
            mkState (<[next_addr s := BData (mkBuffer size (λ _, x00))]>
                       (blocks s))
                    (N.succ (next_addr s)) (tail (malloc_oracle s))
                    (engine_calls s)).
Proof. unfold malloc. destruct (malloc_oracle s) as [|[] rest]; auto. Qed.

Lemma store_struct_some (p : N) (t : ETFlutterTensorData) (s : state)
    (b : block) :
  blocks s !! p = Some b →
  store_struct p t s = Some (tt, set_blocks s (<[p := BStruct t]> (blocks s))).
Proof. intros H. unfold store_struct. by rewrite H. Qed.

Lemma free_some (p : N) (s : state) (b : block) :
  p ≠ 0%N → blocks s !! p = Some b →
  free p s = Some (tt, set_blocks s (delete p (blocks s))).
Proof. intros Hp H. unfold free. rewrite decide_False by done. by rewrite H. Qed.

Lemma memcpy_inv (dst src : N) (n : Z) (s s' : state) (u : unit) :
  memcpy dst src n s = Some (u, s') →
  ∃ from to,
    blocks s !! src = Some (BData from) ∧ blocks s !! dst = Some (BData to)
    ∧ n ≤ buf_len from ∧ n ≤ buf_len to
    ∧ s' = set_blocks s
             (<[dst := BData (mkBuffer (buf_len to)
                                (λ i, if decide (0 ≤ i < n)
                                      then buf_at from i else buf_at to i))]>
                (blocks s)).
Proof.
  unfold memcpy.
  destruct (blocks s !! src) as [[|from]|]; try discriminate.
  destruct (blocks s !! dst) as [[|to]|]; try discriminate.
  case_decide as Hn; [|discriminate]. intros [= <- <-].
  exists from, to. by destruct Hn.
Qed.

Lemma heap_wf_same (s s' : state) :
  heap_wf s → blocks s' = blocks s → (next_addr s ≤ next_addr s')%N →
  heap_wf s'.
Proof.
  intros [Hpos Hbound] Hb Hn. split; [lia|].
  intros a Ha. rewrite Hb in Ha. apply Hbound in Ha. lia.
Qed.

Lemma heap_wf_grown (s s' : state) (x y : block) :
  heap_wf s →
  blocks s'
  = <[N.succ (next_addr s) := x]> (<[next_addr s := y]> (blocks s)) →
  next_addr s' = N.succ (N.succ (next_addr s)) →
  heap_wf s'.
Proof.
  intros [Hpos Hbound] Hb Hn. split; [lia|].
  intros a Ha. rewrite Hb in Ha. rewrite Hn.
  destruct (decide (a = N.succ (next_addr s))) as [->|]; [lia|].
  rewrite lookup_insert_ne in Ha by done.
  destruct (decide (a = next_addr s)) as [->|]; [lia|].
  rewrite lookup_insert_ne in Ha by done.
  apply Hbound in Ha. lia.
Qed.

Lemma insert_stack_normal (m : gmap N block) (n : N)
    (a1 a2 a3 b1 b2 : block) :
  N.succ n ≠ n →
  <[n := a3]> (<[N.succ n := b2]> (<[n := a2]> (<[N.succ n := b1]>
    (<[n := a1]> m))))
  = <[N.succ n := b2]> (<[n := a3]> m).
Proof.
  intros Hne. apply map_eq. intros a.
  destruct (decide (a = n)) as [->|];
    [|destruct (decide (a = N.succ n)) as [->|]];
    simplify_map_eq; done.
Qed.

Lemma convert_from_cases (tensor : Tensor) (s s' : state) (p : N) :
  heap_wf s →
  convert_from_executorch_tensor tensor s = Some (p, s') →
  heap_wf s' ∧ engine_calls s' = engine_calls s
  ∧ ((p = 0%N ∧ blocks s' = blocks s)
     ∨ (p = next_addr s ∧ p ≠ 0%N
        ∧ ∃ r b, data r = N.succ p
           ∧ blocks s'
             = <[N.succ p := BData b]> (<[p := BStruct r]> (blocks s)))).
Proof.
  intros Hwf. pose proof (heap_wf_fresh s Hwf) as (Hnz & Hfresh & Hfresh').
  assert (Hne : N.succ (next_addr s) ≠ next_addr s) by lia.
  unfold convert_from_executorch_tensor.
  destruct (malloc_cases sizeof_ETFlutterTensorData s) as [Hm|Hm];
    rewrite (bind_eq _ _ _ _ _ Hm); clear Hm.
  { rewrite decide_True by done. intros [= <- <-].
    split; [by apply (heap_wf_same s)|]. split; [done|]. left. done. }
  rewrite decide_False by done.
  erewrite bind_eq by (eapply store_struct_some; simpl; apply lookup_insert_eq).
  cbn [blocks set_blocks next_addr malloc_oracle engine_calls].
  rewrite insert_insert_eq.
  destruct (dtype_of_scalar_type (scalar_type tensor)) as [dt|].
  2:{ erewrite bind_eq
        by (eapply free_some; [done|simpl; apply lookup_insert_eq]).
      cbn [blocks set_blocks next_addr malloc_oracle engine_calls].
      rewrite delete_insert_eq, delete_id by done.
      intros [= <- <-]. split; [|split; [done|left; done]].
      apply (heap_wf_same s); simpl; [done|done|lia]. }
  case_decide as Hrank; [|discriminate]. cbv zeta.
  match goal with |- context [malloc ?sz] => set (size := sz) end.
  match goal with |- (malloc size ≫= _) ?st = _ → _ =>
    destruct (malloc_cases size st) as [Hm|Hm];
      rewrite (bind_eq _ _ _ _ _ Hm); clear Hm
  end; cbn [blocks set_blocks next_addr malloc_oracle engine_calls].
  { erewrite bind_eq by (eapply store_struct_some; simpl; apply lookup_insert_eq).
    rewrite decide_True by done.
    cbn [blocks set_blocks next_addr malloc_oracle engine_calls].
    erewrite bind_eq
      by (eapply free_some; [done|simpl; apply lookup_insert_eq]).
    cbn [blocks set_blocks next_addr malloc_oracle engine_calls].
    rewrite !insert_insert_eq, delete_insert_eq, delete_id by done.
    intros [= <- <-]. split; [|split; [done|left; done]].
    apply (heap_wf_same s); simpl; [done|done|lia]. }
  erewrite bind_eq
    by (eapply store_struct_some; simpl;
        rewrite lookup_insert_ne by done; apply lookup_insert_eq).
  cbn [blocks set_blocks next_addr malloc_oracle engine_calls].
  rewrite decide_False by lia.
  intros Hrun. apply bind_inv in Hrun as (u & s1 & Hcpy & Hrun).
  apply memcpy_inv in Hcpy as (from & to & Hfrom & Hto & Hlf & Hlt & ->).
  cbn [blocks set_blocks next_addr malloc_oracle engine_calls] in *.
  erewrite bind_eq in Hrun
    by (eapply store_struct_some; simpl;
        rewrite lookup_insert_ne by done;
        apply lookup_insert_eq).
  cbn [blocks set_blocks next_addr malloc_oracle engine_calls] in Hrun.
  injection Hrun as <- <-.
  rewrite insert_stack_normal by done.
  split; [eapply (heap_wf_grown s); [done|simpl; done|done]|].
  split; [done|]. right. split; [done|]. split; [done|].
  eexists (mkTensor _ _ _ _ _), _. split; reflexivity.
Qed.

(** With a handle that dangles the function can only return NULL, from
    the refused struct allocation; past that it is undefined. *)
Lemma convert_from_dangling_cases (s s' : state) (p : N) :
  heap_wf s →
  convert_from_dangling_tensor s = Some (p, s') →
  p = 0%N ∧ head (malloc_oracle s) = Some false
  ∧ s' = mkState (blocks s) (next_addr s) (tail (malloc_oracle s))
                 (engine_calls s).
Proof.
  intros Hwf. pose proof (heap_wf_fresh s Hwf) as (Hnz & _).
  unfold convert_from_dangling_tensor.
  destruct (malloc_cases sizeof_ETFlutterTensorData s) as [Hm|Hm];
    rewrite (bind_eq _ _ _ _ _ Hm).
  - rewrite decide_True by done. intros [= <- <-].
    split; [done|]. split; [|done].
    unfold malloc in Hm. destruct (malloc_oracle s) as [|[] rest]; try done.
    all: injection Hm as Hm _; congruence.
  - rewrite decide_False by done.
    erewrite bind_eq
      by (eapply store_struct_some; simpl; apply lookup_insert_eq).
    done.
Qed.

Lemma convert_output_tensor_None (v : EValue) :
  convert_output_tensor v = None ↔ isTensor v = false.
Proof. by destruct v. Qed.

(** Whatever tensor value the output loop converts, the conversion
    either returns NULL and leaves the blocks as they were, or adds a
    struct and its buffer at the next two addresses. *)
Lemma convert_output_cases (v : EValue) (converted : M N) (s s' : state)
    (p : N) :
  convert_output_tensor v = Some converted →
  heap_wf s →
  converted s = Some (p, s') →
  heap_wf s' ∧ engine_calls s' = engine_calls s
  ∧ ((p = 0%N ∧ blocks s' = blocks s)
     ∨ (p = next_addr s ∧ p ≠ 0%N
        ∧ ∃ r b, data r = N.succ p
           ∧ blocks s'
             = <[N.succ p := BData b]> (<[p := BStruct r]> (blocks s)))).
Proof.
  destruct v as [| | |t|t]; try done; intros [= <-] Hwf Hrun.
  - by apply (convert_from_cases t).
  - apply convert_from_dangling_cases in Hrun as (-> & _ & ->); [|done].
    split; [by apply (heap_wf_same s)|]. split; [done|]. by left.
Qed.

Lemma set_blocks_twice (s : state) (m1 m2 : gmap N block) :
  set_blocks (set_blocks s m1) m2 = set_blocks s m2.
Proof. done. Qed.

Lemma set_blocks_same (s : state) : set_blocks s (blocks s) = s.
Proof. by destruct s. Qed.

(** [free_allocated] changes nothing but the blocks, as [release] says. *)
Lemma free_allocated_release (slots : list N) (s : state) :
  free_allocated slots s
  = match release slots (blocks s) with
    | Some m' => Some (tt, set_blocks s m')
    | None => None
    end.
Proof.
  revert s. induction slots as [|p rest IH]; intros s; simpl.
  { by rewrite set_blocks_same. }
  unfold mbind at 1. unfold M_bind at 1.
  case_decide as Hp.
  - unfold mbind at 1. unfold M_bind at 1. unfold load_struct.
    destruct (blocks s !! p) as [[t|b]|] eqn:Hlook; try done.
    unfold mbind at 1. unfold M_bind at 1. unfold free at 1.
    case_decide as Hd.
    + unfold free. rewrite decide_False by done. rewrite Hlook.
      rewrite IH. by cbn [blocks set_blocks].
    + destruct (blocks s !! data t) as [x|] eqn:Hdata; [|done].
      unfold free. rewrite decide_False by done.
      cbn [blocks set_blocks].
      destruct (delete (data t) (blocks s) !! p) as [y|] eqn:Hp'; [|done].
      rewrite IH. by cbn [blocks set_blocks].
  - unfold mret, M_ret. apply IH.
Qed.

Lemma release_app (l1 l2 : list N) (m : gmap N block) :
  release (l1 ++ l2) m
  = match release l1 m with
    | Some m' => release l2 m'
    | None => None
    end.
Proof.
  revert m. induction l1 as [|p l1 IH]; intros m; simpl; [done|].
  case_decide; [|apply IH].
  destruct (m !! p) as [[t|b]|]; try done.
  case_decide; [apply IH|].
  destruct (m !! data t); [|done].
  destruct (delete (data t) m !! p); [apply IH|done].
Qed.

(** Frame: a block at an address the cleanup does not own stays. *)
Lemma release_frame (slots : list N) (m m' : gmap N block) (a : N)
    (x : block) :
  release slots m = Some m' → m !! a = None →
  release slots (<[a := x]> m) = Some (<[a := x]> m') ∧ m' !! a = None.
Proof.
  revert m. induction slots as [|p rest IH]; intros m Hrel Ha; simpl in *.
  { injection Hrel as <-. done. }
  destruct (decide (p ≠ 0%N)) as [Hp|Hp]; [|by apply IH].
  destruct (m !! p) as [[t|b]|] eqn:Hlook; try done.
  assert (p ≠ a) by congruence.
  rewrite lookup_insert_ne, Hlook by done.
  destruct (decide (data t = 0%N)) as [Hd|Hd].
  - rewrite delete_insert_ne by done. apply IH; [done|].
    by rewrite lookup_delete_ne.
  - destruct (m !! data t) as [y|] eqn:Hdata; [|done].
    assert (data t ≠ a) by congruence.
    destruct (delete (data t) m !! p) as [z|] eqn:Hp'; [|done].
    rewrite lookup_insert_ne, Hdata by done.
    rewrite (delete_insert_ne _ (data t)) by done.
    rewrite lookup_insert_ne, Hp' by done.
    rewrite (delete_insert_ne _ p) by done. apply IH; [done|].
    by rewrite !lookup_delete_ne.
Qed.

(** One more owned slot: a fresh struct with its fresh buffer. *)
Lemma release_grow (slots : list N) (m m0 : gmap N block) (p d : N)
    (r : ETFlutterTensorData) (b : buffer) :
  release slots m = Some m0 →
  m !! p = None → m !! d = None → p ≠ d → p ≠ 0%N → d ≠ 0%N → data r = d →
  release (slots ++ [p]) (<[d := BData b]> (<[p := BStruct r]> m)) = Some m0.
Proof.
  intros Hrel Hp Hd Hpd Hp0 Hd0 Hr.
  destruct (release_frame slots m m0 p (BStruct r) Hrel Hp) as [Hrel1 Hp1].
  assert (Hd' : <[p := BStruct r]> m !! d = None)
    by (by rewrite lookup_insert_ne).
  destruct (release_frame slots _ _ d (BData b) Hrel1 Hd') as [Hrel2 Hd2].
  rewrite release_app, Hrel2. simpl.
  rewrite decide_True by done.
  rewrite lookup_insert_ne, lookup_insert_eq by done.
  rewrite Hr, decide_False by done.
  rewrite lookup_insert_eq, delete_insert_eq.
  rewrite lookup_delete_ne, lookup_insert_eq by done.
  f_equal. rewrite (delete_id _ d) by done.
  by apply delete_insert_id.
Qed.

(** * The output loop *)

Lemma slots_owned_start (s : state) (o : ETFlutterForwardOutput) :
  heap_wf s → outputs o = replicate 16 0%N →
  slots_owned (blocks s) 0 o s.
Proof.
  intros Hwf Ho. unfold slots_owned. rewrite Ho.
  split_and!; try done.
  intros j Hj. apply lookup_replicate_2. lia.
Qed.

Lemma slots_owned_skip (m0 : gmap N block) (i : nat)
    (o : ETFlutterForwardOutput) (s : state) :
  (i < 16)%nat → slots_owned m0 i o s → slots_owned m0 (S i) o s.
Proof.
  intros Hi (Hwf & Hlen & Hrel & Hnull).
  split_and!; try done.
  - rewrite (take_S_r _ _ 0%N) by (apply Hnull; lia).
    rewrite release_app, Hrel. done.
  - intros j Hj. apply Hnull. lia.
Qed.

Lemma slots_owned_fill (m0 : gmap N block) (i : nat)
    (o : ETFlutterForwardOutput) (s s1 : state) (p : N)
    (r : ETFlutterTensorData) (b : buffer) :
  (i < 16)%nat → slots_owned m0 i o s → heap_wf s1 →
  p = next_addr s → data r = N.succ p →
  blocks s1 = <[N.succ p := BData b]> (<[p := BStruct r]> (blocks s)) →
  slots_owned m0 (S i) (with_slot o i p) s1.
Proof.
  intros Hi (Hwf & Hlen & Hrel & Hnull) Hwf1 -> Hr Hb.
  pose proof (heap_wf_fresh s Hwf) as (Hnz & Hfresh & Hfresh').
  split_and!; try done.
  - simpl. by rewrite length_insert.
  - simpl. rewrite (take_S_r _ _ (next_addr s))
      by (apply list_lookup_insert_eq; lia).
    rewrite take_insert_ge by done. rewrite Hb.
    apply release_grow; try done; lia.
  - intros j Hj. simpl. rewrite list_lookup_insert_ne by lia.
    apply Hnull. lia.
Qed.

(** What the output loop does, from any index: either it stops at a
    tensor whose conversion returned NULL, and then it reports MEMORY
    with a count of zero and has given back every block it allocated; or
    it runs through, leaving error and count as they were, with every
    converted slot owned and every non-tensor slot NULL. *)
Lemma convert_outputs_spec (m0 : gmap N block) (outs : list EValue) :
  ∀ (i : nat) (o o' : ETFlutterForwardOutput) (s s' : state),
    (i ≤ 16)%nat → slots_owned m0 i o s →
    convert_outputs outs i o s = Some (o', s') →
    engine_calls s' = engine_calls s
    ∧ ((code (error o') = ET_FLUTTER_ERROR_MEMORY
        ∧ num_outputs o' = 0 ∧ blocks s' = m0
        ∧ ∃ k v, outs !! k = Some v ∧ isTensor v = true
                 ∧ (i + k < 16)%nat)
       ∨ (error o' = error o ∧ num_outputs o' = num_outputs o
          ∧ slots_owned m0 ((i + length outs) `min` 16) o' s'
          ∧ take i (outputs o') = take i (outputs o)
          ∧ ∀ j v, outs !! j = Some v → isTensor v = false →
              (i + j < 16)%nat → outputs o' !! (i + j)%nat = Some 0%N)).
Proof.
  induction outs as [|v rest IH]; intros i o o' s s' Hi Hown Hrun.
  { injection Hrun as <- <-. split; [done|]. right.
    rewrite Nat.add_0_r, Nat.min_l by done. split_and!; try done. }
  cbn [convert_outputs] in Hrun.
  destruct (decide (Z.of_nat i < ET_FLUTTER_MAX_OUTPUTS)) as [Hlt|Hge].
  2:{ injection Hrun as <- <-. split; [done|]. right.
      assert (i = 16%nat) as -> by (unfold ET_FLUTTER_MAX_OUTPUTS in Hge; lia).
      rewrite Nat.min_r by lia. split_and!; try done.
      intros j w _ _ Hj. lia. }
  assert (Hi' : (i < 16)%nat) by (unfold ET_FLUTTER_MAX_OUTPUTS in Hlt; lia).
  assert (Hstep : ∀ o1 s1,
            (S i ≤ 16)%nat → slots_owned m0 (S i) o1 s1 →
            convert_outputs rest (S i) o1 s1 = Some (o', s') →
            take i (outputs o1) = take i (outputs o) →
            (isTensor v = false → outputs o1 !! i = Some 0%N) →
            engine_calls s' = engine_calls s1
            ∧ ((code (error o') = ET_FLUTTER_ERROR_MEMORY
                ∧ num_outputs o' = 0 ∧ blocks s' = m0
                ∧ ∃ k v0, (v :: rest) !! k = Some v0 ∧ isTensor v0 = true
                          ∧ (i + k < 16)%nat)
               ∨ (error o' = error o1 ∧ num_outputs o' = num_outputs o1
                  ∧ slots_owned m0 ((i + length (v :: rest)) `min` 16) o' s'
                  ∧ take i (outputs o') = take i (outputs o)
                  ∧ ∀ j v0, (v :: rest) !! j = Some v0 → isTensor v0 = false →
                      (i + j < 16)%nat →
                      outputs o' !! (i + j)%nat = Some 0%N))).
  { intros o1 s1 HSi Hown1 Hrec Hfront Hhere.
    destruct (IH (S i) o1 o' s1 s' HSi Hown1 Hrec) as [Hcalls [Hfail|Hok]].
    - split; [done|]. left.
      destruct Hfail as (Hc & Hn & Hb & k & v0 & Hk & Hv0 & Hlt').
      split_and!; try done. exists (S k), v0. split_and!; [done|done|lia].
    - split; [done|]. right.
      destruct Hok as (He & Hn & Hown' & Htake & Hnull).
      split_and!; try done.
      + simpl. by replace (i + S (length rest))%nat
          with (S i + length rest)%nat by lia.
      + apply (f_equal (take i)) in Htake.
        rewrite !take_take, Nat.min_l in Htake by lia. congruence.
      + intros [|j] v0 Hj Hv0 Hij.
        * injection Hj as <-. rewrite Nat.add_0_r.
          rewrite <- (lookup_take_lt _ (S i)), Htake, lookup_take_lt by lia.
          by apply Hhere.
        * replace (i + S j)%nat with (S i + j)%nat by lia.
          apply (Hnull j v0); [done|done|lia]. }
  pose proof Hown as (Hwf & Hlen & Hrel & Hnull0).
  assert (Hskip : isTensor v = false →
            convert_outputs rest (S i) o s = Some (o', s') →
            engine_calls s' = engine_calls s
            ∧ ((code (error o') = ET_FLUTTER_ERROR_MEMORY
                ∧ num_outputs o' = 0 ∧ blocks s' = m0
                ∧ ∃ k v0, (v :: rest) !! k = Some v0 ∧ isTensor v0 = true
                          ∧ (i + k < 16)%nat)
               ∨ (error o' = error o ∧ num_outputs o' = num_outputs o
                  ∧ slots_owned m0 ((i + length (v :: rest)) `min` 16) o' s'
                  ∧ take i (outputs o') = take i (outputs o)
                  ∧ ∀ j v0, (v :: rest) !! j = Some v0 → isTensor v0 = false →
                      (i + j < 16)%nat →
                      outputs o' !! (i + j)%nat = Some 0%N))).
  { intros Hv Hrec.
    apply (Hstep o s);
      [lia|by apply slots_owned_skip|done|done|intros _; apply Hnull0; lia]. }
  destruct (convert_output_tensor v) as [converted|] eqn:Hv;
    [|apply Hskip; [by apply convert_output_tensor_None|done]].
  clear Hskip.
  apply bind_inv in Hrun as (p & s1 & Hconv & Hrun).
  destruct (convert_output_cases v converted s s1 p Hv Hwf Hconv)
    as (Hwf1 & Hcalls1 & [[-> Hsame]|(Hp & Hpnz & r & b & Hr & Hgrown)]).
  - (* the conversion returned NULL *)
    rewrite decide_True in Hrun by done.
    apply bind_inv in Hrun as (u & s2 & Hfree & Hrun).
    rewrite free_allocated_release in Hfree.
    cbn [outputs with_error with_slot] in Hfree.
    rewrite take_insert_ge, Hsame, Hrel in Hfree by done.
    injection Hfree as _ <-. injection Hrun as <- <-.
    split; [done|]. left. split_and!; try done.
    exists 0%nat, v. split_and!; [done|by destruct v|lia].
  - (* the conversion produced a descriptor *)
    rewrite decide_False in Hrun by done.
    destruct (Hstep (with_slot o i p) s1) as [Hcalls Hcases];
      [lia|by eapply slots_owned_fill|done
      |simpl; by rewrite take_insert_ge|by destruct v|].
    split; [congruence|]. done.
Qed.

(** Values that are not tensors leave the output record and the state
    exactly as they are. *)
Lemma convert_outputs_no_tensor (outs : list EValue) :
  Forall (λ v, isTensor v = false) outs →
  ∀ i o s, convert_outputs outs i o s = Some (o, s).
Proof.
  induction 1 as [|v rest Hv _ IH]; intros i o s; [done|].
  cbn [convert_outputs]. case_decide; [|done].
  apply convert_output_tensor_None in Hv. rewrite Hv. apply IH.
Qed.

(** A prefix of the outputs that converted without failure is followed by
    the loop over the rest, from the index after it. *)
Lemma convert_outputs_app (pre rest : list EValue) :
  ∀ (i : nat) (o o1 : ETFlutterForwardOutput) (s s1 : state),
    (i + length pre ≤ 16)%nat →
    code (error o) ≠ ET_FLUTTER_ERROR_MEMORY →
    convert_outputs pre i o s = Some (o1, s1) →
    code (error o1) ≠ ET_FLUTTER_ERROR_MEMORY →
    convert_outputs (pre ++ rest) i o s
    = convert_outputs rest (i + length pre) o1 s1.
Proof.
  induction pre as [|v pre IH]; intros i o o1 s s1 Hi Hcode Hrun Hcode1.
  { injection Hrun as <- <-. by rewrite Nat.add_0_r. }
  simpl in Hi. cbn [convert_outputs app length] in *.
  rewrite decide_True in * by (unfold ET_FLUTTER_MAX_OUTPUTS; lia).
  replace (i + S (length pre))%nat with (S i + length pre)%nat by lia.
  destruct (convert_output_tensor v) as [converted|];
    [|apply IH; (done || lia)].
  apply bind_inv in Hrun as (p & s2 & Hconv & Hrun).
  rewrite (bind_eq _ _ _ _ _ Hconv).
  destruct (decide (p = 0%N)) as [->|Hp].
  - apply bind_inv in Hrun as (u & s3 & _ & Hrun).
    injection Hrun as <- <-. done.
  - apply IH; (done || lia).
Qed.

(** A failure of the output loop singles out one tensor value: the
    values in front of it went through, and its conversion returned
    NULL. *)
Lemma convert_outputs_failure (outs : list EValue) :
  ∀ (i : nat) (o o' : ETFlutterForwardOutput) (s s' : state),
    convert_outputs outs i o s = Some (o', s') →
    code (error o') ≠ code (error o) →
    ∃ pre v post converted o_k s_k s_k',
      outs = pre ++ v :: post
      ∧ (i + length pre < 16)%nat
      ∧ convert_output_tensor v = Some converted
      ∧ convert_outputs pre i o s = Some (o_k, s_k)
      ∧ error o_k = error o
      ∧ converted s_k = Some (0%N, s_k').
Proof.
  induction outs as [|v rest IH]; intros i o o' s s' Hrun Hcode.
  { injection Hrun as <- <-. done. }
  cbn [convert_outputs] in Hrun.
  destruct (decide (Z.of_nat i < ET_FLUTTER_MAX_OUTPUTS)) as [Hlt|Hge];
    [|injection Hrun as <- <-; done].
  assert (Hi : (i < 16)%nat) by (unfold ET_FLUTTER_MAX_OUTPUTS in Hlt; lia).
  destruct (convert_output_tensor v) as [converted|] eqn:Hv.
  - apply bind_inv in Hrun as (p & s1 & Hconv & Hrun).
    destruct (decide (p = 0%N)) as [->|Hp].
    + exists [], v, rest, converted, o, s, s1.
      rewrite Nat.add_0_r. done.
    + destruct (IH (S i) _ o' s1 s' Hrun Hcode)
        as (pre & w & post & cw & o_k & s_k & s_k' & -> & Hlen & Hw & Hpre
            & He & Hnull).
      exists (v :: pre), w, post, cw, o_k, s_k, s_k'.
      split; [done|]. split; [simpl; lia|]. split; [done|].
      split; [|done].
      cbn [convert_outputs]. rewrite decide_True by done. rewrite Hv.
      rewrite (bind_eq _ _ _ _ _ Hconv). by rewrite decide_False.
  - destruct (IH (S i) o o' s s' Hrun Hcode)
      as (pre & w & post & cw & o_k & s_k & s_k' & -> & Hlen & Hw & Hpre
          & He & Hnull).
    exists (v :: pre), w, post, cw, o_k, s_k, s_k'.
    split; [done|]. split; [simpl; lia|]. split; [done|]. split; [|done].
    cbn [convert_outputs]. rewrite decide_True by done. by rewrite Hv.
Qed.

(** * The converters *)

Lemma malloc_succeeds (size : Z) (s : state) :
  head (malloc_oracle s) ≠ Some false →
  malloc size s
  = Some (next_addr s,
          mkState (<[next_addr s := BData (mkBuffer size (λ _, x00))]>
                     (blocks s))
                  (N.succ (next_addr s)) (tail (malloc_oracle s))
                  (engine_calls s)).
Proof. unfold malloc. by destruct (malloc_oracle s) as [|[] rest]. Qed.

Lemma memcpy_some (dst src : N) (n : Z) (s : state) (from to : buffer) :
  blocks s !! src = Some (BData from) → blocks s !! dst = Some (BData to) →
  n ≤ buf_len from → n ≤ buf_len to →
  memcpy dst src n s
  = Some (tt, set_blocks s
                (<[dst := BData (mkBuffer (buf_len to)
                                   (λ i, if decide (0 ≤ i < n)
                                         then buf_at from i
                                         else buf_at to i))]>
                   (blocks s))).
Proof.
  intros Hfrom Hto Hlf Hlt. unfold memcpy. rewrite Hfrom, Hto.
  by rewrite decide_True.
Qed.

(** The owning copy on its success path: both allocations succeed, the
    scalar type maps, the rank is within the array, the native buffer
    holds the bytes to copy. *)
Lemma convert_from_copies (tensor : Tensor) (s : state) (dt : Z)
    (from : buffer) :
  let size :=
    et_flutter_tensor_data_size
      (Some (mkTensor (copied_shape tensor) dt 0%N 0 (name zeroed_tensor))) in
  let p := next_addr s in
  heap_wf s →
  head (malloc_oracle s) ≠ Some false →
  head (tail (malloc_oracle s)) ≠ Some false →
  dtype_of_scalar_type (scalar_type tensor) = Some dt →
  num_dims (copied_shape tensor) ≤ ET_FLUTTER_MAX_TENSOR_DIMS →
  blocks s !! const_data_ptr tensor = Some (BData from) →
  size ≤ buf_len from →
  convert_from_executorch_tensor tensor s
  = Some (p,
          mkState
            (<[N.succ p :=
                 BData (mkBuffer size
                          (λ i, if decide (0 ≤ i < size) then buf_at from i
                                else x00))]>
               (<[p := BStruct (mkTensor (copied_shape tensor) dt (N.succ p)
                                  size (<[O := zero]> (name zeroed_tensor)))]>
                  (blocks s)))
            (N.succ (N.succ p)) (tail (tail (malloc_oracle s)))
            (engine_calls s)).
Proof.
  intros size p Hwf Ho1 Ho2 Hdt Hrank Hfrom Hlen. subst p.
  pose proof (heap_wf_fresh s Hwf) as (Hnz & Hfresh & Hfresh').
  assert (Hne : N.succ (next_addr s) ≠ next_addr s) by lia.
  assert (Hsrc1 : const_data_ptr tensor ≠ next_addr s) by congruence.
  assert (Hsrc2 : const_data_ptr tensor ≠ N.succ (next_addr s)) by congruence.
  unfold convert_from_executorch_tensor.
  rewrite (bind_eq _ _ _ _ _ (malloc_succeeds _ s Ho1)).
  rewrite decide_False by done.
  erewrite bind_eq by (eapply store_struct_some; simpl; apply lookup_insert_eq).
  cbn [blocks set_blocks next_addr malloc_oracle engine_calls].
  rewrite Hdt. rewrite decide_True by done. cbv zeta. fold size.
  erewrite bind_eq by (apply malloc_succeeds; exact Ho2).
  cbn [blocks set_blocks next_addr malloc_oracle engine_calls].
  erewrite bind_eq
    by (eapply store_struct_some; simpl;
        rewrite lookup_insert_ne by done; apply lookup_insert_eq).
  cbn [blocks set_blocks next_addr malloc_oracle engine_calls].
  rewrite decide_False by lia.
  erewrite bind_eq.
  2:{ eapply (memcpy_some _ _ _ _ from (mkBuffer size (λ _, x00)));
        cbn [blocks set_blocks buf_len]; [|  |done|lia].
      - rewrite !lookup_insert_ne by done. exact Hfrom.
      - rewrite lookup_insert_ne by done. apply lookup_insert_eq. }
  cbn [blocks set_blocks next_addr malloc_oracle engine_calls buf_len buf_at].
  erewrite bind_eq
    by (eapply store_struct_some; simpl;
        rewrite lookup_insert_ne by done; apply lookup_insert_eq).
  cbn [blocks set_blocks next_addr malloc_oracle engine_calls].
  rewrite insert_insert_eq, insert_stack_normal by done.
  reflexivity.
Qed.

Lemma allocations_succeed_heads (oracle : list bool) :
  allocations_succeed 2 oracle →
  head oracle ≠ Some false ∧ head (tail oracle) ≠ Some false.
Proof.
  unfold allocations_succeed.
  destruct oracle as [|b1 [|b2 rest]]; simpl; intros Hall;
    repeat match goal with
           | H : Forall _ (_ :: _) |- _ => apply Forall_cons in H as [-> H]
           end; split; discriminate.
Qed.

Lemma heap_wf_sample (oracle : list bool) : heap_wf (sample_state oracle).
Proof.
  split; [done|]. intros a [x Hx]. simpl in *.
  apply lookup_singleton_Some in Hx as [<- _]. done.
Qed.


(** Blocks added at the next two addresses leave what was copyable
    copyable. *)
Lemma copyable_grown (s : state) (m' : gmap N block) (x y : block)
    (v : EValue) :
  heap_wf s →
  m' = <[N.succ (next_addr s) := x]> (<[next_addr s := y]> (blocks s)) →
  copyable (blocks s) v → copyable m' v.
Proof.
  intros Hwf -> Hv. destruct v as [| | |t|t]; try done.
  destruct Hv as (dt & from & Hdt & Hrank & Hfrom & Hlen).
  pose proof (heap_wf_fresh s Hwf) as (_ & Hfresh & Hfresh').
  exists dt, from. split_and!; try done.
  rewrite !lookup_insert_ne by congruence. done.
Qed.

Lemma Forall_true_tail (oracle : list bool) :
  Forall (λ b, b = true) oracle → Forall (λ b, b = true) (tail oracle).
Proof. destruct oracle; [done|]. by intros [_ ?]%Forall_cons. Qed.

Lemma Forall_true_head (oracle : list bool) :
  Forall (λ b, b = true) oracle → head oracle ≠ Some false.
Proof. destruct oracle; [done|]. by intros [-> _]%Forall_cons. Qed.

(** The output loop over values that are all copyable, with an allocator
    that does not refuse: it runs through, leaves error and count alone,
    and fills the slot of every tensor value. *)
Lemma convert_outputs_all (outs : list EValue) :
  ∀ (i : nat) (o : ETFlutterForwardOutput) (s : state),
    (i ≤ 16)%nat → heap_wf s → length (outputs o) = 16%nat →
    Forall (λ b, b = true) (malloc_oracle s) →
    Forall (copyable (blocks s)) (take (16 - i) outs) →
    ∃ o' s',
      convert_outputs outs i o s = Some (o', s')
      ∧ error o' = error o ∧ num_outputs o' = num_outputs o
      ∧ take i (outputs o') = take i (outputs o)
      ∧ ∀ j v, outs !! j = Some v → (i + j < 16)%nat → isTensor v = true →
          ∃ p, outputs o' !! (i + j)%nat = Some p ∧ p ≠ 0%N.
Proof.
  induction outs as [|v rest IH]; intros i o s Hi Hwf Hlen Horacle Hall.
  { exists o, s. split_and!; try done. }
  cbn [convert_outputs].
  destruct (decide (Z.of_nat i < ET_FLUTTER_MAX_OUTPUTS)) as [Hlt|Hge].
  2:{ exists o, s. split_and!; try done.
      intros j w _ Hj. unfold ET_FLUTTER_MAX_OUTPUTS in Hge. lia. }
  assert (Hi' : (i < 16)%nat) by (unfold ET_FLUTTER_MAX_OUTPUTS in Hlt; lia).
  replace (16 - i)%nat with (S (16 - S i)) in Hall by lia.
  cbn [take] in Hall. apply Forall_cons in Hall as [Hv Hall].
  assert (Hnext : ∀ o1 s1 (q : N),
            heap_wf s1 → length (outputs o1) = 16%nat →
            Forall (λ b, b = true) (malloc_oracle s1) →
            Forall (copyable (blocks s1)) (take (16 - S i) rest) →
            error o1 = error o → num_outputs o1 = num_outputs o →
            take i (outputs o1) = take i (outputs o) →
            (isTensor v = true → outputs o1 !! i = Some q ∧ q ≠ 0%N) →
            ∃ o' s',
              convert_outputs rest (S i) o1 s1 = Some (o', s')
              ∧ error o' = error o ∧ num_outputs o' = num_outputs o
              ∧ take i (outputs o') = take i (outputs o)
              ∧ ∀ j w, (v :: rest) !! j = Some w → (i + j < 16)%nat →
                  isTensor w = true →
                  ∃ p, outputs o' !! (i + j)%nat = Some p ∧ p ≠ 0%N).
  { intros o1 s1 q Hwf1 Hlen1 Horacle1 Hall1 He Hn Hfront Hhere.
    destruct (IH (S i) o1 s1) as (o' & s' & Hrun & He' & Hn' & Htake & Hfill);
      [lia|done|done|done|done|].
    exists o', s'. split; [done|]. split; [congruence|].
    split; [congruence|]. split.
    - apply (f_equal (take i)) in Htake.
      rewrite !take_take, Nat.min_l in Htake by lia. congruence.
    - intros [|j] w Hj Hij Hw.
      + injection Hj as <-. rewrite Nat.add_0_r. exists q.
        rewrite <- (lookup_take_lt _ (S i)), Htake, lookup_take_lt by lia.
        by apply Hhere.
      + replace (i + S j)%nat with (S i + j)%nat by lia.
        apply (Hfill j w); [done|lia|done]. }
  destruct v as [| | |t|t]; cbn [convert_output_tensor];
    try (apply (Hnext o s 0%N); done).
  - destruct Hv as (dt & from & Hdt & Hrank & Hfrom & Hbytes).
    assert (Hdims : num_dims (copied_shape t) ≤ ET_FLUTTER_MAX_TENSOR_DIMS).
    { unfold copied_shape, dim, ET_FLUTTER_MAX_TENSOR_DIMS. cbn [num_dims].
      unfold to_int32. rewrite Z.mod_small; lia. }
    pose proof (heap_wf_fresh s Hwf) as (Hnz & _).
    erewrite bind_eq
      by (apply (convert_from_copies t s dt from); try done;
          [by apply Forall_true_head
          |by apply Forall_true_head, Forall_true_tail]).
    cbv zeta. rewrite decide_False by done.
    apply (Hnext _ _ (next_addr s)).
    + eapply (heap_wf_grown s); [done|reflexivity|reflexivity].
    + simpl. by rewrite length_insert.
    + simpl. by do 2 apply Forall_true_tail.
    + eapply Forall_impl; [exact Hall|]. intros w Hw.
      eapply copyable_grown; [done|reflexivity|done].
    + done.
    + done.
    + simpl. by rewrite take_insert_ge.
    + intros _. split; [|done]. simpl.
      apply list_lookup_insert_eq. lia.
  - done.
Qed.

(** * The forward call *)

Section Forward.

Context (SizesType_cast : Z → Z).

Lemma fresh_output_empty :
  code (error fresh_output) = ET_FLUTTER_SUCCESS
  ∧ num_outputs fresh_output = 0
  ∧ outputs fresh_output = replicate 16 0%N.
Proof. done. Qed.

(** C6: a NULL model handle is answered with INVALID_HANDLE, a NULL
    input structure or an input count of zero or less with
    INVALID_ARGUMENT; in each case the output set is empty (count zero,
    every slot NULL) and the state is returned untouched, so neither the
    allocator nor the engine has been called. *)
Theorem forward_rejects_null_arguments
    (input : option ETFlutterForwardInput) (s : state) :
  (∃ output,
     et_flutter_forward SizesType_cast None input s = Some (output, s)
     ∧ code (error output) = ET_FLUTTER_ERROR_INVALID_HANDLE
     ∧ num_outputs output = 0
     ∧ Forall (λ p, p = 0%N) (outputs output))
  ∧ (∀ model_data,
       (input = None ∨ ∃ inp, input = Some inp ∧ num_inputs inp ≤ 0) →
       ∃ output,
         et_flutter_forward SizesType_cast (Some model_data) input s
         = Some (output, s)
         ∧ code (error output) = ET_FLUTTER_ERROR_INVALID_ARGUMENT
         ∧ num_outputs output = 0
         ∧ Forall (λ p, p = 0%N) (outputs output)).
Proof.
  split.
  - eexists. split; [reflexivity|]. split_and!; try done.
    by apply Forall_replicate.
  - intros model_data [->|(inp & -> & Hn)].
    + eexists. split; [reflexivity|]. split_and!; try done.
      by apply Forall_replicate.
    + eexists. split.
      * unfold et_flutter_forward. rewrite decide_True by done. reflexivity.
      * split_and!; try done. by apply Forall_replicate.
Qed.


Lemma convert_to_pure (tensor : option ETFlutterTensorData) (s s' : state)
    (r : Result DanglingTensor) :
  convert_to_executorch_tensor SizesType_cast tensor s = Some (r, s') →
  s' = s.
Proof.
  unfold convert_to_executorch_tensor.
  destruct tensor as [t|]; [|by intros [= _ <-]].
  case_decide; [by intros [= _ <-]|].
  destruct (scalar_type_of_dtype (dtype t)); [|by intros [= _ <-]].
  case_decide; [by intros [= _ <-]|discriminate].
Qed.

Lemma convert_inputs_pure (n : nat) :
  ∀ (i : nat) (input : ETFlutterForwardInput) (acc : list EValue)
    (s s' : state) (r : nat + list EValue),
    convert_inputs SizesType_cast n i input acc s = Some (r, s') → s' = s.
Proof.
  induction n as [|n IH]; intros i input acc s s' r; simpl.
  { by intros [= _ <-]. }
  destruct (inputs input !! i) as [p|]; [|discriminate].
  intros Hrun. apply bind_inv in Hrun as (c & s1 & Hconv & Hrun).
  apply convert_to_pure in Hconv as ->.
  destruct c as [t|e]; [by eapply IH|by injection Hrun as _ <-].
Qed.

(** Once the inputs are converted and the engine has returned its values,
    the call is the output loop over them. *)
Lemma forward_reaches_outputs (model_data : ETFlutterModelData)
    (inp : ETFlutterForwardInput) (s : state) (ins outs : list EValue) :
  0 < num_inputs inp →
  convert_inputs SizesType_cast (Z.to_nat (num_inputs inp)) 0 inp [] s
  = Some (inr ins, s) →
  module_forward model_data ins = Returned (Ok outs) →
  et_flutter_forward SizesType_cast (Some model_data) (Some inp) s
  = convert_outputs outs 0 (counted_output outs) (after_call s).
Proof.
  intros Hn Hins Hengine. unfold et_flutter_forward.
  rewrite decide_False by lia.
  rewrite (bind_eq _ _ _ _ _ Hins).
  unfold call_forward, mbind, M_bind. by rewrite Hengine.
Qed.

Lemma slots_owned_after_call (s : state) (outs : list EValue) :
  heap_wf s → slots_owned (blocks s) 0 (counted_output outs) (after_call s).
Proof. intros Hwf. by apply (slots_owned_start (after_call s)). Qed.

(** C9: values that are not tensors are skipped and counted.  When the
    call succeeds, the declared count is the number of native outputs (as
    an [int32_t]), and the slot of every native output that is not a
    tensor is NULL.  Such values raise no error.  A failure of the call
    at this stage is MEMORY and singles out one value whose tag is
    Tensor: the values in front of it, tensors or not, went through
    without error, and the conversion of that one returned NULL.  And the
    call does succeed over any mix of values: when the allocator does not
    refuse and every tensor among the first sixteen values can be copied,
    it answers SUCCESS with the full count, a NULL slot for every value
    that is not a tensor and a filled slot for every tensor, wherever the
    other values sit among them; a list without tensors is answered with
    SUCCESS, the full count and sixteen NULL slots. *)
Theorem non_tensor_outputs_counted (model_data : ETFlutterModelData)
    (inp : ETFlutterForwardInput) (s : state) (ins outs : list EValue) :
  heap_wf s →
  0 < num_inputs inp →
  convert_inputs SizesType_cast (Z.to_nat (num_inputs inp)) 0 inp [] s
  = Some (inr ins, s) →
  module_forward model_data ins = Returned (Ok outs) →
  (∀ output s',
     et_flutter_forward SizesType_cast (Some model_data) (Some inp) s
     = Some (output, s') →
     code (error output) = ET_FLUTTER_SUCCESS →
     num_outputs output = to_int32 (Z.of_nat (length outs))
     ∧ ∀ j v, outs !! j = Some v → isTensor v = false → (j < 16)%nat →
         outputs output !! j = Some 0%N)
  ∧ (∀ output s',
       et_flutter_forward SizesType_cast (Some model_data) (Some inp) s
       = Some (output, s') →
       code (error output) ≠ ET_FLUTTER_SUCCESS →
       code (error output) = ET_FLUTTER_ERROR_MEMORY
       ∧ ∃ pre v post converted o_k s_k s_k',
           outs = pre ++ v :: post
           ∧ (length pre < 16)%nat
           ∧ isTensor v = true
           ∧ convert_output_tensor v = Some converted
           ∧ convert_outputs pre 0 (counted_output outs) (after_call s)
             = Some (o_k, s_k)
           ∧ code (error o_k) = ET_FLUTTER_SUCCESS
           ∧ converted s_k = Some (0%N, s_k'))
  ∧ (Forall (λ b, b = true) (malloc_oracle s) →
     Forall (copyable (blocks s)) (take 16 outs) →
     ∃ output s',
       et_flutter_forward SizesType_cast (Some model_data) (Some inp) s
       = Some (output, s')
       ∧ code (error output) = ET_FLUTTER_SUCCESS
       ∧ num_outputs output = to_int32 (Z.of_nat (length outs))
       ∧ ∀ j v, outs !! j = Some v → (j < 16)%nat →
           (isTensor v = false → outputs output !! j = Some 0%N)
           ∧ (isTensor v = true →
              ∃ p, outputs output !! j = Some p ∧ p ≠ 0%N))
  ∧ (Forall (λ v, isTensor v = false) outs →
     ∃ output,
       et_flutter_forward SizesType_cast (Some model_data) (Some inp) s
       = Some (output, after_call s)
       ∧ code (error output) = ET_FLUTTER_SUCCESS
       ∧ num_outputs output = to_int32 (Z.of_nat (length outs))
       ∧ outputs output = replicate 16 0%N).
Proof.
  intros Hwf Hn Hins Hengine.
  rewrite (forward_reaches_outputs _ _ _ _ _ Hn Hins Hengine).
  assert (Hsuccess : ∀ output s',
            convert_outputs outs 0 (counted_output outs) (after_call s)
            = Some (output, s') →
            code (error output) = ET_FLUTTER_SUCCESS →
            num_outputs output = to_int32 (Z.of_nat (length outs))
            ∧ ∀ j v, outs !! j = Some v → isTensor v = false → (j < 16)%nat →
                outputs output !! j = Some 0%N).
  { intros output s' Hrun Hcode.
    destruct (convert_outputs_spec (blocks s) outs 0 _ _ _ _
                (Nat.le_0_l 16) (slots_owned_after_call s outs Hwf) Hrun)
      as [_ [(Hmem & _)|(He & Hcount & _ & _ & Hnull)]].
    + congruence.
    + split; [by rewrite Hcount|]. intros j v Hj Hv Hlt.
      by apply (Hnull j v). }
  split; [done|]. split; [|split].
  - intros output s' Hrun Hcode.
    destruct (convert_outputs_spec (blocks s) outs 0 _ _ _ _
                (Nat.le_0_l 16) (slots_owned_after_call s outs Hwf) Hrun)
      as [_ [(Hmem & _)|(He & _)]]; [|by rewrite He in Hcode].
    split; [done|].
    destruct (convert_outputs_failure outs 0 _ _ _ _ Hrun)
      as (pre & v & post & converted & o_k & s_k & s_k' & Houts & Hlen & Hv
          & Hpre & He & Hnull).
    { rewrite Hmem. done. }
    exists pre, v, post, converted, o_k, s_k, s_k'.
    split; [done|]. split; [done|]. split; [by destruct v|].
    split; [done|]. split; [done|]. split; [by rewrite He|done].
  - intros Horacle Hall.
    destruct (convert_outputs_all outs 0 (counted_output outs) (after_call s))
      as (output & s' & Hrun & He & Hcount & _ & Hfill);
      [lia|done|done|done|done|].
    assert (Hcode : code (error output) = ET_FLUTTER_SUCCESS)
      by (by rewrite He).
    destruct (Hsuccess output s' Hrun Hcode) as [Hn' Hnull].
    exists output, s'. split; [done|]. split; [done|]. split; [done|].
    intros j v Hj Hlt. split.
    + intros Hv. by apply (Hnull j v).
    + intros Hv. by apply (Hfill j v).
  - intros Hnone. exists (counted_output outs).
    by rewrite convert_outputs_no_tensor.
Qed.

(** No partial output set leaves the call: whenever it answers MEMORY,
    the count is zero and the heap is back to the blocks it started
    with. *)
Lemma forward_memory_error_is_clean (model_data : ETFlutterModelData)
    (inp : ETFlutterForwardInput) (s s' : state) (ins outs : list EValue)
    (output : ETFlutterForwardOutput) :
  heap_wf s →
  0 < num_inputs inp →
  convert_inputs SizesType_cast (Z.to_nat (num_inputs inp)) 0 inp [] s
  = Some (inr ins, s) →
  module_forward model_data ins = Returned (Ok outs) →
  et_flutter_forward SizesType_cast (Some model_data) (Some inp) s
  = Some (output, s') →
  code (error output) = ET_FLUTTER_ERROR_MEMORY →
  num_outputs output = 0 ∧ blocks s' = blocks s.
Proof.
  intros Hwf Hn Hins Hengine Hrun Hcode.
  rewrite (forward_reaches_outputs _ _ _ _ _ Hn Hins Hengine) in Hrun.
  destruct (convert_outputs_spec (blocks s) outs 0 _ _ _ _
              (Nat.le_0_l 16) (slots_owned_after_call s outs Hwf) Hrun)
    as [_ [(_ & Hcount & Hblocks & _)|(He & _)]]; [done|].
  rewrite He in Hcode. discriminate.
Qed.

(** C2: when the conversion of the k-th native output returns NULL, with
    the k outputs in front of it converted, the call answers MEMORY with
    an output count of zero, and the heap holds exactly the blocks it held
    before the call: every struct and every data buffer allocated for the
    earlier outputs has been freed. *)
Theorem forward_failure_releases_outputs (model_data : ETFlutterModelData)
    (inp : ETFlutterForwardInput) (s : state) (ins : list EValue)
    (pre post : list EValue) (t : Tensor)
    (o_k : ETFlutterForwardOutput) (s_k s_k' : state) :
  heap_wf s →
  0 < num_inputs inp →
  convert_inputs SizesType_cast (Z.to_nat (num_inputs inp)) 0 inp [] s
  = Some (inr ins, s) →
  module_forward model_data ins = Returned (Ok (pre ++ EV_Tensor t :: post)) →
  (length pre < 16)%nat →
  convert_outputs pre 0 (counted_output (pre ++ EV_Tensor t :: post))
    (after_call s) = Some (o_k, s_k) →
  code (error o_k) = ET_FLUTTER_SUCCESS →
  convert_from_executorch_tensor t s_k = Some (0%N, s_k') →
  ∃ output s',
    et_flutter_forward SizesType_cast (Some model_data) (Some inp) s
    = Some (output, s')
    ∧ code (error output) = ET_FLUTTER_ERROR_MEMORY
    ∧ num_outputs output = 0
    ∧ blocks s' = blocks s.
Proof.
  intros Hwf Hn Hins Hengine Hk Hpre Hcode Hfail.
  rewrite (forward_reaches_outputs _ _ _ _ _ Hn Hins Hengine).
  set (outs := pre ++ EV_Tensor t :: post) in *.
  destruct (convert_outputs_spec (blocks s) pre 0 _ _ _ _
              (Nat.le_0_l 16) (slots_owned_after_call s outs Hwf) Hpre)
    as [_ [(Hmem & _)|(He & Hcount & Hown & _ & _)]]; [congruence|].
  rewrite Nat.add_0_l, Nat.min_l in Hown by lia.
  rewrite (convert_outputs_app pre (EV_Tensor t :: post) 0 _ o_k _ s_k)
    by (done || congruence || lia).
  cbn [convert_outputs convert_output_tensor]. rewrite Nat.add_0_l.
  rewrite decide_True by (unfold ET_FLUTTER_MAX_OUTPUTS; lia).
  rewrite (bind_eq _ _ _ _ _ Hfail). rewrite decide_True by done.
  destruct Hown as (Hwf_k & Hlen & Hrel & _).
  destruct (convert_from_cases t s_k s_k' 0 Hwf_k Hfail)
    as (_ & _ & [[_ Hsame]|(_ & Hnz & _)]); [|done].
  unfold mbind, M_bind. rewrite free_allocated_release.
  cbn [outputs with_error with_slot].
  rewrite take_insert_ge, Hsame, Hrel by done.
  eexists _, _. split; [reflexivity|]. done.
Qed.

End Forward.

Lemma forward_rejects_null_arguments_witness :
  num_inputs (mkInput 0 (replicate 16 None)) ≤ 0
  ∧ (∃ output,
      et_flutter_forward to_int32 (Some (sample_engine []))
        (Some (mkInput 0 (replicate 16 None))) (sample_state [])
      = Some (output, sample_state [])
      ∧ code (error output) = ET_FLUTTER_ERROR_INVALID_ARGUMENT
      ∧ num_outputs output = 0).
Proof.
  split; [simpl; lia|].
  destruct (forward_rejects_null_arguments to_int32
              (Some (mkInput 0 (replicate 16 None))) (sample_state []))
    as [_ Hinput].
  destruct (Hinput (sample_engine [])) as (output & Hrun & Hcode & Hcount & _).
  - right. eexists. split; [reflexivity|simpl; lia].
  - exists output. auto.
Defined.

Lemma non_tensor_outputs_counted_witness :
  heap_wf (sample_state [])
  ∧ Forall (copyable (blocks (sample_state [])))
           [EV_Int 7; EV_Tensor sample_native; EV_None]
  ∧ (∃ output s',
      et_flutter_forward to_int32
        (Some (sample_engine [EV_Int 7; EV_Tensor sample_native; EV_None]))
        (Some sample_input) (sample_state [])
      = Some (output, s')
      ∧ code (error output) = ET_FLUTTER_SUCCESS
      ∧ num_outputs output = 3
      ∧ outputs output !! 0%nat = Some 0%N
      ∧ (∃ p, outputs output !! 1%nat = Some p ∧ p ≠ 0%N)
      ∧ outputs output !! 2%nat = Some 0%N).
Proof.
  assert (Hall : Forall (copyable (blocks (sample_state [])))
                        [EV_Int 7; EV_Tensor sample_native; EV_None]).
  { repeat constructor.
    exists ET_FLUTTER_DTYPE_UINT8, sample_buffer.
    split_and!; [done|simpl; lia|done|vm_compute; discriminate]. }
  split; [apply heap_wf_sample|]. split; [exact Hall|].
  eassert (Hins : convert_inputs to_int32 (Z.to_nat (num_inputs sample_input))
                    0 sample_input [] (sample_state [])
                  = Some (inr _, sample_state []))
    by (vm_compute; reflexivity).
  destruct (non_tensor_outputs_counted to_int32
              (sample_engine [EV_Int 7; EV_Tensor sample_native; EV_None])
              sample_input (sample_state []) _
              [EV_Int 7; EV_Tensor sample_native; EV_None]
              (heap_wf_sample []) ltac:(simpl; lia) Hins eq_refl)
    as (_ & _ & Hmixed & _).
  destruct (Hmixed (Forall_nil_2 _) Hall)
    as (output & s' & Hrun & Hcode & Hcount & Hslots).
  exists output, s'. split; [exact Hrun|]. split; [exact Hcode|].
  split; [exact Hcount|].
  split; [apply (Hslots 0%nat (EV_Int 7)); [reflexivity|lia|reflexivity]|].
  split;
    [apply (Hslots 1%nat (EV_Tensor sample_native));
       [reflexivity|lia|reflexivity]|].
  apply (Hslots 2%nat EV_None); [reflexivity|lia|reflexivity].
Defined.


Lemma forward_failure_releases_outputs_witness :
  heap_wf (sample_state [true; true; false])
  ∧ (∃ output s',
      et_flutter_forward to_int32
        (Some (sample_engine [EV_Tensor sample_native; EV_Tensor sample_native]))
        (Some sample_input) (sample_state [true; true; false])
      = Some (output, s')
      ∧ code (error output) = ET_FLUTTER_ERROR_MEMORY
      ∧ num_outputs output = 0
      ∧ blocks s' = blocks (sample_state [true; true; false])).
Proof.
  split; [apply heap_wf_sample|].
  eapply (forward_failure_releases_outputs to_int32
            (sample_engine [EV_Tensor sample_native; EV_Tensor sample_native])
            sample_input (sample_state [true; true; false]) _
            [EV_Tensor sample_native] [] sample_native).
  - apply heap_wf_sample.
  - simpl; lia.
  - vm_compute; reflexivity.
  - reflexivity.
  - simpl; lia.
  - vm_compute; reflexivity.
  - reflexivity.
  - vm_compute; reflexivity.
Defined.

(** C1, evaluated on the code: when the engine returns seventeen tensors,
    the call succeeds and declares seventeen outputs over its sixteen
    slots, and releasing that output set then reads the slot at index
    sixteen, which the array does not have. *)
Theorem forward_count_exceeds_capacity :
  ∃ output s',
    et_flutter_forward to_int32
      (Some (sample_engine (replicate 17 (EV_Tensor sample_native))))
      (Some sample_input) (sample_state [])
    = Some (output, s')
    ∧ code (error output) = ET_FLUTTER_SUCCESS
    ∧ num_outputs output = 17
    ∧ ET_FLUTTER_MAX_OUTPUTS = 16
    ∧ length (outputs output) = 16%nat
    ∧ Forall (λ p, p ≠ 0%N) (outputs output)
    ∧ et_flutter_free_forward_output (Some output) s' = None.
Proof.
  eexists _, _. split; [vm_compute; reflexivity|].
  split; [reflexivity|]. split; [reflexivity|]. split; [reflexivity|].
  split; [reflexivity|]. split; [|vm_compute; reflexivity].
  repeat constructor; discriminate.
Qed.

(** * Further properties: sizes and tables *)

Lemma to_size_t_mul (a b : Z) :
  to_size_t (to_size_t a * to_size_t b) = to_size_t (a * b).
Proof. unfold to_size_t. by rewrite <- Z.mul_mod. Qed.

Lemma to_size_t_idemp (a : Z) : to_size_t (to_size_t a) = to_size_t a.
Proof. unfold to_size_t. by rewrite Z.mod_mod. Qed.

Lemma dims_fold_wraps (l : list Z) (a : Z) :
  fold_left (λ acc d, to_size_t (acc * to_size_t d)) l (to_size_t a)
  = to_size_t (fold_left Z.mul l a).
Proof.
  revert a. induction l as [|d l IH]; intros a; simpl.
  - done.
  - rewrite to_size_t_mul. apply IH.
Qed.

(** The loop over the dimensions, index by index, against the fold. *)
Lemma dims_product_from_spec (n : nat) :
  ∀ (i : nat) (ds : list Z) (acc : Z),
    (i ≤ length ds)%nat →
    dims_product_from n i ds acc
    = if decide (i + n ≤ length ds)%nat
      then Some (fold_left (λ a d, to_size_t (a * to_size_t d))
                           (take n (drop i ds)) acc)
      else None.
Proof.
  induction n as [|n IH]; intros i ds acc Hi; simpl.
  { rewrite decide_True by lia. done. }
  destruct (ds !! i) as [d|] eqn:Hd.
  - pose proof (lookup_lt_Some _ _ _ Hd) as Hlt.
    rewrite IH by lia. rewrite (drop_S _ _ _ Hd). cbn [take fold_left].
    repeat case_decide; (done || lia).
  - apply lookup_ge_None in Hd. rewrite decide_False by lia. done.
Qed.

Lemma dims_loop_in_bounds (s : ETFlutterTensorShape) :
  dims_product_loop s
  = if decide (dims_read_in_bounds s) then Some (dims_product s) else None.
Proof.
  unfold dims_product_loop, dims_read_in_bounds, dims_product.
  rewrite dims_product_from_spec by lia. rewrite drop_0.
  repeat case_decide; (done || lia).
Qed.

(** X1: the size functions compute modulo 2^64.  The loop over the
    dimensions stays inside the [dims] array exactly when the dimension
    count does not exceed it, and past the array its reads are undefined.
    For every shape whose dimension count stays within the array, signs
    and magnitudes of the dimensions notwithstanding, the element count is
    the exact product of the dimensions in use reduced modulo 2^64 (and 0
    for a non-positive dimension count), and the byte size of a tensor is
    the exact product times the dtype width, reduced modulo 2^64. *)
Theorem sizes_wrap_modulo_2_64 (t : ETFlutterTensorData) :
  (dims_read_in_bounds (shape t) →
   dims_product_loop (shape t) = Some (dims_product (shape t))
   ∧ et_flutter_tensor_data_size (Some t)
     = (shape_volume (shape t) * et_flutter_dtype_size (dtype t)) mod 2 ^ 64
   ∧ et_flutter_shape_element_count (Some (shape t))
     = (if decide (num_dims (shape t) ≤ 0) then 0
        else shape_volume (shape t) mod 2 ^ 64))
  ∧ (¬ dims_read_in_bounds (shape t) → dims_product_loop (shape t) = None)
  ∧ et_flutter_shape_element_count None = 0
  ∧ et_flutter_tensor_data_size None = 0.
Proof.
  assert (Hprod : dims_product (shape t) = to_size_t (shape_volume (shape t))).
  { unfold dims_product, shape_volume.
    change 1 with (to_size_t 1) at 1. apply dims_fold_wraps. }
  split; [|split; [|done]].
  - intros Hin. split; [|split].
    + rewrite dims_loop_in_bounds. by rewrite decide_True.
    + unfold et_flutter_tensor_data_size. rewrite Hprod.
      unfold to_size_t. by rewrite Z.mul_mod_idemp_l.
    + unfold et_flutter_shape_element_count. case_decide; [done|].
      by rewrite Hprod.
  - intros Hout. rewrite dims_loop_in_bounds. by rewrite decide_False.
Qed.

Lemma dtype_unknown_cases (dt : Z) :
  ¬ supported_dtype dt →
  et_flutter_dtype_size dt = 0
  ∧ et_flutter_dtype_name dt = "unknown"
  ∧ scalar_type_of_dtype dt = None.
Proof.
  unfold supported_dtype. intros Hdt.
  destruct dt as [|p|p]; [lia| |done].
  destruct p as [[p|p|]|[p|p|]|]; try done; lia.
Qed.

(** X2: the three switches over the dtype agree on what is known: the
    width is positive, the name is not "unknown" and the native scalar
    type exists exactly for the four enumerators; the names of the four
    are pairwise different; and the two switches of the converters are
    inverse to each other, in both directions. *)
Theorem dtype_switches_are_exhaustive (dt : Z) :
  (0 < et_flutter_dtype_size dt ↔ supported_dtype dt)
  ∧ (et_flutter_dtype_name dt ≠ "unknown" ↔ supported_dtype dt)
  ∧ (is_Some (scalar_type_of_dtype dt) ↔ supported_dtype dt)
  ∧ (∀ dt', supported_dtype dt → supported_dtype dt' →
       et_flutter_dtype_name dt = et_flutter_dtype_name dt' → dt = dt')
  ∧ (∀ st, scalar_type_of_dtype dt = Some st →
       dtype_of_scalar_type st = Some dt)
  ∧ (∀ st, dtype_of_scalar_type st = Some dt →
       scalar_type_of_dtype dt = Some st).
Proof.
  destruct (decide (supported_dtype dt)) as [Hdt|Hdt].
  - unfold supported_dtype in *.
    assert (dt = 0 ∨ dt = 1 ∨ dt = 2 ∨ dt = 3) as [-> | [-> | [-> | ->]]]
      by lia.
    all: split_and!; try (split; intros; (done || lia || eauto)).
    all: try (intros dt' _ Hdt' Hname;
              assert (dt' = 0 ∨ dt' = 1 ∨ dt' = 2 ∨ dt' = 3)
                as [-> | [-> | [-> | ->]]] by lia; done).
    all: try (intros st [= <-]; done).
    all: intros st Hst; destruct st; simplify_eq/=; done.
  - destruct (dtype_unknown_cases dt Hdt) as (Hsize & Hname & Hscalar).
    rewrite Hsize, Hname, Hscalar. split_and!.
    + split; [lia|done].
    + split; [done|done].
    + split; [intros [? ?]; done|done].
    + done.
    + done.
    + intros st Hst. destruct st; simplify_eq/=; exfalso; apply Hdt;
        unfold supported_dtype; lia.
Qed.

Lemma error_code_value_range (c : ETFlutterErrorCode) :
  0 ≤ error_code_value c ≤ 8.
Proof. destruct c; simpl; lia. Qed.

Lemma error_code_name_unknown (z : Z) :
  ¬ 0 ≤ z ≤ 8 → et_flutter_error_code_name z = "UNKNOWN_ERROR_CODE".
Proof.
  intros Hz. destruct z as [|p|p]; [lia| |done].
  do 4 (try (destruct p as [p|p|]; try done; try lia)).
Qed.

(** X3: the name table of the error codes.  The nine enumerators have the
    values 0 to 8 and pairwise different names, so a name identifies its
    code; a value is named "UNKNOWN_ERROR_CODE" exactly when it lies
    outside 0..8. *)
Theorem error_code_names_identify_codes :
  (∀ c1 c2,
     et_flutter_error_code_name (error_code_value c1)
     = et_flutter_error_code_name (error_code_value c2) → c1 = c2)
  ∧ (∀ c1 c2, error_code_value c1 = error_code_value c2 → c1 = c2)
  ∧ (∀ z, 0 ≤ z ≤ 8 → ∃ c, error_code_value c = z)
  ∧ (∀ z, et_flutter_error_code_name z = "UNKNOWN_ERROR_CODE"
          ↔ ¬ 0 ≤ z ≤ 8).
Proof.
  split_and!.
  - intros [] []; simpl; intros H; done.
  - intros [] []; simpl; intros H; done.
  - intros z Hz.
    assert (z = 0 ∨ z = 1 ∨ z = 2 ∨ z = 3 ∨ z = 4 ∨ z = 5 ∨ z = 6 ∨ z = 7
            ∨ z = 8) as Hcases by lia.
    repeat destruct Hcases as [-> | Hcases]; try subst z;
      [by exists ET_FLUTTER_SUCCESS
      |by exists ET_FLUTTER_ERROR_MODEL_LOAD
      |by exists ET_FLUTTER_ERROR_INFERENCE
      |by exists ET_FLUTTER_ERROR_VALIDATION
      |by exists ET_FLUTTER_ERROR_MEMORY
      |by exists ET_FLUTTER_ERROR_IO
      |by exists ET_FLUTTER_ERROR_PLATFORM
      |by exists ET_FLUTTER_ERROR_INVALID_HANDLE
      |by exists ET_FLUTTER_ERROR_INVALID_ARGUMENT].
  - intros z. split; [|apply error_code_name_unknown].
    intros Hname Hz.
    assert (z = 0 ∨ z = 1 ∨ z = 2 ∨ z = 3 ∨ z = 4 ∨ z = 5 ∨ z = 6 ∨ z = 7
            ∨ z = 8) as Hcases by lia.
    repeat destruct Hcases as [-> | Hcases]; try subst z; done.
Qed.

(** * Further properties: the error record in use *)

Lemma write_error_visible (e : ETFlutterError) (c : ETFlutterErrorCode)
    (text : string) :
  (∃ a rest, text = String a rest ∧ a ≠ zero) →
  code (write_error e c text) = c
  ∧ cstr (message (write_error e c text)) ≠ [].
Proof.
  intros (a & rest & -> & Ha). split; [done|].
  unfold write_error, vsnprintf. cbn [message].
  change (Z.to_nat ET_FLUTTER_ERROR_MESSAGE_MAX_LEN) with 256%nat.
  change (Z.to_nat (ET_FLUTTER_ERROR_MESSAGE_MAX_LEN - 1)) with 255%nat.
  cbn [list_ascii_of_string take app insert list_insert].
  simpl. by rewrite decide_False.
Qed.

Lemma write_error_keeps_invariant (e : ETFlutterError)
    (c : ETFlutterErrorCode) (text : string) :
  c ≠ ET_FLUTTER_SUCCESS →
  (∃ a rest, text = String a rest ∧ a ≠ zero) →
  error_invariant (write_error e c text).
Proof.
  intros Hc Htext. destruct (write_error_visible e c text Htext) as [Hcode Hmsg].
  unfold error_invariant. rewrite Hcode. split; intros; done.
Qed.

Lemma reset_error_invariant (e : ETFlutterError) :
  error_invariant (reset_error e).
Proof. unfold error_invariant. by rewrite reset_error_cstr. Qed.

Lemma reset_error_length (e : ETFlutterError) :
  length (message (reset_error e)) = length (message e).
Proof. unfold reset_error. cbn [message]. apply length_insert. Qed.

Ltac visible_text :=
  eexists _, _; split; [reflexivity|discriminate].

Ltac reported_failure :=
  split; [reflexivity|]; split; [reflexivity|];
  eexists; split; [reflexivity|]; split; [reflexivity|];
  split; [apply write_error_keeps_invariant; [done|visible_text]
         |apply write_error_length].

(** X4: validation reports consistently.  Whatever the tensor, the code
    it returns does not depend on whether an error record was passed; and
    when one is passed, the record it leaves carries that same code, a
    message that is empty exactly when the code is SUCCESS, and still
    fills its 256 bytes. *)
Theorem validate_reports_consistently
    (tensor : option ETFlutterTensorData) (e : ETFlutterError) :
  (et_flutter_tensor_validate tensor None).1
  = (et_flutter_tensor_validate tensor (Some e)).1
  ∧ (et_flutter_tensor_validate tensor None).2 = None
  ∧ ∃ e',
      (et_flutter_tensor_validate tensor (Some e)).2 = Some e'
      ∧ code e' = (et_flutter_tensor_validate tensor (Some e)).1
      ∧ error_invariant e'
      ∧ (length (message e) = 256%nat → length (message e') = 256%nat).
Proof.
  unfold et_flutter_tensor_validate.
  destruct tensor as [t|]; [|reported_failure].
  case_decide; [reported_failure|].
  destruct (first_bad_dim (shape t)) as [[i d]|]; [reported_failure|].
  case_decide; [reported_failure|].
  case_decide; [reported_failure|].
  split; [reflexivity|]. split; [reflexivity|].
  eexists. split; [reflexivity|]. split; [reflexivity|].
  split; [apply reset_error_invariant|].
  cbn [snd et_flutter_clear_error]. by rewrite reset_error_length.
Qed.

(** * Further properties: copying a tensor *)

Lemma validate_code_fields (t t' : ETFlutterTensorData)
    (error error' : option ETFlutterError) :
  shape t' = shape t → dtype t' = dtype t → data_size t' = data_size t →
  (data t' = 0%N ↔ data t = 0%N) →
  (et_flutter_tensor_validate (Some t') error').1
  = (et_flutter_tensor_validate (Some t) error).1.
Proof.
  intros Hs Hd Hz Hp. unfold et_flutter_tensor_validate.
  cbn [et_flutter_tensor_data_size]. rewrite Hs, Hd, Hz.
  case_decide; [done|].
  destruct (first_bad_dim (shape t)) as [[i d]|]; [done|].
  destruct (decide (data t' = 0%N)) as [H0|H0],
           (decide (data t = 0%N)) as [H1|H1]; try done; try tauto.
  by case_decide.
Qed.

Lemma tensor_copy_accepted (src dst : ETFlutterTensorData)
    (error : option ETFlutterError) (s s' : state)
    (r : ETFlutterErrorCode) (dst' : option ETFlutterTensorData)
    (e' : option ETFlutterError) :
  (et_flutter_tensor_validate (Some src) error).1 = ET_FLUTTER_SUCCESS →
  et_flutter_tensor_copy (Some src) (Some dst) error s
  = Some ((r, dst', e'), s') →
  r = ET_FLUTTER_SUCCESS
  ∧ dst' = Some (mkTensor (shape src) (dtype src) (data dst) (data_size src)
                          (copied_name src dst))
  ∧ e' = et_flutter_clear_error error
  ∧ (data dst = 0%N → s' = s).
Proof.
  intros Hok. apply validate_success_error in Hok.
  cbv delta [et_flutter_tensor_copy]. cbv beta iota. rewrite Hok.
  cbv beta iota zeta.
  rewrite (decide_False (P := ET_FLUTTER_SUCCESS ≠ ET_FLUTTER_SUCCESS))
    by (intros H; by apply H).
  intros Hrun. apply bind_inv in Hrun as (u & s1 & Hstep & Hrun).
  injection Hrun as <- <- <- <-. fold (copied_name src dst).
  rewrite clear_error_idemp. split_and!; try done.
  intros Hnull. rewrite decide_False in Hstep by (intros [H _]; done).
  by injection Hstep as <-.
Qed.

(** X5: the outcome of a copy tells what it did.  It answers SUCCESS
    exactly when both pointers are non-NULL and the source passes
    validation; on every other answer the destination struct and the
    memory are exactly as before, the answer is the code validation gave
    (or INVALID_ARGUMENT for a NULL pointer), and the destination was
    never looked at. *)
Theorem tensor_copy_outcome (src dst dst' : option ETFlutterTensorData)
    (error e' : option ETFlutterError) (s s' : state)
    (r : ETFlutterErrorCode) :
  et_flutter_tensor_copy src dst error s = Some ((r, dst', e'), s') →
  (r = ET_FLUTTER_SUCCESS
   ↔ ∃ t d, src = Some t ∧ dst = Some d
       ∧ (et_flutter_tensor_validate (Some t) error).1 = ET_FLUTTER_SUCCESS)
  ∧ (r ≠ ET_FLUTTER_SUCCESS →
     dst' = dst ∧ s' = s
     ∧ ((src = None ∨ dst = None) ∧ r = ET_FLUTTER_ERROR_INVALID_ARGUMENT
        ∨ ∃ t, src = Some t
            ∧ r = (et_flutter_tensor_validate (Some t) error).1)).
Proof.
  intros Hrun.
  destruct src as [t|], dst as [d|];
    try (injection Hrun as <- <- <- <-; split;
         [split; [done|by intros (? & ? & ? & ? & ?)]
         |intros _; split_and!; try done; left; split; auto]).
  destruct (decide ((et_flutter_tensor_validate (Some t) error).1
                    = ET_FLUTTER_SUCCESS)) as [Hok|Hbad].
  - destruct (tensor_copy_accepted t d error s s' r dst' e' Hok Hrun)
      as (-> & _).
    split; [|done]. split; [|done]. intros _. by exists t, d.
  - revert Hrun. cbv delta [et_flutter_tensor_copy]. cbv beta iota.
    destruct (et_flutter_tensor_validate (Some t) error) as [c e1] eqn:Hv.
    cbn [fst] in Hbad. cbv beta iota.
    rewrite decide_True by done. intros [= <- <- <- <-].
    split.
    + split; [done|]. intros (t' & d' & [= <-] & _ & Hok).
      rewrite Hv in Hok. done.
    + intros _. split_and!; try done. right. exists t. by rewrite Hv.
Qed.

(** X6: what a successful copy leaves behind.  For an accepted source and
    any destination, the destination struct afterwards passes validation
    exactly when its own data pointer is not NULL (with a NULL pointer it
    is answered with INVALID_ARGUMENT, although the copy said SUCCESS);
    and its name still fills the 64 bytes of the array and holds a NUL,
    whatever the source name held, terminated or not. *)
Theorem copied_descriptor_is_well_formed (src dst : ETFlutterTensorData)
    (error error2 : option ETFlutterError) (s s' : state)
    (r : ETFlutterErrorCode) (dst' : option ETFlutterTensorData)
    (e' : option ETFlutterError) :
  (et_flutter_tensor_validate (Some src) error).1 = ET_FLUTTER_SUCCESS →
  et_flutter_tensor_copy (Some src) (Some dst) error s
  = Some ((r, dst', e'), s') →
  ∃ d',
    dst' = Some d'
    ∧ (data dst ≠ 0%N →
       (et_flutter_tensor_validate (Some d') error2).1 = ET_FLUTTER_SUCCESS)
    ∧ (data dst = 0%N →
       (et_flutter_tensor_validate (Some d') error2).1
       = ET_FLUTTER_ERROR_INVALID_ARGUMENT)
    ∧ (length (name dst) = 64%nat →
       length (name d') = 64%nat ∧ zero ∈ name d').
Proof.
  intros Hok Hrun.
  destruct (tensor_copy_accepted src dst error s s' r dst' e' Hok Hrun)
    as (-> & -> & _ & _).
  pose proof (validate_success_inv _ _ Hok) as (Hnd & Hpos & Hsrc & Hsize).
  eexists. split; [done|]. split_and!.
  - intros Hdst.
    rewrite (validate_code_fields src _ error error2); try done.
  - intros Hdst. rewrite validate_structurally_sound by done.
    by rewrite decide_True.
  - intros Hlen. cbn [name]. unfold copied_name.
    change (Z.to_nat (ET_FLUTTER_TENSOR_NAME_MAX_LEN - 1)) with 63%nat.
    assert (Hcopy : length (strncpy (name dst) (name src) 63) = 64%nat).
    { unfold strncpy. rewrite !length_app, length_replicate, length_drop.
      assert (length (take 63 (cstr (name src))) ≤ 63)%nat
        by (rewrite length_take; lia).
      lia. }
    case_decide.
    + split; [by rewrite length_insert|].
      apply list_elem_of_lookup. exists 63%nat.
      apply list_lookup_insert_eq. lia.
    + split; [by rewrite length_insert|].
      apply list_elem_of_lookup. exists 0%nat.
      apply list_lookup_insert_eq. lia.
Qed.

(** * Further properties: the forward call and the release of its output *)

(** [et_flutter_free_forward_output]'s loop changes nothing but the
    blocks, as [release] says for the slots it visits. *)
Lemma free_outputs_release (n : nat) :
  ∀ (i : nat) (slots : list N) (s : state),
    (i + n ≤ length slots)%nat →
    free_outputs n i slots s
    = match release (take n (drop i slots)) (blocks s) with
      | Some m' => Some (tt, set_blocks s m')
      | None => None
      end.
Proof.
  induction n as [|n IH]; intros i slots s Hi; simpl.
  { by rewrite set_blocks_same. }
  destruct (lookup_lt_is_Some_2 slots i) as [p Hp]; [lia|].
  rewrite Hp, (drop_S _ _ _ Hp). cbn [take release].
  unfold mbind at 1. unfold M_bind at 1.
  case_decide as Hnz.
  - unfold mbind at 1. unfold M_bind at 1. unfold load_struct.
    destruct (blocks s !! p) as [[t|b]|] eqn:Hlook; try done.
    unfold mbind at 1. unfold M_bind at 1.
    destruct (decide (data t = 0%N)) as [Hd|Hd].
    + rewrite decide_False by (by intros ?). unfold mret at 1, M_ret at 1.
      unfold free. rewrite decide_False by done. rewrite Hlook.
      rewrite IH by lia. by cbn [blocks set_blocks].
    + rewrite decide_True by done. unfold free at 1.
      rewrite decide_False by done.
      destruct (blocks s !! data t) as [x|] eqn:Hdata; [|done].
      unfold free. rewrite decide_False by done.
      cbn [blocks set_blocks].
      destruct (delete (data t) (blocks s) !! p) as [y|] eqn:Hp'; [|done].
      rewrite IH by lia. by cbn [blocks set_blocks].
  - unfold mret, M_ret. rewrite IH by lia. done.
Qed.








Section ForwardOutcomes.

Context (SizesType_cast : Z → Z).

(** The ways a forward call ends. *)
Lemma forward_cases (model_handle : option ETFlutterModelData)
    (input : option ETFlutterForwardInput) (s s' : state)
    (o : ETFlutterForwardOutput) :
  et_flutter_forward SizesType_cast model_handle input s = Some (o, s') →
  (∃ c text,
     o = with_error fresh_output c text
     ∧ c ≠ ET_FLUTTER_SUCCESS
     ∧ (∃ a rest, text = String a rest ∧ a ≠ zero)
     ∧ (s' = s
        ∧ (c = ET_FLUTTER_ERROR_INVALID_HANDLE
           ∨ c = ET_FLUTTER_ERROR_INVALID_ARGUMENT
           ∨ c = ET_FLUTTER_ERROR_VALIDATION)
        ∨ s' = after_call s ∧ c = ET_FLUTTER_ERROR_INFERENCE))
  ∨ (∃ model_data inp ins outs,
       model_handle = Some model_data ∧ input = Some inp
       ∧ 0 < num_inputs inp
       ∧ convert_inputs SizesType_cast (Z.to_nat (num_inputs inp)) 0 inp [] s
         = Some (inr ins, s)
       ∧ module_forward model_data ins = Returned (Ok outs)
       ∧ convert_outputs outs 0 (counted_output outs) (after_call s)
         = Some (o, s')).
Proof.
  unfold et_flutter_forward.
  destruct model_handle as [model_data|].
  2:{ intros [= <- <-]. left. eexists _, _. split; [done|].
      split; [done|]. split; [visible_text|]. left. auto. }
  destruct input as [inp|].
  2:{ intros [= <- <-]. left. eexists _, _. split; [done|].
      split; [done|]. split; [visible_text|]. left. auto. }
  case_decide as Hn.
  { intros [= <- <-]. left. eexists _, _. split; [done|].
    split; [done|]. split; [visible_text|]. left. auto. }
  intros Hrun. apply bind_inv in Hrun as (converted & s1 & Hins & Hrun).
  pose proof (convert_inputs_pure _ _ _ _ _ _ _ _ Hins) as ->.
  destruct converted as [i|ins].
  { injection Hrun as <- <-. left. eexists _, _. split; [done|].
    split; [done|]. split; [visible_text|]. left. auto. }
  apply bind_inv in Hrun as (outcome & s2 & Hcall & Hrun).
  unfold call_forward in Hcall. injection Hcall as <- <-.
  fold (after_call s) in Hrun.
  destruct (module_forward model_data ins) as [[outs|e]|what|] eqn:Hengine.
  - right. exists model_data, inp, ins, outs. split_and!; try done. lia.
  - injection Hrun as <- <-. left. eexists _, _. split; [done|].
    split; [done|]. split; [visible_text|]. right. auto.
  - injection Hrun as <- <-. left.
    exists ET_FLUTTER_ERROR_INFERENCE,
           ("Exception during forward pass: " +:+ what).
    split; [done|]. split; [done|]. split; [visible_text|]. right. auto.
  - injection Hrun as <- <-. left.
    exists ET_FLUTTER_ERROR_INFERENCE,
           "Unknown exception during forward pass".
    split; [done|]. split; [done|]. split; [visible_text|]. right. auto.
Qed.

(** X7: a forward call that does not succeed leaves nothing behind.
    Whatever the handle, the input set and the engine, if the call
    answers with a code other than SUCCESS, then the output count is
    zero, the heap holds exactly the blocks it held before the call,
    and handing that output to [et_flutter_free_forward_output] is a
    defined no-op: it touches no memory, although slots may still hold
    the addresses of structs that were freed. *)
Theorem failed_forward_leaves_nothing
    (model_handle : option ETFlutterModelData)
    (input : option ETFlutterForwardInput) (s s' : state)
    (o : ETFlutterForwardOutput) :
  heap_wf s →
  et_flutter_forward SizesType_cast model_handle input s = Some (o, s') →
  code (error o) ≠ ET_FLUTTER_SUCCESS →
  num_outputs o = 0
  ∧ blocks s' = blocks s
  ∧ et_flutter_free_forward_output (Some o) s' = Some (Some o, s').
Proof.
  intros Hwf Hrun Hcode.
  assert (Hmain : num_outputs o = 0 ∧ blocks s' = blocks s).
  { destruct (forward_cases _ _ _ _ _ Hrun)
      as [(c & text & -> & _ & _ & [[-> _]|[-> _]])
         |(md & inp & ins & outs & _ & _ & _ & _ & _ & Hloop)]; try done.
    destruct (convert_outputs_spec (blocks s) outs 0 _ _ _ _
                (Nat.le_0_l 16) (slots_owned_after_call s outs Hwf) Hloop)
      as [_ [(_ & Hcount & Hblocks & _)|(He & _)]]; [done|].
    rewrite He in Hcode. done. }
  destruct Hmain as [Hcount Hblocks]. split_and!; try done.
  unfold et_flutter_free_forward_output. rewrite Hcount. simpl.
  unfold mbind, M_bind, mret, M_ret. destruct o. simpl in *. by subst.
Qed.


End ForwardOutcomes.

Section ForwardInputs.

Context (SizesType_cast : Z → Z).

Lemma convert_to_view (p : option ETFlutterTensorData) (v : EValue)
    (s : state) :
  views_as SizesType_cast p v →
  ∃ t, v = EV_DanglingTensor t
       ∧ convert_to_executorch_tensor SizesType_cast p s = Some (Ok t, s).
Proof.
  intros (t & st & -> & Hdata & Hst & Hnd & ->). eexists. split; [done|].
  unfold convert_to_executorch_tensor.
  rewrite decide_False by done. rewrite Hst. by rewrite decide_True.
Qed.


(** The input loop over slots that all convert. *)
Lemma convert_inputs_all (n : nat) :
  ∀ (i : nat) (inp : ETFlutterForwardInput) (acc vs : list EValue)
    (s : state),
    Forall2 (views_as SizesType_cast) (take n (drop i (inputs inp))) vs →
    length vs = n →
    convert_inputs SizesType_cast n i inp acc s = Some (inr (acc ++ vs), s).
Proof.
  induction n as [|n IH]; intros i inp acc vs s Hall Hlen; simpl.
  { destruct vs; [|done]. by rewrite app_nil_r. }
  destruct vs as [|v vs]; [done|].
  destruct (drop i (inputs inp)) as [|p rest] eqn:Hdrop;
    [by apply Forall2_nil_cons_inv in Hall|].
  assert (Hp : inputs inp !! i = Some p).
  { rewrite <- (Nat.add_0_r i), <- lookup_drop, Hdrop. done. }
  assert (Hrest : drop (S i) (inputs inp) = rest).
  { rewrite (drop_S _ _ _ Hp) in Hdrop. by injection Hdrop. }
  cbn [take] in Hall. apply Forall2_cons in Hall as [Hv Hall].
  rewrite Hp. destruct (convert_to_view p v s Hv) as (t & -> & Hconv).
  rewrite (bind_eq _ _ _ _ _ Hconv).
  rewrite (IH (S i) inp (acc ++ [EV_DanglingTensor t]) vs s).
  - by rewrite <- app_assoc.
  - by rewrite Hrest.
  - by injection Hlen.
Qed.



(** Every value the input loop produces holds a handle that dangles. *)
Lemma views_dangle (ps : list (option ETFlutterTensorData))
    (vs : list EValue) :
  Forall2 (views_as SizesType_cast) ps vs →
  Forall (λ v, ∃ h, v = EV_DanglingTensor h) vs.
Proof.
  induction 1 as [|p v ps vs (t & st & _ & _ & _ & _ & ->) _ IH];
    constructor; eauto.
Qed.


(** C5, evaluated on the code: the round trip does not bring the
    descriptor back.  [convert_to_executorch_tensor] answers every
    descriptor it accepts with a [Tensor] over a [TensorImpl] that is gone
    when the function has returned.  An engine that passes its inputs
    through hands these values back as outputs, and
    [convert_from_executorch_tensor], once it has its struct, reads the
    scalar type through the first of them: the behaviour of the call is
    undefined.  Only when the struct allocation is refused is the call
    defined, and then it answers MEMORY with no output.  On no path does
    a descriptor with the shape, dtype, size and bytes of the original
    come back. *)
Theorem round_trip_reads_dead_tensor (model_data : ETFlutterModelData)
    (inp : ETFlutterForwardInput) (s : state) (vs : list EValue) :
  heap_wf s →
  0 < num_inputs inp →
  Forall2 (views_as SizesType_cast)
          (take (Z.to_nat (num_inputs inp)) (inputs inp)) vs →
  length vs = Z.to_nat (num_inputs inp) →
  module_forward model_data vs = Returned (Ok vs) →
  convert_inputs SizesType_cast (Z.to_nat (num_inputs inp)) 0 inp [] s
  = Some (inr vs, s)
  ∧ Forall (λ v, ∃ h, v = EV_DanglingTensor h) vs
  ∧ (head (malloc_oracle s) ≠ Some false →
     et_flutter_forward SizesType_cast (Some model_data) (Some inp) s = None)
  ∧ (head (malloc_oracle s) = Some false →
     ∃ o s',
       et_flutter_forward SizesType_cast (Some model_data) (Some inp) s
       = Some (o, s')
       ∧ code (error o) = ET_FLUTTER_ERROR_MEMORY
       ∧ num_outputs o = 0
       ∧ outputs o = replicate 16 0%N
       ∧ blocks s' = blocks s).
Proof.
  intros Hwf Hn Hall Hlen Hengine.
  assert (Hins : convert_inputs SizesType_cast (Z.to_nat (num_inputs inp))
                   0 inp [] s = Some (inr vs, s)).
  { by apply (convert_inputs_all _ 0 inp [] vs s). }
  pose proof (views_dangle _ _ Hall) as Hdead.
  split; [done|]. split; [done|].
  rewrite (forward_reaches_outputs _ _ _ _ _ _ Hn Hins Hengine).
  destruct vs as [|v vs]; [simpl in Hlen; lia|].
  apply Forall_cons in Hdead as [[h ->] _].
  pose proof (heap_wf_fresh s Hwf) as (Hnz & _).
  cbn [convert_outputs convert_output_tensor].
  rewrite decide_True by done.
  unfold convert_from_dangling_tensor.
  split.
  - intros Hhead.
    unfold mbind, M_bind.
    rewrite (malloc_succeeds _ (after_call s) Hhead).
    rewrite decide_False by done.
    erewrite store_struct_some by (simpl; apply lookup_insert_eq).
    done.
  - intros Hhead. unfold mbind, M_bind, malloc. simpl.
    destruct (malloc_oracle s) as [|[] rest]; try done.
    simpl. eexists _, _. split; [reflexivity|]. done.
Qed.

(** X11: a successful call and the release of its output balance.  When
    the engine returns at most sixteen values and the call succeeds,
    [et_flutter_free_forward_output] on the returned output is defined,
    resets the count to zero, and leaves the heap with exactly the blocks
    it held before the call; the engine has been invoked once. *)
Theorem forward_then_free_restores_heap (model_data : ETFlutterModelData)
    (inp : ETFlutterForwardInput) (s s1 : state) (ins outs : list EValue)
    (o : ETFlutterForwardOutput) :
  heap_wf s →
  0 < num_inputs inp →
  convert_inputs SizesType_cast (Z.to_nat (num_inputs inp)) 0 inp [] s
  = Some (inr ins, s) →
  module_forward model_data ins = Returned (Ok outs) →
  (length outs ≤ 16)%nat →
  et_flutter_forward SizesType_cast (Some model_data) (Some inp) s
  = Some (o, s1) →
  code (error o) = ET_FLUTTER_SUCCESS →
  ∃ o' s2,
    et_flutter_free_forward_output (Some o) s1 = Some (Some o', s2)
    ∧ num_outputs o' = 0
    ∧ blocks s2 = blocks s
    ∧ engine_calls s2 = S (engine_calls s).
Proof.
  intros Hwf Hn Hins Hengine Hlen Hrun Hcode.
  rewrite (forward_reaches_outputs _ _ _ _ _ _ Hn Hins Hengine) in Hrun.
  destruct (convert_outputs_spec (blocks s) outs 0 _ _ _ _
              (Nat.le_0_l 16) (slots_owned_after_call s outs Hwf) Hrun)
    as [Hcalls [(Hmem & _)|(_ & Hcount & Hown & _)]]; [congruence|].
  rewrite Nat.add_0_l, Nat.min_l in Hown by done.
  destruct Hown as (_ & Hslots & Hrel & _).
  assert (Hnum : Z.to_nat (num_outputs o) = length outs).
  { rewrite Hcount. cbn. unfold to_int32. rewrite Z.mod_small by lia. lia. }
  unfold et_flutter_free_forward_output. rewrite Hnum.
  unfold mbind, M_bind.
  rewrite free_outputs_release by lia. rewrite drop_0, Hrel.
  eexists _, _. split; [reflexivity|]. split_and!; try done.
Qed.

End ForwardInputs.

(** * Further properties: the owning copy *)

Lemma malloc_refuses (size : Z) (s : state) :
  head (malloc_oracle s) = Some false →
  malloc size s
  = Some (0%N, mkState (blocks s) (next_addr s) (tail (malloc_oracle s))
                       (engine_calls s)).
Proof.
  unfold malloc. destruct (malloc_oracle s) as [|[] rest]; try done.
Qed.

(** The owning copy when it cannot complete: the first allocation is
    refused, the scalar type has no dtype, or the buffer allocation is
    refused. *)
Lemma convert_from_refused (tensor : Tensor) (s : state) :
  heap_wf s →
  head (malloc_oracle s) = Some false
  ∨ dtype_of_scalar_type (scalar_type tensor) = None
  ∨ (num_dims (copied_shape tensor) ≤ ET_FLUTTER_MAX_TENSOR_DIMS
     ∧ head (tail (malloc_oracle s)) = Some false) →
  ∃ s', convert_from_executorch_tensor tensor s = Some (0%N, s')
        ∧ blocks s' = blocks s.
Proof.
  intros Hwf Hwhy.
  pose proof (heap_wf_fresh s Hwf) as (Hnz & Hfresh & Hfresh').
  unfold convert_from_executorch_tensor.
  destruct (decide (head (malloc_oracle s) = Some false)) as [Ho1|Ho1].
  { rewrite (bind_eq _ _ _ _ _ (malloc_refuses _ s Ho1)).
    rewrite decide_True by done. eexists. split; [reflexivity|done]. }
  rewrite (bind_eq _ _ _ _ _ (malloc_succeeds _ s Ho1)).
  rewrite decide_False by done.
  erewrite bind_eq by (eapply store_struct_some; simpl; apply lookup_insert_eq).
  cbn [blocks set_blocks next_addr malloc_oracle engine_calls].
  rewrite insert_insert_eq.
  destruct (dtype_of_scalar_type (scalar_type tensor)) as [dt|] eqn:Hdt.
  2:{ erewrite bind_eq
        by (eapply free_some; [done|simpl; apply lookup_insert_eq]).
      cbn [blocks set_blocks next_addr malloc_oracle engine_calls].
      rewrite delete_insert_eq, delete_id by done.
      eexists. split; [reflexivity|done]. }
  destruct Hwhy as [?|[?|[Hrank Ho2]]]; [done|done|].
  rewrite decide_True by done. cbv zeta.
  erewrite bind_eq by (apply malloc_refuses; exact Ho2).
  cbn [blocks set_blocks next_addr malloc_oracle engine_calls].
  erewrite bind_eq by (eapply store_struct_some; simpl; apply lookup_insert_eq).
  rewrite decide_True by done.
  cbn [blocks set_blocks next_addr malloc_oracle engine_calls].
  erewrite bind_eq
    by (eapply free_some; [done|simpl; apply lookup_insert_eq]).
  cbn [blocks set_blocks next_addr malloc_oracle engine_calls].
  rewrite !insert_insert_eq, delete_insert_eq, delete_id by done.
  eexists. split; [reflexivity|done].
Qed.

(** X12: the owning copy returns NULL for exactly three reasons, and
    leaks in none of them.  On a well-formed heap,
    [convert_from_executorch_tensor] returns NULL when, and only when,
    the struct allocation is refused, the native scalar type is none of
    Float, Int, Char, Byte, or the buffer allocation is refused; in each
    case it is defined and the heap holds exactly the blocks it held
    before; otherwise the struct it returns is a new, non-NULL block. *)
Theorem convert_from_null_is_clean (tensor : Tensor) (s : state) :
  heap_wf s →
  (head (malloc_oracle s) = Some false
   ∨ dtype_of_scalar_type (scalar_type tensor) = None
   ∨ (num_dims (copied_shape tensor) ≤ ET_FLUTTER_MAX_TENSOR_DIMS
      ∧ head (tail (malloc_oracle s)) = Some false) →
   ∃ s', convert_from_executorch_tensor tensor s = Some (0%N, s')
         ∧ blocks s' = blocks s)
  ∧ (∀ p s',
       convert_from_executorch_tensor tensor s = Some (p, s') →
       (p = 0%N → blocks s' = blocks s)
       ∧ (p = 0%N →
          head (malloc_oracle s) = Some false
          ∨ dtype_of_scalar_type (scalar_type tensor) = None
          ∨ (num_dims (copied_shape tensor) ≤ ET_FLUTTER_MAX_TENSOR_DIMS
             ∧ head (tail (malloc_oracle s)) = Some false))
       ∧ (p ≠ 0%N →
          blocks s !! p = None ∧ ∃ r, blocks s' !! p = Some (BStruct r))).
Proof.
  intros Hwf. split; [by apply convert_from_refused|].
  intros p s' Hrun.
  pose proof (heap_wf_fresh s Hwf) as (Hnz & Hfresh & Hfresh').
  destruct (convert_from_cases tensor s s' p Hwf Hrun)
    as (_ & _ & [[-> Hsame]|(-> & Hp & r & b & Hr & Hgrown)]).
  - split; [done|]. split; [|done]. intros _.
    destruct (decide (head (malloc_oracle s) = Some false)) as [?|Ho1];
      [auto|].
    destruct (dtype_of_scalar_type (scalar_type tensor)) as [dt|] eqn:Hdt;
      [|auto].
    right. right.
    revert Hrun. unfold convert_from_executorch_tensor.
    rewrite (bind_eq _ _ _ _ _ (malloc_succeeds _ s Ho1)).
    rewrite decide_False by done.
    erewrite bind_eq
      by (eapply store_struct_some; simpl; apply lookup_insert_eq).
    rewrite Hdt. case_decide as Hrank; [|done]. cbv zeta. intros Hrun.
    split; [done|].
    destruct (decide (head (tail (malloc_oracle s)) = Some false))
      as [?|Ho2]; [done|]. exfalso. revert Hrun.
    erewrite bind_eq by (apply malloc_succeeds; exact Ho2).
    cbn [blocks set_blocks next_addr malloc_oracle engine_calls].
    intros Hrun. apply bind_inv in Hrun as (u1 & s1 & _ & Hrun).
    rewrite decide_False in Hrun by lia.
    apply bind_inv in Hrun as (u2 & s2 & _ & Hrun).
    apply bind_inv in Hrun as (u3 & s3 & _ & Hrun).
    injection Hrun as Hp _. done.
  - split; [done|]. split; [done|]. intros _. split; [done|].
    exists r. rewrite Hgrown. rewrite lookup_insert_ne by lia.
    apply lookup_insert_eq.
Qed.

Lemma Forall_positive_fmap (f : Z → Z) (l : list Z) :
  Forall (λ d, 0 < d) (f <$> l) ↔ Forall (λ z, 0 < f z) l.
Proof.
  induction l as [|z l IH]; csimpl; [by split; constructor|].
  rewrite !Forall_cons. tauto.
Qed.

Lemma copied_shape_in_use (tensor : Tensor) :
  (length (sizes tensor) ≤ 8)%nat →
  num_dims (copied_shape tensor) = Z.of_nat (length (sizes tensor))
  ∧ dims_in_use (copied_shape tensor) = to_int64 <$> sizes tensor.
Proof.
  intros Hlen.
  assert (Hrank : num_dims (copied_shape tensor)
                  = Z.of_nat (length (sizes tensor))).
  { unfold copied_shape, dim. cbn [num_dims]. unfold to_int32.
    rewrite Z.mod_small; lia. }
  split; [done|]. unfold dims_in_use. rewrite Hrank, Nat2Z.id.
  unfold copied_shape. cbn [dims].
  change (Z.to_nat ET_FLUTTER_MAX_TENSOR_DIMS) with 8%nat.
  rewrite (take_ge (sizes tensor)) by done.
  rewrite take_app_le by (by rewrite length_fmap).
  apply take_ge. by rewrite length_fmap.
Qed.

(** X13: what the owning copy produces.  For a native tensor of a
    mappable scalar type and rank at most eight, over a buffer that holds
    the bytes, and with both allocations succeeding, the new descriptor
    carries the native sizes as its dimensions in use, a dtype of the
    enumeration, a non-NULL buffer of its own, and the byte size
    recomputed from shape and dtype.  It passes
    [et_flutter_tensor_validate] exactly when the rank is at least one
    and every size is positive: the descriptor of a rank-0 (scalar)
    output is rejected by validation. *)
Theorem converted_output_validates (tensor : Tensor) (s : state) (dt : Z)
    (from : buffer) (error : option ETFlutterError) :
  heap_wf s →
  allocations_succeed 2 (malloc_oracle s) →
  dtype_of_scalar_type (scalar_type tensor) = Some dt →
  (length (sizes tensor) ≤ 8)%nat →
  blocks s !! const_data_ptr tensor = Some (BData from) →
  et_flutter_tensor_data_size
    (Some (mkTensor (copied_shape tensor) dt 0%N 0 (name zeroed_tensor)))
  ≤ buf_len from →
  ∃ p s' r,
    convert_from_executorch_tensor tensor s = Some (p, s')
    ∧ blocks s' !! p = Some (BStruct r)
    ∧ num_dims (shape r) = Z.of_nat (length (sizes tensor))
    ∧ dims_in_use (shape r) = to_int64 <$> sizes tensor
    ∧ dtype r = dt ∧ supported_dtype dt
    ∧ data r ≠ 0%N ∧ data r ≠ const_data_ptr tensor
    ∧ data_size r = et_flutter_tensor_data_size (Some r)
    ∧ cstr (name r) = []
    ∧ ((et_flutter_tensor_validate (Some r) error).1 = ET_FLUTTER_SUCCESS
       ↔ sizes tensor ≠ [] ∧ Forall (λ z, 0 < to_int64 z) (sizes tensor)).
Proof.
  intros Hwf Halloc Hdt Hlen Hfrom Hbytes.
  destruct (allocations_succeed_heads _ Halloc) as [Ho1 Ho2].
  pose proof (heap_wf_fresh s Hwf) as (Hnz & Hfresh & Hfresh').
  destruct (copied_shape_in_use tensor Hlen) as [Hrank Hused].
  eexists _, _, _. split.
  { apply (convert_from_copies tensor s dt from); try done.
    rewrite Hrank. unfold ET_FLUTTER_MAX_TENSOR_DIMS. lia. }
  cbn [blocks]. split.
  { rewrite lookup_insert_ne by lia. apply lookup_insert_eq. }
  cbn [shape dtype data data_size name].
  split; [done|]. split; [done|]. split; [done|]. split.
  { unfold supported_dtype. destruct (scalar_type tensor);
      simplify_eq/=; unfold ET_FLUTTER_DTYPE_FLOAT32, ET_FLUTTER_DTYPE_INT32,
        ET_FLUTTER_DTYPE_INT8, ET_FLUTTER_DTYPE_UINT8; lia. }
  split; [lia|]. split; [congruence|]. split; [done|]. split; [done|].
  match goal with |- (et_flutter_tensor_validate (Some ?r) _).1 = _ ↔ _ =>
    set (out := r) end.
  assert (Hout_used : dims_in_use (shape out) = to_int64 <$> sizes tensor)
    by done.
  assert (Hout_rank : num_dims (shape out) = Z.of_nat (length (sizes tensor)))
    by done.
  split.
  - intros Hok. apply validate_success_inv in Hok as (Hnd & Hpos & _ & _).
    rewrite Hout_rank in Hnd. rewrite Hout_used in Hpos.
    split; [intros Hnil; rewrite Hnil in Hnd; simpl in Hnd; lia|].
    by apply Forall_positive_fmap.
  - intros [Hne Hpos].
    rewrite validate_structurally_sound.
    + rewrite decide_False by (subst out; cbn [data]; lia).
      rewrite decide_False; [done|]. intros Hbad. by apply Hbad.
    + rewrite Hout_rank. unfold ET_FLUTTER_MAX_TENSOR_DIMS.
      destruct (sizes tensor); [done|]. simpl length in *. lia.
    + rewrite Hout_used.
      by apply Forall_positive_fmap.
Qed.

(** * Further properties: loading and disposing a model *)

Lemma strncpy_length (dst src : list ascii) (n : nat) :
  (n ≤ length dst)%nat → length (strncpy dst src n) = length dst.
Proof.
  intros Hn. unfold strncpy.
  rewrite !length_app, length_replicate, length_drop.
  assert (length (take n (cstr src)) ≤ n)%nat by (rewrite length_take; lia).
  lia.
Qed.

Lemma cstr_clean (l : list ascii) : zero ∉ l → cstr l = l.
Proof.
  intros Hl. rewrite <- (app_nil_r l) at 1.
  rewrite cstr_app_clean by done. apply app_nil_r.
Qed.

Lemma load_failed_shape (c : ETFlutterErrorCode) (text : string) :
  c ≠ ET_FLUTTER_SUCCESS →
  (∃ a rest, text = String a rest ∧ a ≠ zero) →
  error_invariant (lr_error (load_failed c text))
  ∧ length (message (lr_error (load_failed c text))) = 256%nat
  ∧ length (lr_file_path (load_failed c text)) = 512%nat
  ∧ lr_file_path (load_failed c text) !! 511%nat = Some zero
  ∧ lr_model_handle (load_failed c text) = None
  ∧ code (lr_error (load_failed c text)) = c
  ∧ cstr (lr_file_path (load_failed c text)) = [].
Proof.
  intros Hc Htext. unfold load_failed. cbn [lr_error lr_file_path lr_model_handle].
  split; [by apply write_error_keeps_invariant|].
  split; [by apply write_error_length|].
  split_and!; try done.
Qed.

Ltac load_failure :=
  left;
  refine (ex_intro _ _ (ex_intro _ _ (conj _ (conj _ (conj eq_refl _)))));
  [done|visible_text|].

(** The result of the loader, branch by branch. *)
Lemma load_model_cases (fs : filesystem)
    (open_module : string → open_outcome) (file_path : option string)
    (live : nat) :
  (∃ c text,
     c ≠ ET_FLUTTER_SUCCESS
     ∧ (∃ a rest, text = String a rest ∧ a ≠ zero)
     ∧ (et_flutter_load_model fs open_module file_path live).1
       = load_failed c text
     ∧ (file_path = None ∧ c = ET_FLUTTER_ERROR_INVALID_ARGUMENT
        ∧ (et_flutter_load_model fs open_module file_path live).2 = live
        ∨ (∃ p, file_path = Some p ∧ ¬ file_is_loadable fs p)
          ∧ c = ET_FLUTTER_ERROR_IO
          ∧ (et_flutter_load_model fs open_module file_path live).2 = live
        ∨ (∃ p, file_path = Some p ∧ file_is_loadable fs p
                ∧ ¬ engine_throws open_module p)
          ∧ c = ET_FLUTTER_ERROR_MODEL_LOAD
          ∧ (et_flutter_load_model fs open_module file_path live).2 = live
        ∨ (∃ p, file_path = Some p ∧ file_is_loadable fs p
                ∧ engine_throws open_module p)
          ∧ c = ET_FLUTTER_ERROR_MODEL_LOAD
          ∧ (et_flutter_load_model fs open_module file_path live).2
            = S live))
  ∨ (∃ p m,
       file_path = Some p ∧ file_is_loadable fs p
       ∧ ¬ engine_throws open_module p
       ∧ open_module p = Opened m
       ∧ native_load m = StepReturned 0
       ∧ native_load_forward m = StepReturned 0
       ∧ et_flutter_load_model fs open_module file_path live
         = (mkLoadResult
              (lr_error fresh_load_result)
              (Some (mkModel (native_forward m) p))
              (<[511%nat := zero]>
                 (strncpy (lr_file_path fresh_load_result)
                          (list_ascii_of_string p) 511)),
            S live)).
Proof.
  unfold et_flutter_load_model, file_is_loadable, engine_throws.
  destruct file_path as [p|].
  2:{ load_failure. left. done. }
  cbn [et_flutter_platform_file_exists et_flutter_platform_file_readable].
  destruct (stat_size fs p) as [size|] eqn:Hstat.
  2:{ rewrite decide_True by done.
      load_failure. right. left. split_and!; try done.
      exists p. split; [done|]. rewrite Hstat. intros [[? ?] _]. done. }
  rewrite decide_False by done.
  destruct (access_read fs p) eqn:Hacc.
  2:{ rewrite decide_True by done.
      load_failure. right. left. split_and!; try done.
      exists p. split; [done|]. rewrite Hacc. intros [_ ?]. done. }
  rewrite decide_False by done.
  assert (Hloadable : is_Some (stat_size fs p) ∧ access_read fs p = true)
    by (rewrite Hstat, Hacc; eauto).
  destruct (open_module p) as [m|what|] eqn:Hopen.
  2,3: load_failure; do 3 right; split_and!; try done;
       exists p; rewrite Hopen; done.
  destruct (native_load m) as [e|what|] eqn:Hload.
  2,3: load_failure; do 3 right; split_and!; try done;
       exists p; rewrite Hopen, Hload; done.
  case_decide as He.
  { load_failure. do 2 right. left. split_and!; try done.
    exists p. rewrite Hopen, Hload. split_and!; try done. tauto. }
  assert (e = 0) as -> by (destruct (decide (e = 0)); tauto).
  destruct (native_load_forward m) as [e2|what|] eqn:Hfwd.
  2,3: load_failure; do 3 right; split_and!; try done;
       exists p; rewrite Hopen, Hload, Hfwd; done.
  case_decide as He2.
  { load_failure. do 2 right. left. split_and!; try done.
    exists p. rewrite Hopen, Hload, Hfwd. split_and!; try done. tauto. }
  assert (e2 = 0) as -> by (destruct (decide (e2 = 0)); tauto).
  right. exists p, m. rewrite Hopen, Hload, Hfwd. split_and!; try done. tauto.
Qed.

(** X14: the result of the loader is always consistent.  Whatever the
    path, the file system and the engine, the error record has an empty
    message exactly when its code is SUCCESS and fills its 256 bytes; the
    echoed path fills its 512 bytes and ends in NUL; the handle is
    non-NULL exactly when the code is SUCCESS; and when the code is not
    SUCCESS the echoed path is empty. *)
Theorem load_result_is_consistent (fs : filesystem)
    (open_module : string → open_outcome) (file_path : option string)
    (live : nat) :
  let r := (et_flutter_load_model fs open_module file_path live).1 in
  error_invariant (lr_error r)
  ∧ length (message (lr_error r)) = 256%nat
  ∧ length (lr_file_path r) = 512%nat
  ∧ lr_file_path r !! 511%nat = Some zero
  ∧ (is_Some (lr_model_handle r) ↔ code (lr_error r) = ET_FLUTTER_SUCCESS)
  ∧ (code (lr_error r) ≠ ET_FLUTTER_SUCCESS → cstr (lr_file_path r) = []).
Proof.
  intros r. subst r.
  destruct (load_model_cases fs open_module file_path live)
    as [(c & text & Hc & Htext & -> & _)
       |(p & m & _ & _ & _ & _ & _ & _ & ->)].
  - destruct (load_failed_shape c text Hc Htext)
      as (Hinv & Hlen & Hpath & Hnul & Hhandle & Hcode & Hempty).
    split_and!; try done.
    rewrite Hhandle, Hcode. split; [by intros [? ?]|done].
  - cbn [fst lr_error lr_file_path lr_model_handle].
    assert (Hlen : length (<[511%nat := zero]>
                     (strncpy (lr_file_path fresh_load_result)
                              (list_ascii_of_string p) 511)) = 512%nat).
    { rewrite length_insert, strncpy_length; [done|]. simpl. lia. }
    split; [apply reset_error_invariant|]. split; [done|].
    split; [done|]. split; [apply list_lookup_insert_eq; rewrite length_insert in Hlen; lia|].
    split; [|done]. split; [done|eauto].
Qed.

(** X15: when the loader succeeds, and what it hands back.  The code is
    SUCCESS exactly when the path is non-NULL, [stat] and
    [access(R_OK)] both succeed for it, the module is constructed, and
    [load] and [load_forward] both return [Error::Ok]; the handle then
    holds that module and the whole path, one model object has been
    created, and the echoed path is the path cut to 511 characters.  A
    path that fails a file probe is answered with IO before the engine
    is consulted: the result is the same for every engine. *)
Theorem load_succeeds_exactly_when (fs : filesystem)
    (open_module : string → open_outcome) (file_path : option string)
    (live : nat) :
  let r := (et_flutter_load_model fs open_module file_path live).1 in
  (code (lr_error r) = ET_FLUTTER_SUCCESS
   ↔ ∃ p m, file_path = Some p ∧ file_is_loadable fs p
       ∧ open_module p = Opened m
       ∧ native_load m = StepReturned 0
       ∧ native_load_forward m = StepReturned 0)
  ∧ (∀ p m, file_path = Some p → file_is_loadable fs p →
       open_module p = Opened m →
       native_load m = StepReturned 0 →
       native_load_forward m = StepReturned 0 →
       lr_model_handle r = Some (mkModel (native_forward m) p)
       ∧ (et_flutter_load_model fs open_module file_path live).2 = S live
       ∧ (zero ∉ list_ascii_of_string p →
          cstr (lr_file_path r) = take 511 (list_ascii_of_string p)))
  ∧ (∀ p, file_path = Some p → ¬ file_is_loadable fs p →
       code (lr_error r) = ET_FLUTTER_ERROR_IO
       ∧ ∀ other_engine,
           et_flutter_load_model fs other_engine file_path live
           = et_flutter_load_model fs open_module file_path live)
  ∧ (file_path = None →
     code (lr_error r) = ET_FLUTTER_ERROR_INVALID_ARGUMENT).
Proof.
  intros r. subst r.
  destruct (load_model_cases fs open_module file_path live)
    as [(c & text & Hc & Htext & Hr & Hwhy)
       |(p & m & -> & Hfile & Hquiet & Hopen & Hload & Hfwd & Hr)].
  - rewrite Hr.
    destruct (load_failed_shape c text Hc Htext)
      as (_ & _ & _ & _ & _ & Hcode & _).
    rewrite Hcode. split_and!.
    + split; [done|]. intros (p & m & -> & Hfile & Hopen & Hload & Hfwd).
      destruct Hwhy as [(? & _)|[((q & [= <-] & Hno) & _)
                       |[((q & [= <-] & _ & Hquiet) & _ & _)
                        |((q & [= <-] & _ & Hthrows) & _)]]]; try done.
      * revert Hr. unfold et_flutter_load_model, file_is_loadable in *.
        cbn [et_flutter_platform_file_exists
             et_flutter_platform_file_readable].
        destruct Hfile as [[size ->] ->].
        rewrite !decide_False by done. rewrite Hopen, Hload, Hfwd.
        rewrite !decide_False by (by intros ?). done.
      * unfold engine_throws in Hthrows.
        rewrite Hopen, Hload, Hfwd in Hthrows. tauto.
    + intros p m -> Hfile Hopen Hload Hfwd. exfalso. revert Hr.
      unfold et_flutter_load_model, file_is_loadable in *.
      cbn [et_flutter_platform_file_exists
           et_flutter_platform_file_readable].
      destruct Hfile as [[size ->] ->].
      rewrite !decide_False by done. rewrite Hopen, Hload, Hfwd.
      rewrite !decide_False by (by intros ?). done.
    + intros p -> Hno.
      destruct Hwhy as [(? & _)|[(_ & -> & _)
                       |[((q & [= <-] & ? & _) & _)
                        |((q & [= <-] & ? & _) & _)]]]; try done.
      split; [done|]. intros other.
      unfold et_flutter_load_model, file_is_loadable in *.
      cbn [et_flutter_platform_file_exists
           et_flutter_platform_file_readable].
      destruct (stat_size fs p) as [size|]; [|done].
      rewrite decide_False by done.
      destruct (access_read fs p); [|done].
      exfalso. apply Hno. eauto.
    + intros ->.
      destruct Hwhy as [(_ & -> & _)|[((q & ? & _) & _)
                       |[((q & ? & _) & _)|((q & ? & _) & _)]]]; done.
  - rewrite Hr. cbn [fst snd lr_error lr_model_handle lr_file_path].
    split_and!.
    + split; [|done]. intros _. by exists p, m.
    + intros q m' [= <-] _ Hopen' _ _.
      rewrite Hopen in Hopen'. injection Hopen' as <-.
      split_and!; try done. intros Hclean.
      rewrite cstr_strncpy. by rewrite cstr_clean.
    + intros q [= <-] Hno. done.
    + done.
Qed.

(** X16: loading and disposing balance, unless the engine throws.  When
    the engine does not throw, disposing the handle the loader returned
    (NULL after a failure, which is a no-op) leaves as many model objects
    as there were before the load.  When a loadable file makes the engine
    throw, the loader returns a NULL handle with MODEL_LOAD while the
    model object it created still exists: the [catch] clauses do not
    delete it. *)
Theorem load_dispose_balance (fs : filesystem)
    (open_module : string → open_outcome) (file_path : option string)
    (live : nat) :
  let r := (et_flutter_load_model fs open_module file_path live).1 in
  let live' := (et_flutter_load_model fs open_module file_path live).2 in
  ((∀ p, file_path = Some p → file_is_loadable fs p →
      ¬ engine_throws open_module p) →
   et_flutter_dispose_model (lr_model_handle r) live' = live)
  ∧ (∀ p, file_path = Some p → file_is_loadable fs p →
       engine_throws open_module p →
       lr_model_handle r = None
       ∧ code (lr_error r) = ET_FLUTTER_ERROR_MODEL_LOAD
       ∧ live' = S live
       ∧ et_flutter_dispose_model (lr_model_handle r) live' = S live)
  ∧ et_flutter_dispose_model None live = live.
Proof.
  intros r live'. subst r live'.
  destruct (load_model_cases fs open_module file_path live)
    as [(c & text & Hc & Htext & Hr & Hwhy)
       |(p & m & -> & Hfile & Hquiet & Hopen & Hload & Hfwd & Hr)].
  - rewrite Hr.
    destruct (load_failed_shape c text Hc Htext)
      as (_ & _ & _ & _ & Hhandle & Hcode & _).
    rewrite Hhandle, Hcode. cbn [et_flutter_dispose_model].
    destruct Hwhy as [(-> & _ & ->)|[((q & -> & Hno) & _ & ->)
                     |[((q & -> & ? & Hquiet) & _ & ->)
                      |((q & -> & Hfile & Hthrows) & -> & ->)]]].
    + split_and!; try done.
    + split_and!; try done. by intros p [= <-] ? _.
    + split_and!; try done. by intros p [= <-] _ ?.
    + split_and!; try done. intros Hquiet. by destruct (Hquiet q).
  - rewrite Hr. cbn [fst snd lr_model_handle et_flutter_dispose_model].
    split_and!; try done. by intros q [= <-] _ ?.
Qed.

(** * Further properties: the file probes *)

(** X17: the three file probes agree with each other.  Each answers 0
    for a NULL path; existence and readability are 0 or 1; the size is a
    [size_t]; and the size is 0 whenever the file does not exist, so a
    size of 0 does not tell a missing file from an empty one. *)
Theorem file_probes_agree (fs : filesystem) (path : option string) :
  (et_flutter_platform_file_exists fs path = 0
   ∨ et_flutter_platform_file_exists fs path = 1)
  ∧ (et_flutter_platform_file_readable fs path = 0
     ∨ et_flutter_platform_file_readable fs path = 1)
  ∧ 0 ≤ et_flutter_platform_file_size fs path < 2 ^ 64
  ∧ (et_flutter_platform_file_exists fs path = 0 →
     et_flutter_platform_file_size fs path = 0)
  ∧ (0 < et_flutter_platform_file_size fs path →
     et_flutter_platform_file_exists fs path = 1)
  ∧ et_flutter_platform_file_exists fs None = 0
  ∧ et_flutter_platform_file_readable fs None = 0
  ∧ et_flutter_platform_file_size fs None = 0
  ∧ (∀ p, path = Some p → stat_size fs p = Some 0 →
       et_flutter_platform_file_exists fs path = 1
       ∧ et_flutter_platform_file_size fs path = 0).
Proof.
  destruct path as [p|]; simpl.
  2:{ split_and!; auto; try lia. done. }
  destruct (stat_size fs p) as [size|] eqn:Hstat;
    destruct (access_read fs p); split_and!; auto; try lia;
    try (unfold to_size_t; apply Z.mod_pos_bound; lia);
    try (intros q [= <-] Hq; rewrite Hstat in Hq; simplify_eq; done).
Qed.

Section InputBounds.

Context (SizesType_cast : Z → Z).

(** The input loop from index [i], when every slot up to the end of the
    array converts and more iterations are asked for than slots are
    left. *)
Lemma convert_inputs_overruns (n : nat) :
  ∀ (i : nat) (inp : ETFlutterForwardInput) (acc vs : list EValue)
    (s : state),
    (i ≤ length (inputs inp) < i + n)%nat →
    Forall2 (views_as SizesType_cast) (drop i (inputs inp)) vs →
    convert_inputs SizesType_cast n i inp acc s = None.
Proof.
  induction n as [|n IH]; intros i inp acc vs s Hn Hall; [lia|].
  simpl. destruct (inputs inp !! i) as [p|] eqn:Hp; [|done].
  rewrite (drop_S _ _ _ Hp) in Hall.
  destruct vs as [|v vs]; [by apply Forall2_cons_nil_inv in Hall|].
  apply Forall2_cons in Hall as [Hv Hall].
  destruct (convert_to_view SizesType_cast p v s Hv) as (t & -> & Hconv).
  rewrite (bind_eq _ _ _ _ _ Hconv).
  apply (IH (S i) inp _ vs); [|done].
  apply lookup_lt_Some in Hp. lia.
Qed.

(** X18: the input count is not checked against the input array.  With
    an input count above the number of slots the array has, and every
    slot holding an input that converts, the call reads the slot behind
    the end of the array: its behaviour is undefined, whatever the
    engine. *)
Theorem forward_overruns_input_array (model_data : ETFlutterModelData)
    (inp : ETFlutterForwardInput) (s : state) (vs : list EValue) :
  Z.of_nat (length (inputs inp)) < num_inputs inp →
  Forall2 (views_as SizesType_cast) (inputs inp) vs →
  et_flutter_forward SizesType_cast (Some model_data) (Some inp) s = None.
Proof.
  intros Hn Hall. unfold et_flutter_forward.
  rewrite decide_False by lia.
  unfold mbind, M_bind.
  by rewrite (convert_inputs_overruns _ 0 inp [] vs s) by (done || lia).
Qed.

End InputBounds.

(** * Releasing an output twice *)

(** A defined run of the release loop stayed inside the slot array. *)
Lemma free_outputs_bound (n : nat) :
  ∀ (i : nat) (slots : list N) (s : state) (x : unit * state),
    free_outputs n i slots s = Some x →
    n = 0%nat ∨ (i + n ≤ length slots)%nat.
Proof.
  induction n as [|n IH]; intros i slots s [u s2] Hrun; [by left|right].
  simpl in Hrun.
  destruct (slots !! i) as [p|] eqn:Hp; [|done].
  apply lookup_lt_Some in Hp.
  apply bind_inv in Hrun as (u' & s1 & _ & Hrest).
  apply IH in Hrest as [-> | Hle]; lia.
Qed.

(** Releasing never adds a block. *)
Lemma release_shrinks (slots : list N) :
  ∀ (m m' : gmap N block) (q : N),
    release slots m = Some m' → m !! q = None → m' !! q = None.
Proof.
  induction slots as [|p rest IH]; intros m m' q Hrel Hq; simpl in Hrel.
  { by simplify_eq. }
  case_decide as Hnz; [|by eapply IH].
  destruct (m !! p) as [[t|b]|] eqn:Hp; try done.
  case_decide as Hd.
  - eapply IH; [exact Hrel|]. by apply lookup_delete_None; right.
  - destruct (m !! data t); [|done].
    destruct (delete (data t) m !! p); [|done].
    eapply IH; [exact Hrel|].
    apply lookup_delete_None; right. by apply lookup_delete_None; right.
Qed.

(** After a release no released address holds a block. *)
Lemma release_removes (slots : list N) :
  ∀ (m m' : gmap N block) (p : N),
    release slots m = Some m' → p ∈ slots → p ≠ 0%N → m' !! p = None.
Proof.
  induction slots as [|p0 rest IH]; intros m m' p Hrel Hin Hnz; simpl in Hrel.
  { by apply elem_of_nil in Hin. }
  apply elem_of_cons in Hin as [-> | Hin].
  - rewrite decide_True in Hrel by done.
    destruct (m !! p0) as [[t|b]|] eqn:Hp; try done.
    case_decide as Hd.
    + eapply release_shrinks; [exact Hrel|]. by apply lookup_delete_None; left.
    + destruct (m !! data t); [|done].
      destruct (delete (data t) m !! p0); [|done].
      eapply release_shrinks; [exact Hrel|]. by apply lookup_delete_None; left.
  - case_decide as Hnz0; [|by eapply IH].
    destruct (m !! p0) as [[t|b]|] eqn:Hp; try done.
    case_decide as Hd; [by eapply IH|].
    destruct (m !! data t); [|done].
    destruct (delete (data t) m !! p0); [|done].
    by eapply IH.
Qed.

(** Releasing addresses that hold no block is undefined as soon as one of
    them is not NULL. *)
Lemma release_fails (slots : list N) (m : gmap N block) :
  (∀ p, p ∈ slots → p ≠ 0%N → m !! p = None) →
  (∃ p, p ∈ slots ∧ p ≠ 0%N) →
  release slots m = None.
Proof.
  induction slots as [|p0 rest IH]; intros Hgone (p & Hin & Hnz).
  { by apply elem_of_nil in Hin. }
  simpl. case_decide as Hnz0.
  - rewrite (Hgone p0) by (done || by left). done.
  - apply IH.
    + intros q Hq. apply Hgone. by right.
    + apply elem_of_cons in Hin as [-> | Hin]; [|by exists p].
      exfalso. apply Hnz. by destruct (decide (p0 = 0%N)).
Qed.

(** X19: releasing an output twice.  [et_flutter_free_forward_output]
    resets the count and nothing else: the slots keep the addresses of
    the freed structs.  So a second call on the struct it updated is a
    no-op; but a call on a copy of the struct that was made before the
    first call, and that has a non-NULL slot within its count, frees
    twice: its behaviour is undefined. *)
Theorem free_forward_output_twice (o o' : ETFlutterForwardOutput)
    (s s' : state) :
  et_flutter_free_forward_output (Some o) s = Some (Some o', s') →
  o' = with_num_outputs o 0
  ∧ outputs o' = outputs o
  ∧ et_flutter_free_forward_output (Some o') s' = Some (Some o', s')
  ∧ ((∃ i p, (i < Z.to_nat (num_outputs o))%nat
             ∧ outputs o !! i = Some p ∧ p ≠ 0%N) →
     et_flutter_free_forward_output (Some o) s' = None).
Proof.
  intros Hrun. unfold et_flutter_free_forward_output in Hrun.
  apply bind_inv in Hrun as ([] & s1 & Hloop & Hret).
  injection Hret as <- <-.
  split; [done|]. split; [done|]. split; [done|].
  intros (i & p & Hi & Hp & Hnz).
  pose proof (free_outputs_bound _ _ _ _ _ Hloop) as [Hn | Hn]; [lia|].
  rewrite free_outputs_release in Hloop by done.
  rewrite drop_0 in Hloop.
  destruct (release (take (Z.to_nat (num_outputs o)) (outputs o)) (blocks s))
    as [m'|] eqn:Hrel; [|done].
  injection Hloop as <-.
  unfold et_flutter_free_forward_output, mbind, M_bind.
  rewrite free_outputs_release by done.
  rewrite drop_0. cbn [blocks set_blocks].
  rewrite release_fails; [done| |].
  - intros q Hq Hqnz. by eapply release_removes.
  - exists p. split; [|done].
    apply elem_of_take. by exists i.
Qed.

(** One tensor output, released through the struct and then through a
    copy of it. *)
Lemma free_forward_output_twice_witness :
  ∃ o s1 o' s2,
    et_flutter_forward to_int32
      (Some (sample_engine [EV_Tensor sample_native]))
      (Some sample_input) (sample_state [])
    = Some (o, s1)
    ∧ et_flutter_free_forward_output (Some o) s1 = Some (Some o', s2)
    ∧ et_flutter_free_forward_output (Some o') s2 = Some (Some o', s2)
    ∧ et_flutter_free_forward_output (Some o) s2 = None.
Proof.
  eassert (Hrun : et_flutter_forward to_int32
             (Some (sample_engine [EV_Tensor sample_native]))
             (Some sample_input) (sample_state [])
           = Some (_, _)) by (vm_compute; reflexivity).
  match type of Hrun with
  | _ = Some (?o, ?s1) =>
      eassert (Hfree : et_flutter_free_forward_output (Some o) s1
                       = Some (Some _, _)) by (vm_compute; reflexivity)
  end.
  destruct (free_forward_output_twice _ _ _ _ Hfree)
    as (_ & _ & Hagain & Hcopy).
  eexists _, _, _, _. split; [exact Hrun|]. split; [exact Hfree|].
  split; [exact Hagain|].
  apply Hcopy. exists 0%nat, 2%N. split; [simpl; lia|]. done.
Defined.

(** * The properties above at concrete inputs *)

(** Dimensions -1 and 3 of four-byte elements: 2^64 - 3 elements and
    2^64 - 12 bytes. *)
Lemma sizes_wrap_modulo_2_64_witness :
  dims_read_in_bounds (shape negative_tensor)
  ∧ et_flutter_tensor_data_size (Some negative_tensor)
    = 18446744073709551604
  ∧ et_flutter_shape_element_count (Some (shape negative_tensor))
    = 18446744073709551613.
Proof.
  assert (Hin : dims_read_in_bounds (shape negative_tensor))
    by (unfold dims_read_in_bounds; simpl; lia).
  split; [exact Hin|].
  destruct (sizes_wrap_modulo_2_64 negative_tensor) as (Hwithin & _).
  destruct (Hwithin Hin) as (_ & Hsize & Hcount).
  split; [rewrite Hsize|rewrite Hcount]; reflexivity.
Defined.

(** The sample tensor converts, and so does the one whose stated size is
    wrong. *)
Lemma sample_views :
  views_as to_int32 (Some sample_tensor)
           (handed_over sample_tensor).
Proof.
  exists sample_tensor, ScalarType.Byte.
  split_and!; [done|done|done|simpl; lia|done].
Qed.


(** A copy of a source whose stated size is wrong: answered with
    VALIDATION, destination and memory as before. *)
Lemma tensor_copy_outcome_witness :
  et_flutter_tensor_copy (Some missized_tensor) (Some sample_tensor) None
                         (sample_state [])
  = Some ((ET_FLUTTER_ERROR_VALIDATION, Some sample_tensor, None),
          sample_state [])
  ∧ (ET_FLUTTER_ERROR_VALIDATION = ET_FLUTTER_SUCCESS
     ↔ ∃ t d, Some missized_tensor = Some t ∧ Some sample_tensor = Some d
         ∧ (et_flutter_tensor_validate (Some t) None).1 = ET_FLUTTER_SUCCESS).
Proof.
  assert (Hrun : et_flutter_tensor_copy (Some missized_tensor)
                   (Some sample_tensor) None (sample_state [])
                 = Some ((ET_FLUTTER_ERROR_VALIDATION, Some sample_tensor,
                          None), sample_state []))
    by (vm_compute; reflexivity).
  split; [exact Hrun|].
  exact (proj1 (tensor_copy_outcome _ _ _ _ _ _ _ _ Hrun)).
Defined.

(** A copy of the sample tensor into a descriptor with a NULL data
    pointer and a name without NUL. *)
Lemma copied_descriptor_is_well_formed_witness :
  (et_flutter_tensor_validate (Some sample_tensor) None).1 = ET_FLUTTER_SUCCESS
  ∧ ∃ d',
      et_flutter_tensor_copy (Some sample_tensor)
        (Some (mkTensor (mkShape 0 (replicate 8 0)) 0 0%N 0
                        (replicate 64 "a"%char)))
        None (sample_state [])
      = Some ((ET_FLUTTER_SUCCESS, Some d', None), sample_state [])
      ∧ (et_flutter_tensor_validate (Some d') None).1
        = ET_FLUTTER_ERROR_INVALID_ARGUMENT
      ∧ length (name d') = 64%nat ∧ zero ∈ name d'.
Proof.
  split; [reflexivity|].
  eassert (Hrun : et_flutter_tensor_copy (Some sample_tensor)
                    (Some (mkTensor (mkShape 0 (replicate 8 0)) 0 0%N 0
                                    (replicate 64 "a"%char)))
                    None (sample_state [])
                  = Some ((ET_FLUTTER_SUCCESS, Some _, None), sample_state []))
    by (vm_compute; reflexivity).
  destruct (copied_descriptor_is_well_formed sample_tensor _ None None
              _ _ _ _ _ eq_refl Hrun)
    as (d' & Hd & _ & Hnull & Hname).
  exists d'. injection Hd as Hd. rewrite Hd in Hrun.
  split; [exact Hrun|].
  split; [exact (Hnull eq_refl)|].
  exact (Hname eq_refl).
Defined.

(** Two tensor outputs, the second of which cannot be allocated. *)
Lemma failed_forward_leaves_nothing_witness :
  heap_wf (sample_state [true; true; false])
  ∧ ∃ o s',
      et_flutter_forward to_int32
        (Some (sample_engine [EV_Tensor sample_native; EV_Tensor sample_native]))
        (Some sample_input) (sample_state [true; true; false])
      = Some (o, s')
      ∧ code (error o) = ET_FLUTTER_ERROR_MEMORY
      ∧ num_outputs o = 0
      ∧ blocks s' = blocks (sample_state [true; true; false])
      ∧ et_flutter_free_forward_output (Some o) s' = Some (Some o, s').
Proof.
  split; [apply heap_wf_sample|].
  eassert (Hrun : et_flutter_forward to_int32
             (Some (sample_engine
                      [EV_Tensor sample_native; EV_Tensor sample_native]))
             (Some sample_input) (sample_state [true; true; false])
           = Some (_, _)) by (vm_compute; reflexivity).
  eexists _, _. split; [exact Hrun|]. split; [reflexivity|].
  apply (failed_forward_leaves_nothing to_int32 _ _ _ _ _
           (heap_wf_sample _) Hrun).
  vm_compute; discriminate.
Defined.




(** One tensor output, released again. *)
Lemma forward_then_free_restores_heap_witness :
  heap_wf (sample_state [])
  ∧ ∃ o s1 o' s2,
      et_flutter_forward to_int32
        (Some (sample_engine [EV_Tensor sample_native]))
        (Some sample_input) (sample_state [])
      = Some (o, s1)
      ∧ et_flutter_free_forward_output (Some o) s1 = Some (Some o', s2)
      ∧ num_outputs o' = 0
      ∧ blocks s2 = blocks (sample_state [])
      ∧ engine_calls s2 = 1%nat.
Proof.
  split; [apply heap_wf_sample|].
  eassert (Hrun : et_flutter_forward to_int32
             (Some (sample_engine [EV_Tensor sample_native]))
             (Some sample_input) (sample_state [])
           = Some (_, _)) by (vm_compute; reflexivity).
  eassert (Hins : convert_inputs to_int32 (Z.to_nat (num_inputs sample_input))
                    0 sample_input [] (sample_state [])
                  = Some (inr _, sample_state []))
    by (vm_compute; reflexivity).
  destruct (forward_then_free_restores_heap to_int32
              (sample_engine [EV_Tensor sample_native]) sample_input
              (sample_state []) _ _ [EV_Tensor sample_native] _
              (heap_wf_sample []) ltac:(simpl; lia) Hins eq_refl
              ltac:(simpl; lia) Hrun eq_refl)
    as (o' & s2 & Hfree & Hcount & Hblocks & Hcalls).
  eexists _, _, o', s2. split; [exact Hrun|]. done.
Defined.

(** The struct allocation is refused. *)
Lemma convert_from_null_is_clean_witness :
  heap_wf (sample_state [false])
  ∧ ∃ s',
      convert_from_executorch_tensor sample_native (sample_state [false])
      = Some (0%N, s')
      ∧ blocks s' = blocks (sample_state [false]).
Proof.
  split; [apply heap_wf_sample|].
  apply (proj1 (convert_from_null_is_clean sample_native
                  (sample_state [false]) (heap_wf_sample _))).
  left. reflexivity.
Defined.

(** The sample native tensor, copied out. *)
Lemma converted_output_validates_witness :
  heap_wf (sample_state [])
  ∧ ∃ p s' r,
      convert_from_executorch_tensor sample_native (sample_state [])
      = Some (p, s')
      ∧ blocks s' !! p = Some (BStruct r)
      ∧ dims_in_use (shape r) = [4]
      ∧ dtype r = ET_FLUTTER_DTYPE_UINT8
      ∧ data_size r = et_flutter_tensor_data_size (Some r)
      ∧ (et_flutter_tensor_validate (Some r) None).1 = ET_FLUTTER_SUCCESS.
Proof.
  split; [apply heap_wf_sample|].
  destruct (converted_output_validates sample_native (sample_state [])
              ET_FLUTTER_DTYPE_UINT8 sample_buffer None)
    as (p & s' & r & Hrun & Hblock & _ & Hdims & Hdt & _ & _ & _ & Hsize
        & _ & Hvalid).
  - apply heap_wf_sample.
  - apply Forall_nil_2.
  - reflexivity.
  - simpl; lia.
  - reflexivity.
  - vm_compute; discriminate.
  - exists p, s', r. split; [exact Hrun|]. split; [exact Hblock|].
    split; [exact Hdims|]. split; [exact Hdt|].
    split; [exact Hsize|].
    apply Hvalid. split; [done|]. repeat constructor.
Defined.

(** The model file of the sample file system, loaded by a module that
    loads. *)
Lemma load_succeeds_exactly_when_witness :
  file_is_loadable sample_fs "model.pte"
  ∧ code (lr_error (et_flutter_load_model sample_fs (λ _, Opened sample_module)
                      (Some "model.pte") 0).1)
    = ET_FLUTTER_SUCCESS
  ∧ lr_model_handle (et_flutter_load_model sample_fs
                       (λ _, Opened sample_module) (Some "model.pte") 0).1
    = Some (mkModel (native_forward sample_module) "model.pte")
  ∧ (et_flutter_load_model sample_fs (λ _, Opened sample_module)
       (Some "model.pte") 0).2 = 1%nat.
Proof.
  assert (Hfile : file_is_loadable sample_fs "model.pte")
    by (split; [by eexists|reflexivity]).
  split; [exact Hfile|].
  destruct (load_succeeds_exactly_when sample_fs (λ _, Opened sample_module)
              (Some "model.pte") 0) as (Hiff & Hhandle & _).
  split.
  - apply Hiff. exists "model.pte", sample_module. done.
  - destruct (Hhandle "model.pte" sample_module eq_refl Hfile eq_refl
                eq_refl eq_refl) as (Hh & Hlive & _).
    split; [exact Hh|exact Hlive].
Defined.

(** The same file, with an engine whose constructor throws. *)
Lemma load_dispose_balance_witness :
  file_is_loadable sample_fs "model.pte"
  ∧ engine_throws (λ _, OpenThrewStd "bad header") "model.pte"
  ∧ lr_model_handle (et_flutter_load_model sample_fs
                       (λ _, OpenThrewStd "bad header")
                       (Some "model.pte") 0).1 = None
  ∧ (et_flutter_load_model sample_fs (λ _, OpenThrewStd "bad header")
       (Some "model.pte") 0).2 = 1%nat.
Proof.
  assert (Hfile : file_is_loadable sample_fs "model.pte")
    by (split; [by eexists|reflexivity]).
  split; [exact Hfile|]. split; [exact I|].
  destruct (load_dispose_balance sample_fs (λ _, OpenThrewStd "bad header")
              (Some "model.pte") 0) as (_ & Hthrow & _).
  destruct (Hthrow "model.pte" eq_refl Hfile I) as (Hh & _ & Hlive & _).
  split; [exact Hh|exact Hlive].
Defined.

(** Seventeen inputs announced over the sixteen slots. *)
Lemma forward_overruns_input_array_witness :
  et_flutter_forward to_int32 (Some (sample_engine []))
    (Some (mkInput 17 (replicate 16 (Some sample_tensor))))
    (sample_state [])
  = None.
Proof.
  apply (forward_overruns_input_array to_int32 (sample_engine [])
           (mkInput 17 (replicate 16 (Some sample_tensor)))
           (sample_state [])
           (replicate 16 (handed_over sample_tensor))).
  - simpl; lia.
  - simpl. repeat (apply Forall2_cons; split; [apply sample_views|]).
    apply Forall2_nil_2.
Defined.

(** The sample tensor, which validation accepts, sent through an engine
    that is the identity. *)
Lemma round_trip_reads_dead_tensor_witness :
  (et_flutter_tensor_validate (Some sample_tensor) None).1 = ET_FLUTTER_SUCCESS
  ∧ heap_wf (sample_state [])
  ∧ convert_to_executorch_tensor to_int32 (Some sample_tensor) (sample_state [])
    = Some (Ok (mkDangling (native_view to_int32 sample_tensor
                                        ScalarType.Byte)),
            sample_state [])
  ∧ et_flutter_forward to_int32 (Some pass_through_engine)
      (Some sample_input) (sample_state [])
    = None.
Proof.
  split; [reflexivity|]. split; [apply heap_wf_sample|].
  split; [reflexivity|].
  destruct (round_trip_reads_dead_tensor to_int32 pass_through_engine
              sample_input (sample_state []) [handed_over sample_tensor])
    as (_ & _ & Hundefined & _).
  - apply heap_wf_sample.
  - simpl; lia.
  - simpl. apply Forall2_cons; split; [|apply Forall2_nil_2].
    exists sample_tensor, ScalarType.Byte.
    split_and!; [done|done|done|simpl; lia|done].
  - reflexivity.
  - reflexivity.
  - by apply Hundefined.
Defined.
